(** * moltbot-audit: the audit and harden scripts, embedded and verified

    [src/audit.py] reports security findings about a JSON configuration
    file; [src/harden.py] proposes fixes for some of them, asks for
    confirmation on standard input and rewrites the file.

    The scripts are embedded shallowly: a parsed document is a value of
    [json], Python's operations on such values ([dict.get], [==], [len],
    truthiness, item assignment) are functions with the exceptions they
    raise, and whatever touches the outside (terminal, standard input, the
    random source, the file and its backup) is an action of the monad [M]
    over an explicit [world]. *)

From Stdlib Require Import List String Ascii ZArith Bool Arith Lia.
From Stdlib.Strings Require Import Byte.
Import ListNotations.
Open Scope string_scope.

Set Warnings "-register-all".

(** ** Python strings

    A [str] is modelled by a [string] whose characters are the code points
    below 256. *)

Module PyStr.

Definition chr (n : nat) : string := String (ascii_of_nat n) EmptyString.

(** The line feed of ["\n"] and the escape character of ["\033"]. *)
Definition nl : string := chr 10.
Definition esc : string := chr 27.

(** [s[:n]] *)
Fixpoint take (n : nat) (s : string) : string :=
  match n, s with
  | S n', String c s' => String c (take n' s')
  | _, _ => EmptyString
  end.

(** [s[n:]] for [n >= 0] *)
Fixpoint drop (n : nat) (s : string) : string :=
  match n, s with
  | S n', String _ s' => drop n' s'
  | _, _ => s
  end.

(** [s[-n:]] for [n > 0]: the start index [len(s) - n] is clamped at 0. *)
Definition last (n : nat) (s : string) : string :=
  drop (String.length s - n) s.

(** [p] is the beginning of [s]. *)
Fixpoint is_prefix (p s : string) : bool :=
  match p, s with
  | EmptyString, _ => true
  | String a p', String b s' => Ascii.eqb a b && is_prefix p' s'
  | String _ _, EmptyString => false
  end.

(** [s.startswith(p)] *)
Definition startswith (s p : string) : bool := is_prefix p s.

(** [sub in s] *)
Fixpoint occurs (sub s : string) : bool :=
  is_prefix sub s ||
  match s with
  | EmptyString => false
  | String _ s' => occurs sub s'
  end.

(** [c.isspace()] on the code points below 256: TAB..CR, FS..US, space,
    NEL and the no-break space. *)
Definition isspace (c : ascii) : bool :=
  let n := nat_of_ascii c in
  (((9 <=? n) && (n <=? 13)) || ((28 <=? n) && (n <=? 32))
   || (n =? 133) || (n =? 160))%nat.

Fixpoint lstrip (s : string) : string :=
  match s with
  | String c s' => if isspace c then lstrip s' else s
  | EmptyString => EmptyString
  end.

Fixpoint rstrip (s : string) : string :=
  match s with
  | String c s' =>
      match rstrip s' with
      | EmptyString => if isspace c then EmptyString else String c EmptyString
      | t => String c t
      end
  | EmptyString => EmptyString
  end.

(** [s.strip()] *)
Definition strip (s : string) : string := rstrip (lstrip s).

(** [c.lower()] on the code points below 256: the letters A..Z and the
    Latin-1 capitals 0xC0..0xDE (the multiplication sign 0xD7 apart)
    move up by 32. *)
Definition lower_char (c : ascii) : ascii :=
  let n := nat_of_ascii c in
  if (((65 <=? n) && (n <=? 90))
      || ((192 <=? n) && (n <=? 222) && negb (n =? 215)))%nat
  then ascii_of_nat (n + 32) else c.

(** [s.lower()] *)
Fixpoint lower (s : string) : string :=
  match s with
  | String c s' => String (lower_char c) (lower s')
  | EmptyString => EmptyString
  end.

End PyStr.

(** ** JSON documents, as [json.load] returns them *)

Inductive json : Type :=
| JNull                                   (* None *)
| JBool (b : bool)
| JInt (n : Z)
| JFloat (bits : Z)                       (* the 64 bits of the double *)
| JStr (s : string)
| JList (l : list json)
| JDict (items : list (string * json)).   (* in insertion order *)

Inductive exn : Type :=
| EOFError | AttributeError | TypeError | UnboundLocalError | OSError.

Module Py.

(** Lookup of a key among the items of a dict. *)
Fixpoint assoc (k : string) (items : list (string * json)) : option json :=
  match items with
  | [] => None
  | (k', v) :: rest => if String.eqb k k' then Some v else assoc k rest
  end.

(** [d[k] = v] on the items of a dict: an existing key keeps its place,
    a new one goes last. *)
Fixpoint update (k : string) (v : json) (items : list (string * json))
  : list (string * json) :=
  match items with
  | [] => [(k, v)]
  | (k', v') :: rest =>
      if String.eqb k k' then (k', v) :: rest else (k', v') :: update k v rest
  end.

(** The value of a key among the items of a dict, or [default]. *)
Definition lookup (items : list (string * json)) (k : string) (default : json)
  : json :=
  match assoc k items with Some v => v | None => default end.

(** [node.get(k, default)]: only a dict has the method. *)
Definition get (node : json) (k : string) (default : json) : exn + json :=
  match node with
  | JDict items => inr (lookup items k default)
  | _ => inl AttributeError
  end.

(** [node[k] = v] with a string key. *)
Definition setitem (node : json) (k : string) (v : json) : exn + json :=
  match node with
  | JDict items => inr (JDict (update k v items))
  | _ => inl TypeError
  end.

(** [node.items()] *)
Definition items (node : json) : exn + list (string * json) :=
  match node with
  | JDict l => inr l
  | _ => inl AttributeError
  end.

(** [v == s] for a string literal [s]: a value that is not a [str] is
    never equal to one. *)
Definition eq_str (v : json) (s : string) : bool :=
  match v with
  | JStr t => String.eqb t s
  | _ => false
  end.

(** [v in [s1, s2, ...]] for string literals. *)
Definition in_strs (v : json) (l : list string) : bool :=
  existsb (eq_str v) l.

(** [len(v)] *)
Definition len (v : json) : exn + nat :=
  match v with
  | JStr s => inr (String.length s)
  | JList l => inr (List.length l)
  | JDict l => inr (List.length l)
  | _ => inl TypeError
  end.

(** [bool(v)], as [if v] and [not v] test it. *)
Definition truthy (v : json) : bool :=
  match v with
  | JNull => false
  | JBool b => b
  | JInt n => negb (n =? 0)%Z
  | JFloat bits => negb (Z.land bits (2 ^ 63 - 1) =? 0)%Z
  | JStr s => negb (String.eqb s EmptyString)
  | JList l => match l with [] => false | _ => true end
  | JDict l => match l with [] => false | _ => true end
  end.

End Py.

(** ** What the scripts print *)

Module Colors.
Import PyStr.
Definition HEADER : string := esc ++ "[95m".
Definition BLUE : string := esc ++ "[94m".
Definition GREEN : string := esc ++ "[92m".
Definition WARNING : string := esc ++ "[93m".
Definition FAIL : string := esc ++ "[91m".
Definition ENDC : string := esc ++ "[0m".
Definition BOLD : string := esc ++ "[1m".
End Colors.

(** A piece of an f-string: literal text, an interpolated value of the
    document, or an interpolated object the model does not hold (the path,
    an exception), named by its source expression. *)
Inductive frag : Type :=
| Lit (s : string)
| Val (v : json)
| Sym (expr : string).

(** The text of a line all of whose interpolated values are strings
    ([str(s)] is [s]); other values are left unrendered. *)
Fixpoint render (l : list frag) : option string :=
  match l with
  | [] => Some EmptyString
  | Lit s :: rest => option_map (append s) (render rest)
  | Val (JStr s) :: rest => option_map (append s) (render rest)
  | _ :: _ => None
  end.

(** The bracketed label of a report line, and the check that printed it. *)
Inductive severity : Type := Pass | Info | Warn | Fail | Critical.

Inductive category : Type :=
| Permissions | GatewayBind | GatewayAuth | Channels | ChannelDm | ChannelGroup
| SecretLeak.

(** One call of [print] or the prompt of one call of [input]. A line that
    reports the outcome of a check is a [Finding], tagged with its label
    ([[PASS]], [[INFO]], [[WARN]], [[FAIL]], [[CRITICAL]]) and its check. *)
Inductive out : Type :=
| Plain (text : list frag)
| Finding (sev : severity) (cat : category) (text : list frag)
| Prompt (text : list frag)
| Box (title subtitle : string).          (* the four lines of the banner *)

Definition is_finding (o : out) : bool :=
  match o with Finding _ _ _ => true | _ => false end.

Definition findings (l : list out) : list out := filter is_finding l.

Definition text_of (o : out) : list frag :=
  match o with
  | Plain t | Finding _ _ t | Prompt t => t
  | Box a b => [Lit a; Lit b]
  end.

(** ** The world outside the process *)

(** What the configuration file holds: the text found there, with what
    [json.load] makes of it ([None] when it does not parse); the text
    [json.dump(cfg, f, indent=2)] wrote; or what is left of it when the
    dump failed after the file was opened for writing. *)
Inductive content : Type :=
| Text (raw : string) (parsed : option json)
| Dumped (cfg : json)
| Truncated (cfg : json).

Record file : Type := mkFile {
  f_content : content;
  f_mode : Z                               (* st_mode *)
}.

(** How [save_config]'s write goes. *)
Inductive write_outcome : Type := WriteOk | OpenFails | DumpFails.

Record world : Type := mkWorld {
  w_windows : bool;             (* platform.system() == "Windows" *)
  w_stdin : list string;        (* the lines still to be read; [] at EOF *)
  w_random : nat -> byte;       (* the bytes of the system's random source *)
  w_drawn : nat;                (* how many of them were drawn *)
  w_file : option file;         (* the configuration file, if it exists *)
  w_backup : option file;       (* the file at the backup path *)
  w_copy_ok : bool;             (* whether shutil.copy2 succeeds *)
  w_chmod_ok : bool;            (* whether os.chmod succeeds *)
  w_write : write_outcome;
  w_out : list out              (* standard output, oldest first *)
}.

(** ** Actions *)

Inductive result (A : Type) : Type :=
| Ok (a : A) (w : world)
| Raise (e : exn) (w : world).

Arguments Ok {A} a w.
Arguments Raise {A} e w.

Definition M (A : Type) : Type := world -> result A.

Definition ret {A} (a : A) : M A := fun w => Ok a w.

Definition mbind {A B} (m : M A) (k : A -> M B) : M B :=
  fun w => match m w with
           | Ok a w' => k a w'
           | Raise e w' => Raise e w'
           end.

Definition raise {A} (e : exn) : M A := fun w => Raise e w.

Declare Scope py_scope.
Delimit Scope py_scope with py.
Notation "x <- m ;; k" := (mbind m (fun x => k))
  (at level 61, m at next level, right associativity) : py_scope.
Notation "' p <- m ;; k" := (mbind m (fun x => let 'p := x in k))
  (at level 61, p pattern, m at next level, right associativity) : py_scope.
Notation "m ;; k" := (mbind m (fun _ => k))
  (at level 61, right associativity) : py_scope.
Open Scope py_scope.

(** [try: body except Exception as e: handler] *)
Definition catch {A} (body : M A) (handler : exn -> M A) : M A :=
  fun w => match body w with
           | Ok a w' => Ok a w'
           | Raise e w' => handler e w'
           end.

(** A pure operation that may raise. *)
Definition lift {A} (r : exn + A) : M A :=
  match r with
  | inr a => ret a
  | inl e => raise e
  end.

Definition final {A} (r : result A) : world :=
  match r with Ok _ w | Raise _ w => w end.

Definition returns {A} (r : result A) : Prop := exists a w, r = Ok a w.

Definition set_stdin (l : list string) (w : world) : world :=
  mkWorld (w_windows w) l (w_random w) (w_drawn w) (w_file w) (w_backup w)
          (w_copy_ok w) (w_chmod_ok w) (w_write w) (w_out w).

Definition set_drawn (n : nat) (w : world) : world :=
  mkWorld (w_windows w) (w_stdin w) (w_random w) n (w_file w) (w_backup w)
          (w_copy_ok w) (w_chmod_ok w) (w_write w) (w_out w).

Definition set_file (f : option file) (w : world) : world :=
  mkWorld (w_windows w) (w_stdin w) (w_random w) (w_drawn w) f (w_backup w)
          (w_copy_ok w) (w_chmod_ok w) (w_write w) (w_out w).

Definition set_backup (f : option file) (w : world) : world :=
  mkWorld (w_windows w) (w_stdin w) (w_random w) (w_drawn w) (w_file w) f
          (w_copy_ok w) (w_chmod_ok w) (w_write w) (w_out w).

Definition add_out (o : out) (w : world) : world :=
  mkWorld (w_windows w) (w_stdin w) (w_random w) (w_drawn w) (w_file w)
          (w_backup w) (w_copy_ok w) (w_chmod_ok w) (w_write w)
          (w_out w ++ [o]).

(** [print(...)] *)
Definition print (o : out) : M unit := fun w => Ok tt (add_out o w).

(** [input(prompt)]: the prompt is written, then a line is read; at end of
    file Python raises [EOFError]. *)
Definition input (prompt : list frag) : M string :=
  fun w =>
    let w' := add_out (Prompt prompt) w in
    match w_stdin w' with
    | [] => Raise EOFError w'
    | line :: rest => Ok line (set_stdin rest w')
    end.

(** [platform.system() == "Windows"] *)
Definition on_windows : M bool := fun w => Ok (w_windows w) w.

(** [os.stat(path).st_mode]; [main] only gets here for a path that exists. *)
Definition os_stat_mode : M Z :=
  fun w => match w_file w with
           | Some f => Ok (f_mode f) w
           | None => Raise OSError w
           end.

(** [os.chmod(path, perms)] replaces the twelve permission bits and keeps
    the file type. *)
Definition chmod_bits (perms mode : Z) : Z :=
  Z.lor (Z.land mode (Z.lnot 4095)) (Z.land perms 4095).

Definition os_chmod (perms : Z) : M unit :=
  fun w => match w_file w, w_chmod_ok w with
           | Some f, true =>
               Ok tt (set_file (Some (mkFile (f_content f)
                                             (chmod_bits perms (f_mode f)))) w)
           | _, _ => Raise OSError w
           end.

(** [binascii.hexlify] of one byte, in lower case. *)
Definition hex_digit (n : nat) : ascii :=
  match n with
  | 0 => "0" | 1 => "1" | 2 => "2" | 3 => "3" | 4 => "4" | 5 => "5"
  | 6 => "6" | 7 => "7" | 8 => "8" | 9 => "9" | 10 => "a" | 11 => "b"
  | 12 => "c" | 13 => "d" | 14 => "e" | _ => "f"
  end%char.

Fixpoint hexlify (bs : list byte) : string :=
  match bs with
  | [] => EmptyString
  | b :: rest =>
      let n := Byte.to_nat b in
      String (hex_digit (n / 16)) (String (hex_digit (n mod 16)) (hexlify rest))
  end.

(** [secrets.token_hex(nbytes)]: [nbytes] fresh random bytes, in hex. *)
Definition token_hex (nbytes : nat) : M string :=
  fun w =>
    let bs := map (w_random w) (seq (w_drawn w) nbytes) in
    Ok (hexlify bs) (set_drawn (w_drawn w + nbytes) w).

(** [shutil.copy2(path, backup_path)] copies the content and the mode. A
    copy that fails is taken to leave the backup path as it was. *)
Definition shutil_copy2 : M unit :=
  fun w => match w_copy_ok w, w_file w with
           | true, Some f => Ok tt (set_backup (Some f) w)
           | _, _ => Raise OSError w
           end.

(** [with open(path, 'w') as f: json.dump(config, f, indent=2)]. Opening
    creates a missing file (with mode 0o100644, the usual umask). *)
Definition write_json (config : json) : M unit :=
  fun w =>
    let mode := match w_file w with Some f => f_mode f | None => 33188%Z end in
    match w_write w with
    | WriteOk => Ok tt (set_file (Some (mkFile (Dumped config) mode)) w)
    | DumpFails => Raise OSError (set_file (Some (mkFile (Truncated config) mode)) w)
    | OpenFails => Raise OSError w
    end.

(** A line [f"{indent}{colour}...{Colors.ENDC}"]. *)
Definition line (indent colour : string) (body : list frag) : list frag :=
  (Lit indent :: Lit colour :: body ++ [Lit Colors.ENDC])%list.

Definition S_IRWXO : Z := 7.     (* 0o007 *)
Definition S_IRWXG : Z := 56.    (* 0o070 *)

(** ** audit.py *)

Module Audit.
Import PyStr Colors.

Definition check_file_permissions : M bool :=
  print (Plain (line "" BLUE [Lit "[*] Checking File Permissions..."]));;
  windows <- on_windows;;
  if windows : bool then
    print (Plain (line "    " WARNING
      [Lit "[!] Windows detected. Permission bits (chmod) do not apply."]));;
    print (Plain (line "    " WARNING
      [Lit ">>> MANUAL CHECK: Right-click file -> Properties -> Security."]));;
    print (Plain [Lit "    Ensure only you and Administrators have read access."]);;
    ret true
  else
    mode <- os_stat_mode;;
    if negb (Z.land mode S_IRWXO =? 0)%Z then
      print (Finding Fail Permissions (line "    " FAIL
        [Lit "[FAIL] Config is world-accessible! (chmod ";
         Sym "oct(mode)[-3:]"; Lit ")"]));;
      print (Plain (line "    " WARNING
        [Lit ">>> FIX: Run 'chmod 600 "; Sym "path"; Lit "'"]));;
      ret false
    else if negb (Z.land mode S_IRWXG =? 0)%Z then
      print (Finding Warn Permissions (line "    " WARNING
        [Lit "[WARN] Config is group-accessible. Ensure group members are trusted."]));;
      ret true
    else
      print (Finding Pass Permissions (line "    " GREEN
        [Lit "[PASS] File permissions are secure (User-only)."]));;
      ret true.

Definition check_gateway (config : json) : M unit :=
  print (Plain (line nl BLUE [Lit "[*] Checking Gateway (API) Security..."]));;
  gateway <- lift (Py.get config "gateway" (JDict []));;
  (* 1. Bind Address *)
  bind <- lift (Py.get gateway "bind" (JStr "loopback"));;
  port <- lift (Py.get gateway "port" (JStr "unknown"));;
  (if Py.in_strs bind ["0.0.0.0"; "all"; "::"] then
     print (Finding Fail GatewayBind (line "    " FAIL
       [Lit "[FAIL] Gateway bound to '"; Val bind; Lit "' on port "; Val port;
        Lit ". Exposed to network!"]))
   else if Py.in_strs bind ["loopback"; "localhost"; "127.0.0.1"] then
     print (Finding Pass GatewayBind (line "    " GREEN
       [Lit "[PASS] Gateway bound to local interface ("; Val bind; Lit ")."]))
   else
     print (Finding Warn GatewayBind (line "    " WARNING
       [Lit "[WARN] Custom bind address '"; Val bind;
        Lit "'. Verify this is intended."])));;
  (* 2. Auth Mode *)
  auth <- lift (Py.get gateway "auth" (JDict []));;
  mode <- lift (Py.get auth "mode" (JStr "token"));;
  if Py.eq_str mode "none" then
    print (Finding Critical GatewayAuth (line "    " FAIL
      [Lit "[CRITICAL] Gateway authentication is DISABLED (mode='none'). Full remote control possible."]))
  else if Py.eq_str mode "token" then
    token <- lift (Py.get auth "token" (JStr ""));;
    n <- lift (Py.len token);;
    if (n <? 16)%nat then
      print (Finding Warn GatewayAuth (line "    " WARNING
        [Lit "[WARN] Gateway token appears short/weak (<16 chars)."]))
    else
      print (Finding Pass GatewayAuth (line "    " GREEN
        [Lit "[PASS] Gateway authentication enabled (Token mode)."]))
  else
    print (Finding Pass GatewayAuth (line "    " GREEN
      [Lit "[PASS] Gateway auth mode: "; Val mode])).

(** The body of the loop of [check_channels], for one item of the
    mapping. The line of an unknown DM policy carries the label [[?]] in
    the warning colour. *)
Definition check_channel (name : string) (settings : json) : M unit :=
  enabled <- lift (Py.get settings "enabled" (JBool false));;
  if negb (Py.truthy enabled) then ret tt   (* continue *)
  else
    print (Plain [Lit "    > Inspecting '"; Val (JStr name); Lit "'..."]);;
    (* DM Policy *)
    dm_policy <- lift (Py.get settings "dmPolicy" (JStr "pairing"));;
    (if Py.eq_str dm_policy "open" then
       print (Finding Fail ChannelDm (line "      " FAIL
         [Lit "[FAIL] DM Policy is 'open'. ANYONE can message this bot."]))
     else if Py.eq_str dm_policy "pairing" then
       print (Finding Pass ChannelDm (line "      " GREEN
         [Lit "[PASS] DM Policy is 'pairing' (Require Auth Code)."]))
     else if Py.eq_str dm_policy "allowlist" then
       print (Finding Pass ChannelDm (line "      " GREEN
         [Lit "[PASS] DM Policy is 'allowlist' (Strict)."]))
     else
       print (Finding Warn ChannelDm (line "      " WARNING
         [Lit "[?] Unknown DM Policy: "; Val dm_policy])));;
    (* Group Policy *)
    group_policy <- lift (Py.get settings "groupPolicy" (JStr "allowlist"));;
    if Py.eq_str group_policy "open" then
      print (Finding Fail ChannelGroup (line "      " FAIL
        [Lit "[FAIL] Group Policy is 'open'. Bot will reply to anyone in groups."]))
    else
      print (Finding Pass ChannelGroup (line "      " GREEN
        [Lit "[PASS] Group Policy is '"; Val group_policy; Lit "'."])).

(** [for name, settings in channels.items(): ...] *)
Fixpoint check_channels_loop (items : list (string * json)) : M unit :=
  match items with
  | [] => ret tt
  | (name, settings) :: rest =>
      check_channel name settings;; check_channels_loop rest
  end.

Definition check_channels (config : json) : M unit :=
  print (Plain (line nl BLUE [Lit "[*] Checking Channel Policies..."]));;
  channels <- lift (Py.get config "channels" (JDict []));;
  if negb (Py.truthy channels) then
    print (Finding Info Channels (line "    " WARNING
      [Lit "[INFO] No channels configured."]))
  else
    items <- lift (Py.items channels);;
    check_channels_loop items.

Definition suspicious_prefixes : list string :=
  ["sk-"; "AIza"; "xoxb-"; "xoxp-"; "ghp_"].

(** [node[:4] + "..." + node[-4:]] *)
Definition masked (node : string) : string :=
  take 4 node ++ "..." ++ last 4 node.

(** The line that reports a value at [path], shown as [masked]. *)
Definition secret_finding (path masked : string) : out :=
  Finding Warn SecretLeak (line "    " WARNING
    [Lit "[WARN] Found potential API Key at '"; Val (JStr path); Lit "': ";
     Val (JStr masked)]).

(** The three lines of advice printed below it. *)
Definition risk_line : out :=
  Plain [Lit "          "; Lit BOLD; Lit "RISK:"; Lit ENDC;
    Lit " Plaintext secrets in config files are easily leaked (git, backups, logs)."].
Definition fix_line_1 : out :=
  Plain [Lit "          "; Lit BOLD; Lit "FIX:"; Lit ENDC;
    Lit "  1. Remove this key from clawdbot.json."].
Definition fix_line_2 : out :=
  Plain [Lit "               2. Set it as an environment variable instead (e.g. in ~/.bashrc or systemd)."].

(** [for prefix in suspicious_prefixes: ...] in the branch of [walk_json]
    for a string. The last [print] of the body formats [k.upper()]: [k] is
    a local name of [walk_json], bound by the loop of the dict branch only,
    so in this call reading it raises [UnboundLocalError] before that
    line is printed. *)
Fixpoint scan_prefixes (node path : string) (prefixes : list string) : M unit :=
  match prefixes with
  | [] => ret tt
  | prefix :: rest =>
      (if startswith node prefix then
         print (secret_finding path (masked node));;
         print risk_line;;
         print fix_line_1;;
         print fix_line_2;;
         k_upper <- raise (A:=string) UnboundLocalError;;
         print (Plain [Lit "               Example: export "; Val (JStr k_upper);
           Lit "_KEY="; Lit (chr 34); Lit "..."; Lit (chr 34);
           Lit " (Check plugin docs for exact variable name)"])
       else ret tt);;
      scan_prefixes node path rest
  end.

Fixpoint walk_json (node : json) (path : string) {struct node} : M unit :=
  match node with
  | JDict items =>
      (fix loop (l : list (string * json)) : M unit :=
         match l with
         | [] => ret tt
         | (k, v) :: rest =>
             walk_json v (if Py.truthy (JStr path) then path ++ "." ++ k else k);;
             loop rest
         end) items
  | JStr s => scan_prefixes s path suspicious_prefixes
  | _ => ret tt
  end.

Definition check_secrets (config : json) : M unit :=
  print (Plain (line nl BLUE [Lit "[*] Checking for Hardcoded Secrets..."]));;
  walk_json config "".

Definition print_banner : M unit :=
  print (Plain [Lit HEADER; Lit BOLD]);;
  print (Box "Moltbot-Audit v1.0" "AI Agent Security Config Scanner");;
  print (Plain [Lit ENDC]).

(** [load_config(config_path)]. For a missing file this version returns a
    bare [None] (here [None]), not the pair [(None, None)] that a file it
    cannot read gives (here [Some None]); [Some (Some config)] stands for
    the pair [(config, path)]. *)
Definition load_config : M (option (option json)) :=
  fun w =>
    match w_file w with
    | None =>
        (print (Plain (line "" FAIL
           [Lit "[!] Config file not found at: "; Sym "path"]));;
         ret None) w
    | Some f =>
        match f_content f with
        | Text _ (Some config) | Dumped config => Ok (Some (Some config)) w
        | Text _ None | Truncated _ =>
            (print (Plain (line "" FAIL
               [Lit "[!] Error reading JSON: "; Sym "e"]));;
             ret (Some None)) w
        end
    end.

Definition target_line : out := Plain [Lit "Target: "; Sym "path"; Lit nl].

Definition complete_line : out :=
  Plain (line nl HEADER [Lit "=== Audit Complete ==="]).

(** [main()]. The assignment [config, path = load_config(...)] unpacks the
    value returned: unpacking [None] raises [TypeError]. *)
Definition main : M unit :=
  print_banner;;
  loaded <- load_config;;
  match loaded with
  | None => raise TypeError
  | Some None => ret tt
  | Some (Some config) =>
      if Py.truthy config then
        print target_line;;
        _ <- check_file_permissions;;
        check_gateway config;;
        check_channels config;;
        check_secrets config;;
        print complete_line
      else ret tt
  end.

End Audit.

(** ** harden.py *)

Module Harden.
Import PyStr Colors.

Definition print_banner : M unit :=
  print (Plain [Lit HEADER; Lit BOLD]);;
  print (Box "OpenClaw Hardener v1.0" "Automated Security Remediation");;
  print (Plain [Lit ENDC]).

(** [load_config(config_path)], by its first component ([None] for
    [(None, None)]). What [json.dump] wrote loads as the value dumped. *)
Definition load_config : M (option json) :=
  fun w =>
    match w_file w with
    | None =>
        (print (Plain (line "" FAIL
           [Lit "[!] Config file not found at: "; Sym "path"]));;
         ret None) w
    | Some f =>
        match f_content f with
        | Text _ (Some config) | Dumped config => Ok (Some config) w
        | Text _ None | Truncated _ =>
            (print (Plain (line "" FAIL
               [Lit "[!] Error reading JSON: "; Sym "e"]));;
             ret None) w
        end
    end.

Definition save_config (config : json) : M bool :=
  catch
    (write_json config;;
     print (Plain (line "" GREEN [Lit "[+] Configuration saved successfully."]));;
     ret true)
    (fun e =>
       print (Plain (line "" FAIL
         [Lit "[!] Error saving configuration: "; Sym "e"]));;
       ret false).

Definition backup_config : M bool :=
  catch
    (shutil_copy2;;
     print (Plain (line "" BLUE
       [Lit "[*] Created backup at: "; Sym "backup_path"]));;
     ret true)
    (fun e =>
       print (Plain (line "" FAIL
         [Lit "[!] Failed to create backup: "; Sym "e"]));;
       ret false).

(** [input(prompt).strip().lower()] *)
Definition ask (prompt : string) : M string :=
  answer <- input [Lit prompt];;
  ret (lower (strip answer)).

(** [choice != 'n'] *)
Definition consents (choice : string) : bool := negb (String.eqb choice "n").

Definition fix_permissions : M bool :=
  print (Plain (line nl BLUE [Lit "[*] Checking File Permissions..."]));;
  windows <- on_windows;;
  if windows : bool then
    print (Plain (line "    " WARNING
      [Lit "[!] Windows detected. Skipping chmod."]));;
    print (Plain (line "    " WARNING
      [Lit ">>> Please restrict file permissions via Windows Explorer."]));;
    ret false
  else
    mode <- os_stat_mode;;
    if negb (Z.land mode S_IRWXO =? 0)%Z || negb (Z.land mode S_IRWXG =? 0)%Z
    then
      print (Plain (line "    " WARNING [Lit "[!] Config is too permissive."]));;
      choice <- ask "    >>> Fix permissions to 600 (User-only)? [Y/n] ";;
      if consents choice then
        os_chmod 384 (* 0o600 *);;
        print (Plain (line "    " GREEN [Lit "[+] Permissions updated to 600."]));;
        ret true
      else ret false
    else
      print (Plain (line "    " GREEN
        [Lit "[PASS] Permissions are already secure."]));;
      ret false.

(** The part [# 1. Bind Address] of [fix_gateway]: the flag [changed] and
    the dict [gateway] after it. *)
Definition fix_bind (gateway : json) : M (bool * json) :=
  bind <- lift (Py.get gateway "bind" (JStr "loopback"));;
  if Py.in_strs bind ["0.0.0.0"; "all"; "::"] then
    print (Plain (line "    " FAIL
      [Lit "[!] Gateway bound to '"; Val bind; Lit "' (Exposed)."]));;
    choice <- ask "    >>> Change bind to 'loopback' (Localhost only)? [Y/n] ";;
    if consents choice then
      gateway <- lift (Py.setitem gateway "bind" (JStr "loopback"));;
      print (Plain (line "    " GREEN
        [Lit "[+] Gateway bind set to 'loopback'."]));;
      ret (true, gateway)
    else ret (false, gateway)
  else ret (false, gateway).

(** The parts [# 2. Auth Mode] and [# Check weak token]. *)
Definition fix_auth (changed : bool) (gateway : json) : M (bool * json) :=
  auth <- lift (Py.get gateway "auth" (JDict []));;
  mode <- lift (Py.get auth "mode" (JStr "token"));;
  if Py.eq_str mode "none" then
    print (Plain (line "    " FAIL
      [Lit "[!] Gateway authentication is DISABLED."]));;
    choice <- ask "    >>> Enable token authentication? [Y/n] ";;
    if consents choice then
      new_token <- token_hex 32;;
      auth <- lift (Py.setitem auth "mode" (JStr "token"));;
      auth <- lift (Py.setitem auth "token" (JStr new_token));;
      gateway <- lift (Py.setitem gateway "auth" auth);;
      print (Plain (line "    " GREEN [Lit "[+] Auth mode enabled."]));;
      print (Plain (line "    " GREEN
        [Lit "[+] Generated strong token: "; Val (JStr new_token)]));;
      ret (true, gateway)
    else ret (changed, gateway)
  else if Py.eq_str mode "token" then
    token <- lift (Py.get auth "token" (JStr ""));;
    n <- lift (Py.len token);;
    if (n <? 16)%nat then
      print (Plain (line "    " WARNING
        [Lit "[!] Gateway token is weak (<16 chars)."]));;
      choice <- ask "    >>> Rotate to a new strong token? [Y/n] ";;
      if consents choice then
        new_token <- token_hex 32;;
        auth <- lift (Py.setitem auth "token" (JStr new_token));;
        gateway <- lift (Py.setitem gateway "auth" auth);;
        print (Plain (line "    " GREEN
          [Lit "[+] Token rotated: "; Val (JStr new_token)]));;
        ret (true, gateway)
      else ret (changed, gateway)
    else ret (changed, gateway)
  else ret (changed, gateway).

(** [fix_gateway(config)] changes [config] in place and returns [changed];
    here it returns the flag with the document as it is afterwards. *)
Definition fix_gateway (config : json) : M (bool * json) :=
  print (Plain (line nl BLUE [Lit "[*] Checking Gateway Security..."]));;
  gateway <- lift (Py.get config "gateway" (JDict []));;
  '(changed, gateway) <- fix_bind gateway;;
  '(changed, gateway) <- fix_auth changed gateway;;
  if changed : bool then
    config <- lift (Py.setitem config "gateway" gateway);;
    ret (true, config)
  else ret (false, config).

(** The body of the loop of [fix_channels] for one item: whether it
    changed the settings, and the settings afterwards. *)
Definition fix_channel (name : string) (settings : json) : M (bool * json) :=
  enabled <- lift (Py.get settings "enabled" (JBool false));;
  if negb (Py.truthy enabled) then ret (false, settings)   (* continue *)
  else
    (* DM Policy *)
    dm_policy <- lift (Py.get settings "dmPolicy" (JStr "pairing"));;
    if Py.eq_str dm_policy "open" then
      print (Plain (line "    " FAIL
        [Lit "[!] '"; Val (JStr name); Lit "' DM Policy is 'open'."]));;
      choice <- ask ("    >>> Change '" ++ name ++ "' DM Policy to 'pairing'? [Y/n] ");;
      if consents choice then
        settings <- lift (Py.setitem settings "dmPolicy" (JStr "pairing"));;
        print (Plain (line "    " GREEN
          [Lit "[+] '"; Val (JStr name); Lit "' DM Policy set to 'pairing'."]));;
        ret (true, settings)
      else ret (false, settings)
    else ret (false, settings).

(** [for name, settings in channels.items(): ...]: each settings dict is
    changed in place, and [channels[name] = settings] binds the name to the
    dict it already holds. *)
Fixpoint fix_channels_loop (items : list (string * json))
  : M (bool * list (string * json)) :=
  match items with
  | [] => ret (false, [])
  | (name, settings) :: rest =>
      '(c1, settings) <- fix_channel name settings;;
      '(c2, rest) <- fix_channels_loop rest;;
      ret (c1 || c2, (name, settings) :: rest)
  end.

Definition fix_channels (config : json) : M (bool * json) :=
  print (Plain (line nl BLUE [Lit "[*] Checking Channel Policies..."]));;
  channels <- lift (Py.get config "channels" (JDict []));;
  if negb (Py.truthy channels) then ret (false, config)
  else
    items <- lift (Py.items channels);;
    '(changed, items) <- fix_channels_loop items;;
    if changed : bool then
      config <- lift (Py.setitem config "channels" (JDict items));;
      ret (true, config)
    else ret (false, config).

Definition abort_line : out :=
  Plain (line "" FAIL [Lit "Aborting due to backup failure."]).

Definition no_changes_line : out :=
  Plain (line nl GREEN
    [Lit "[+] No configuration changes were needed or applied."]).

(** The part [# Save if modified] of [main]. *)
Definition save_if_modified (dry_run changes_made : bool) (config : json)
  : M unit :=
  if changes_made then
    print (Plain (line nl BLUE [Lit "[*] Applying Changes..."]));;
    if dry_run then
      print (Plain (line "" WARNING
        [Lit "[DRY RUN] Config would be saved now."]))
    else
      _ <- save_config config;;
      print (Plain (line "" WARNING
        [Lit ">>> NOTE: You must restart OpenClaw for changes to take effect."]));;
      print (Plain [Lit "    Run: openclaw gateway restart"])
  else print no_changes_line.

(** The part of [main] from [changes_made = False] on: the fixes, then the
    save. A fix of the permissions does not set [changes_made]. *)
Definition run_fixes (dry_run : bool) (config : json) : M unit :=
  _ <- fix_permissions;;
  '(g, config) <- fix_gateway config;;
  '(c, config) <- fix_channels config;;
  save_if_modified dry_run (g || c) config.

(** [main()], with [args.dry_run] as its argument. *)
Definition main (dry_run : bool) : M unit :=
  print_banner;;
  config <- load_config;;
  match config with
  | None => ret tt
  | Some config =>
      if negb (Py.truthy config) then ret tt
      else
        print (Plain [Lit "Target: "; Sym "path"; Lit nl]);;
        (* Backup first *)
        backed_up <- (if negb dry_run then backup_config else ret true);;
        if negb backed_up then print abort_line
        else run_fixes dry_run config
  end.

End Harden.

(** * Properties *)

(** ** Generalities *)

(** Splitting a world into its fields lets the actions compute. *)
Ltac open_world w :=
  let win := fresh "win" in
  let stdin := fresh "stdin" in
  let rnd := fresh "rnd" in
  let drawn := fresh "drawn" in
  let cfile := fresh "cfile" in
  let bak := fresh "bak" in
  let copy := fresh "copy" in
  let chm := fresh "chm" in
  let wr := fresh "wr" in
  let o := fresh "o" in
  destruct w as [win stdin rnd drawn cfile bak copy chm wr o];
  cbn [w_windows w_stdin w_random w_drawn w_file w_backup w_copy_ok
       w_chmod_ok w_write w_out] in *.

(** ** The secret scan on the example document *)

Definition example_config : json :=
  JDict [("a", JDict [("b", JStr "sk-abcdef1234567890")])].

(** C1. On the document [{"a": {"b": "sk-abcdef1234567890"}}] the secret
    scan prints the finding: a line labelled [WARN] of the secret check,
    for the location [a.b], that shows the value as [sk-a...7890]. It does
    not get further: the line that follows the finding and its three lines
    of advice reads [k], which is not bound in the string branch of
    [walk_json], and the call ends with [UnboundLocalError] instead of
    returning. *)
Theorem check_secrets_example (w : world) :
  exists w',
    Audit.check_secrets example_config w = Raise UnboundLocalError w'
    /\ findings (w_out w') =
       (findings (w_out w) ++ [Audit.secret_finding "a.b" "sk-a...7890"])%list
    /\ Audit.secret_finding "a.b" "sk-a...7890" =
       Finding Warn SecretLeak
         (line "    " Colors.WARNING
            [Lit "[WARN] Found potential API Key at '"; Val (JStr "a.b");
             Lit "': "; Val (JStr "sk-a...7890")])
    /\ render (text_of (Audit.secret_finding "a.b" "sk-a...7890")) =
       Some ("    " ++ Colors.WARNING
             ++ "[WARN] Found potential API Key at 'a.b': sk-a...7890"
             ++ Colors.ENDC).
Proof.
  open_world w. eexists. split; [reflexivity|].
  split; [|split; reflexivity].
  cbn. unfold findings. rewrite !filter_app. cbn. now rewrite !app_nil_r.
Qed.

(** ** Strings: slices, prefixes and occurrences *)

Module PyStrFacts.
Import PyStr.

Lemma length_app (a b : string) :
  String.length (a ++ b) = String.length a + String.length b.
Proof. induction a as [|c a IH]; simpl; congruence. Qed.

Lemma app_empty_r (a : string) : a ++ EmptyString = a.
Proof. induction a as [|c a IH]; simpl; congruence. Qed.

Lemma take_drop (n : nat) (s : string) : take n s ++ drop n s = s.
Proof.
  revert s. induction n as [|n IH]; intros [|c s]; simpl; try reflexivity.
  now rewrite IH.
Qed.

Lemma length_take (n : nat) (s : string) :
  String.length (take n s) = Nat.min n (String.length s).
Proof.
  revert s. induction n as [|n IH]; intros [|c s]; simpl; try reflexivity.
  now rewrite IH.
Qed.

Lemma length_drop (n : nat) (s : string) :
  String.length (drop n s) = String.length s - n.
Proof.
  revert s. induction n as [|n IH]; intros [|c s]; simpl; try reflexivity.
  apply IH.
Qed.

Lemma drop_drop (a b : nat) (s : string) : drop a (drop b s) = drop (b + a) s.
Proof.
  revert s. induction b as [|b IH]; intros s; simpl; [reflexivity|].
  destruct s as [|c s]; [now destruct a|]. apply IH.
Qed.

Lemma length_last (n : nat) (s : string) :
  String.length (last n s) = Nat.min n (String.length s).
Proof. unfold last. rewrite length_drop. lia. Qed.

Lemma prefix_cons (a b : ascii) (s t : string) :
  is_prefix (String a s) (String b t) = true <->
  a = b /\ is_prefix s t = true.
Proof.
  simpl. rewrite andb_true_iff, Ascii.eqb_eq. reflexivity.
Qed.

Lemma prefix_length (a b : string) :
  is_prefix a b = true -> String.length a <= String.length b.
Proof.
  revert b. induction a as [|c a IH]; intros b H; simpl; [lia|].
  destruct b as [|d b]; [discriminate|].
  apply prefix_cons in H as [_ H]. apply IH in H. simpl. lia.
Qed.

Lemma prefix_trans (a b c : string) :
  is_prefix a b = true -> is_prefix b c = true ->
  is_prefix a c = true.
Proof.
  revert b c. induction a as [|x a IH]; intros b c Hab Hbc; [reflexivity|].
  destruct b as [|y b]; [discriminate|].
  destruct c as [|z c]; [discriminate|].
  apply prefix_cons in Hab as [-> Hab]. apply prefix_cons in Hbc as [-> Hbc].
  apply prefix_cons. split; [reflexivity|]. eapply IH; eassumption.
Qed.

(** A prefix of [u ++ r] lies within [u] or reaches past it. *)
Lemma prefix_app_cases (p u r : string) :
  is_prefix p (u ++ r) = true ->
  is_prefix p u = true \/ is_prefix u p = true.
Proof.
  revert u. induction p as [|c p IH]; intros u H; [now left|].
  destruct u as [|d u]; [now right|].
  simpl append in H. apply prefix_cons in H as [-> H].
  destruct (IH _ H) as [H'|H']; [left|right]; apply prefix_cons; now split.
Qed.

Fixpoint has_char (q : ascii) (s : string) : bool :=
  match s with
  | EmptyString => false
  | String c s' => Ascii.eqb q c || has_char q s'
  end.

(** A prefix of [u ++ q r] without the character [q] lies within [u]. *)
Lemma prefix_app_stop (q : ascii) (p u r : string) :
  has_char q p = false ->
  is_prefix p (u ++ String q r) = true -> is_prefix p u = true.
Proof.
  revert u. induction p as [|c p IH]; intros u Hq H; [reflexivity|].
  simpl in Hq. apply orb_false_iff in Hq as [Hc Hq].
  destruct u as [|d u].
  - simpl append in H. apply prefix_cons in H as [-> _].
    now rewrite Ascii.eqb_refl in Hc.
  - simpl append in H. apply prefix_cons in H as [-> H].
    apply prefix_cons. split; [reflexivity|]. now apply IH.
Qed.

Lemma occurs_length (sub s : string) :
  occurs sub s = true -> String.length sub <= String.length s.
Proof.
  induction s as [|c s IH]; simpl; intros H.
  - rewrite orb_false_r in H. now apply prefix_length in H.
  - apply orb_true_iff in H as [H|H].
    + now apply prefix_length in H.
    + apply IH in H. lia.
Qed.

Lemma occurs_too_long (sub s : string) :
  String.length s < String.length sub -> occurs sub s = false.
Proof.
  intros H. destruct (occurs sub s) eqn:E; [|reflexivity].
  apply occurs_length in E. lia.
Qed.

(** [clashes p a]: wherever [a] is followed by more text, [p] starts at no
    position of [a]. *)
Fixpoint clashes (p a : string) : bool :=
  match a with
  | EmptyString => true
  | String _ a' =>
      negb (is_prefix p a) && negb (is_prefix a p) && clashes p a'
  end.

(** An occurrence of [s], which begins with [p], does not start in a
    text that clashes with [p]. *)
Lemma occurs_skip (p s a r : string) :
  clashes p a = true -> is_prefix p s = true ->
  occurs s (a ++ r) = occurs s r.
Proof.
  intros Hc Hp. induction a as [|c a IH]; [reflexivity|].
  cbn [clashes] in Hc.
  apply andb_true_iff in Hc as [Hc Ha]. apply andb_true_iff in Hc as [H1 H2].
  simpl append. cbn [occurs]. rewrite (IH Ha).
  destruct (is_prefix s (String c (a ++ r))) eqn:E; [|reflexivity].
  exfalso. pose proof (prefix_trans _ _ _ Hp E) as H.
  change (String c (a ++ r)) with (String c a ++ r) in H.
  destruct (prefix_app_cases _ _ _ H) as [H'|H']; rewrite H' in *; discriminate.
Qed.

(** Nor does it start in a text where [p] does not occur, when that text
    is followed by a character that [p] does not contain. *)
Lemma occurs_skip_free (q : ascii) (p s a r : string) :
  occurs p a = false -> has_char q p = false -> is_prefix p s = true ->
  occurs s (a ++ String q r) = occurs s (String q r).
Proof.
  intros Ha Hq Hp. induction a as [|c a IH]; [reflexivity|].
  cbn [occurs] in Ha. apply orb_false_iff in Ha as [H1 H2].
  rewrite <- (IH H2). simpl append.
  change (occurs s (String c (a ++ String q r)))
    with (is_prefix s (String c (a ++ String q r))
          || occurs s (a ++ String q r)).
  destruct (is_prefix s (String c (a ++ String q r))) eqn:E; [|reflexivity].
  exfalso. pose proof (prefix_trans _ _ _ Hp E) as H.
  change (String c (a ++ String q r)) with (String c a ++ String q r) in H.
  apply prefix_app_stop in H; [|assumption]. congruence.
Qed.

End PyStrFacts.

(** ** The masked rendering of a detected value *)

Module Masking.
Import PyStr PyStrFacts Audit Colors.

(** The scanner detects a string that begins with a known prefix. *)
Definition detected (s : string) : bool :=
  existsb (startswith s) suspicious_prefixes.

(** Whether the text of a printed line contains [s] (a line the model
    does not render counts as if it did). *)
Definition shows (s : string) (o : out) : bool :=
  match render (text_of o) with
  | Some t => occurs s t
  | None => true
  end.

(** What a detected value makes the scan print. *)
Definition report (s path : string) : list out :=
  [secret_finding path (masked s); risk_line; fix_line_1; fix_line_2].

Lemma scan_some (s path : string) (w : world) (prefixes : list string) :
  existsb (startswith s) prefixes = true ->
  exists w',
    scan_prefixes s path prefixes w = Raise UnboundLocalError w'
    /\ w_out w' = (w_out w ++ report s path)%list.
Proof.
  induction prefixes as [|p rest IH]; cbn [existsb scan_prefixes];
    [discriminate|].
  destruct (startswith s p); cbn [orb].
  - intros _. eexists. split; [reflexivity|].
    cbn. now rewrite <- !app_assoc.
  - exact IH.
Qed.

Lemma scan_none (s path : string) (w : world) (prefixes : list string) :
  existsb (startswith s) prefixes = false ->
  scan_prefixes s path prefixes w = Ok tt w.
Proof.
  induction prefixes as [|p rest IH]; cbn [existsb scan_prefixes];
    [reflexivity|].
  destruct (startswith s p); cbn [orb]; [discriminate|exact IH].
Qed.

Lemma detected_by (s p : string) :
  In p suspicious_prefixes -> startswith s p = true -> detected s = true.
Proof.
  intros Hin Hp. apply existsb_exists. now exists p.
Qed.

(** The first four and the last four characters of a value of at least
    eight do not overlap. *)
Lemma first_last_apart (s : string) :
  8 <= String.length s ->
  exists middle,
    s = take 4 s ++ middle ++ last 4 s
    /\ String.length (take 4 s) = 4
    /\ String.length (last 4 s) = 4
    /\ String.length middle = String.length s - 8.
Proof.
  intros H. exists (take (String.length s - 8) (drop 4 s)).
  split; [|split; [|split]].
  - unfold last.
    replace (String.length s - 4)%nat with (4 + (String.length s - 8))%nat by lia.
    now rewrite <- drop_drop, !take_drop.
  - rewrite length_take. lia.
  - rewrite length_last. lia.
  - rewrite length_take, length_drop. lia.
Qed.

Lemma length_masked (s : string) : String.length (masked s) <= 11.
Proof.
  unfold masked. rewrite !length_app, length_take, length_last.
  change (String.length "...") with 3. lia.
Qed.

(** The text of the finding. *)
Definition secret_text (path m : string) : string :=
  "    " ++ WARNING ++ "[WARN] Found potential API Key at '" ++ path
  ++ "': " ++ m ++ ENDC.

Lemma render_secret_finding (path m : string) :
  render (text_of (secret_finding path m)) = Some (secret_text path m).
Proof.
  unfold secret_finding, secret_text. cbn. reflexivity.
Qed.

(** A value that begins with a known prefix, has sixteen characters or
    more and whose prefix is not in the path is not in the finding. *)
Lemma secret_text_hides (s p path : string) :
  In p suspicious_prefixes -> startswith s p = true ->
  16 <= String.length s -> occurs p path = false ->
  occurs s (secret_text path (masked s)) = false.
Proof.
  intros Hin Hp Hlen Hpath. unfold secret_text, startswith in *.
  assert (Hfix : clashes p "    " = true /\ clashes p WARNING = true
                 /\ clashes p "[WARN] Found potential API Key at '" = true
                 /\ clashes p ": " = true
                 /\ has_char "'" p = false).
  { unfold suspicious_prefixes in Hin. cbn [In] in Hin.
    decompose [or] Hin; subst; try contradiction; repeat split;
      vm_compute; reflexivity. }
  destruct Hfix as (H1 & H2 & H3 & H4 & Hq).
  rewrite (occurs_skip _ _ _ _ H1 Hp), (occurs_skip _ _ _ _ H2 Hp),
    (occurs_skip _ _ _ _ H3 Hp).
  change ("': " ++ masked s ++ ENDC) with (String "'" (": " ++ masked s ++ ENDC)).
  rewrite (occurs_skip_free _ _ _ _ _ Hpath Hq Hp).
  change (String "'" (": " ++ masked s ++ ENDC))
    with ("'" ++ ": " ++ masked s ++ ENDC).
  assert (H0 : clashes p "'" = true).
  { unfold suspicious_prefixes in Hin. cbn [In] in Hin.
    decompose [or] Hin; subst; try contradiction; vm_compute; reflexivity. }
  rewrite (occurs_skip _ _ _ _ H0 Hp), (occurs_skip _ _ _ _ H4 Hp).
  apply occurs_too_long. rewrite length_app.
  pose proof (length_masked s). change (String.length ENDC) with 4. lia.
Qed.

(** Nor is it in a fixed text that clashes with the prefix. *)
Lemma fixed_text_hides (s p t : string) :
  clashes p t = true -> is_prefix p s = true -> 1 <= String.length s ->
  occurs s t = false.
Proof.
  intros Hc Hp Hlen. rewrite <- (app_empty_r t), (occurs_skip _ _ _ _ Hc Hp).
  apply occurs_too_long. simpl. lia.
Qed.

Lemma advice_hides (s p : string) :
  In p suspicious_prefixes -> startswith s p = true ->
  1 <= String.length s ->
  shows s risk_line = false /\ shows s fix_line_1 = false
  /\ shows s fix_line_2 = false.
Proof.
  intros Hin Hp Hlen. unfold shows, startswith in *.
  assert (Hfix :
    forall o, In o [risk_line; fix_line_1; fix_line_2] ->
    exists t, render (text_of o) = Some t /\ clashes p t = true).
  { intros o Ho. unfold suspicious_prefixes in Hin. cbn [In] in Hin, Ho.
    decompose [or] Ho; try contradiction; subst o;
      (eexists; split; [vm_compute; reflexivity|]);
      decompose [or] Hin; subst; try contradiction; vm_compute; reflexivity. }
  repeat split.
  - destruct (Hfix risk_line) as (t & -> & Hc); [cbn; auto|].
    eapply fixed_text_hides; eassumption.
  - destruct (Hfix fix_line_1) as (t & -> & Hc); [cbn; auto|].
    eapply fixed_text_hides; eassumption.
  - destruct (Hfix fix_line_2) as (t & -> & Hc); [cbn; auto|].
    eapply fixed_text_hides; eassumption.
Qed.

End Masking.

(** ** Sample inputs *)

(** A POSIX world: a regular file with mode 0o644 that holds [config], no
    backup yet, [answers] waiting on standard input. *)
Definition sample_world (config : json) (answers : list string) : world :=
  mkWorld false answers (fun n => Byte.x2a) 0
          (Some (mkFile (Text "..." (Some config)) 33188)) None
          true true WriteOk [].

(** ** The secret scanner's masking *)

Module MaskingClaims.
Import PyStr PyStrFacts Audit Masking.

(** The masking of a detected value. A string that begins with a known
    prefix makes the scan print the finding and three lines of advice (and
    then stop with [UnboundLocalError]). The finding shows the value as
    [value[:4] + "..." + value[-4:]]. When the value has 8 characters or
    more these are its first four and last four characters, with what lies
    between them replaced by the three dots. When it has 12 or more, the
    masked text does not contain the value; when it has 16 or more and its
    prefix does not occur in the location path, none of the four lines the
    scan prints for it contains the value. *)
Theorem masked_rendering (s p path : string) (w : world) :
  In p suspicious_prefixes -> startswith s p = true ->
  exists w',
    walk_json (JStr s) path w = Raise UnboundLocalError w'
    /\ w_out w' = (w_out w ++ report s path)%list
    /\ masked s = take 4 s ++ "..." ++ last 4 s
    /\ (8 <= String.length s ->
        exists middle,
          s = take 4 s ++ middle ++ last 4 s
          /\ String.length (take 4 s) = 4
          /\ String.length (last 4 s) = 4
          /\ String.length middle = String.length s - 8)
    /\ (12 <= String.length s -> occurs s (masked s) = false)
    /\ (16 <= String.length s -> occurs p path = false ->
        forall o, In o (report s path) -> shows s o = false).
Proof.
  intros Hin Hp.
  destruct (scan_some s path w suspicious_prefixes) as (w' & Hrun & Hout).
  { now apply (detected_by s p). }
  exists w'. split; [exact Hrun|]. split; [exact Hout|].
  split; [reflexivity|]. split; [apply first_last_apart|]. split.
  - intros Hlen. apply occurs_too_long. pose proof (length_masked s). lia.
  - intros Hlen Hpath o Ho.
    destruct (advice_hides s p Hin Hp) as (A1 & A2 & A3); [lia|].
    unfold report in Ho. cbn [In] in Ho.
    destruct Ho as [<-|[<-|[<-|[<-|[]]]]]; try assumption.
    unfold shows. rewrite render_secret_finding.
    now apply (secret_text_hides s p).
Qed.

Lemma masked_rendering_example :
  exists w',
    walk_json (JStr "sk-abcdef1234567890") "a.b" (sample_world JNull [])
    = Raise UnboundLocalError w'
    /\ w_out w' = report "sk-abcdef1234567890" "a.b"
    /\ forall o, In o (report "sk-abcdef1234567890" "a.b") ->
                 shows "sk-abcdef1234567890" o = false.
Proof.
  destruct (masked_rendering "sk-abcdef1234567890" "sk-" "a.b"
              (sample_world JNull []))
    as (w' & Hrun & Hout & _ & _ & _ & Hhide).
  - cbn. auto.
  - reflexivity.
  - exists w'. split; [exact Hrun|]. split; [exact Hout|].
    apply Hhide; [cbn; lia | reflexivity].
Defined.

(** C2. The masking has no guard on the length: the slices [value[:4]]
    and [value[-4:]] overlap on a short value. The four characters [sk-1]
    are detected, and the finding the scan prints shows them in full
    (twice), where the first four and last four characters were to be
    all that is shown. *)
Lemma short_value_is_shown :
  detected "sk-1" = true
  /\ masked "sk-1" = "sk-1...sk-1"
  /\ shows "sk-1" (secret_finding "a.b" (masked "sk-1")) = true
  /\ (exists w',
        walk_json (JStr "sk-1") "a.b" (sample_world JNull [])
        = Raise UnboundLocalError w'
        /\ In (secret_finding "a.b" "sk-1...sk-1") (w_out w'))
  /\ exists w',
       check_secrets (JDict [("a", JDict [("b", JStr "sk-1")])])
                     (sample_world JNull [])
       = Raise UnboundLocalError w'
       /\ In (secret_finding "a.b" "sk-1...sk-1") (w_out w').
Proof.
  repeat split; try reflexivity.
  - eexists. split; [reflexivity|]. cbn. auto.
  - eexists. split; [vm_compute; reflexivity|]. cbn. auto.
Qed.

End MaskingClaims.

(** ** Stepping through the actions *)

(** Unfolds the monad and the primitive actions, and nothing of the data
    they carry. *)
Ltac step :=
  cbv beta iota zeta delta
    [mbind ret raise lift catch print input on_windows os_stat_mode os_chmod
     token_hex shutil_copy2 write_json add_out set_stdin set_drawn set_file
     set_backup w_windows w_stdin w_random w_drawn w_file w_backup w_copy_ok
     w_chmod_ok w_write w_out f_mode f_content final Harden.ask];
  cbn [negb].


(** ** The steps of harden.py, one prompt at a time *)

Module Steps.
Import Harden.

(** The world after some lines were printed and standard input was read
    down to [stdin]. *)
Definition io (stdin : list string) (outs : list out) (w : world) : world :=
  mkWorld (w_windows w) stdin (w_random w) (w_drawn w) (w_file w)
          (w_backup w) (w_copy_ok w) (w_chmod_ok w) (w_write w)
          (w_out w ++ outs).

(** The world after [n] more random bytes were drawn. *)
Definition drew (n : nat) (w : world) : world := set_drawn (w_drawn w + n) w.

(** The token [secrets.token_hex(32)] returns in [w]. *)
Definition fresh_token (w : world) : string :=
  hexlify (map (w_random w) (seq (w_drawn w) 32)).

(** An answer that lets the proposed change happen. *)
Definition consenting (answer : string) : bool :=
  consents (PyStr.lower (PyStr.strip answer)).

Definition exposed : list string := ["0.0.0.0"; "all"; "::"].
Definition local : list string := ["loopback"; "localhost"; "127.0.0.1"].

Definition bind_of (gw : list (string * json)) : json :=
  Py.lookup gw "bind" (JStr "loopback").
Definition auth_of (gw : list (string * json)) : json :=
  Py.lookup gw "auth" (JDict []).
Definition mode_of (auth : list (string * json)) : json :=
  Py.lookup auth "mode" (JStr "token").
Definition token_of (auth : list (string * json)) : json :=
  Py.lookup auth "token" (JStr "").
Definition enabled_of (settings : list (string * json)) : json :=
  Py.lookup settings "enabled" (JBool false).
Definition dm_policy_of (settings : list (string * json)) : json :=
  Py.lookup settings "dmPolicy" (JStr "pairing").

(** As [step], and through Python's operations on values. *)
Ltac step_py :=
  cbv beta iota zeta delta
    [mbind ret raise lift catch print input on_windows os_stat_mode os_chmod
     token_hex shutil_copy2 write_json add_out set_stdin set_drawn set_file
     set_backup w_windows w_stdin w_random w_drawn w_file w_backup w_copy_ok
     w_chmod_ok w_write w_out f_mode f_content final Harden.ask
     Py.get Py.setitem Py.items Py.len io drew fresh_token
     bind_of auth_of mode_of token_of enabled_of dm_policy_of];
  cbn [negb].

(** Closes a goal [Ok r w1 = Ok r (io rest ?outs w)] on opened worlds. *)
Ltac io_done :=
  eexists; step_py; rewrite <- ?app_assoc; reflexivity.

Lemma fix_bind_answer gw w a rest :
  Py.in_strs (bind_of gw) exposed = true -> w_stdin w = a :: rest ->
  exists outs,
    fix_bind (JDict gw) w =
    Ok (consenting a,
        JDict (if consenting a then Py.update "bind" (JStr "loopback") gw
               else gw))
       (io rest outs w).
Proof.
  intros Hb Hin. open_world w. subst stdin.
  unfold fix_bind, consenting, exposed, bind_of in *. step_py. rewrite Hb.
  step_py. destruct (consents _); io_done.
Qed.

Lemma fix_bind_eof gw w :
  Py.in_strs (bind_of gw) exposed = true -> w_stdin w = [] ->
  exists outs, fix_bind (JDict gw) w = Raise EOFError (io [] outs w).
Proof.
  intros Hb Hin. open_world w. subst stdin.
  unfold fix_bind, exposed, bind_of in *. step_py. rewrite Hb. step_py.
  io_done.
Qed.

Lemma fix_bind_quiet gw w :
  Py.in_strs (bind_of gw) exposed = false ->
  fix_bind (JDict gw) w = Ok (false, JDict gw) w.
Proof.
  intros Hb. unfold fix_bind, exposed, bind_of in *. step_py. now rewrite Hb.
Qed.

Lemma fix_auth_none_answer changed gw auth w a rest :
  auth_of gw = JDict auth -> Py.eq_str (mode_of auth) "none" = true ->
  w_stdin w = a :: rest ->
  exists outs,
    fix_auth changed (JDict gw) w =
    if consenting a then
      Ok (true,
          JDict (Py.update "auth"
                   (JDict (Py.update "token" (JStr (fresh_token w))
                             (Py.update "mode" (JStr "token") auth))) gw))
         (drew 32 (io rest outs w))
    else Ok (changed, JDict gw) (io rest outs w).
Proof.
  intros Ha Hm Hin. open_world w. subst stdin.
  unfold fix_auth, consenting in *. step_py. unfold auth_of in Ha. rewrite Ha.
  step_py. unfold mode_of in Hm. rewrite Hm. step_py.
  destruct (consents _); io_done.
Qed.

Lemma fix_auth_none_eof changed gw auth w :
  auth_of gw = JDict auth -> Py.eq_str (mode_of auth) "none" = true ->
  w_stdin w = [] ->
  exists outs, fix_auth changed (JDict gw) w = Raise EOFError (io [] outs w).
Proof.
  intros Ha Hm Hin. open_world w. subst stdin.
  unfold fix_auth in *. step_py. unfold auth_of in Ha. rewrite Ha.
  step_py. unfold mode_of in Hm. rewrite Hm. step_py. io_done.
Qed.

(** The token mode with a token of fewer than 16 characters (or items). *)
Definition weak_token (auth : list (string * json)) : Prop :=
  Py.eq_str (mode_of auth) "none" = false
  /\ Py.eq_str (mode_of auth) "token" = true
  /\ exists n, Py.len (token_of auth) = inr n /\ n < 16.

Lemma fix_auth_weak_answer changed gw auth w a rest :
  auth_of gw = JDict auth -> weak_token auth -> w_stdin w = a :: rest ->
  exists outs,
    fix_auth changed (JDict gw) w =
    if consenting a then
      Ok (true,
          JDict (Py.update "auth"
                   (JDict (Py.update "token" (JStr (fresh_token w)) auth)) gw))
         (drew 32 (io rest outs w))
    else Ok (changed, JDict gw) (io rest outs w).
Proof.
  intros Ha (Hn & Ht & n & Hlen & Hlt) Hin. open_world w. subst stdin.
  unfold fix_auth, consenting in *. step. cbn [Py.get].
  unfold auth_of in Ha. rewrite Ha. step. cbn [Py.get].
  unfold mode_of in Hn, Ht. rewrite Hn, Ht. step.
  unfold token_of in Hlen. rewrite Hlen. step.
  apply Nat.ltb_lt in Hlt. rewrite Hlt. step.
  destruct (consents _); io_done.
Qed.

Lemma fix_auth_weak_eof changed gw auth w :
  auth_of gw = JDict auth -> weak_token auth -> w_stdin w = [] ->
  exists outs, fix_auth changed (JDict gw) w = Raise EOFError (io [] outs w).
Proof.
  intros Ha (Hn & Ht & n & Hlen & Hlt) Hin. open_world w. subst stdin.
  unfold fix_auth in *. step. cbn [Py.get].
  unfold auth_of in Ha. rewrite Ha. step. cbn [Py.get].
  unfold mode_of in Hn, Ht. rewrite Hn, Ht. step.
  unfold token_of in Hlen. rewrite Hlen. step.
  apply Nat.ltb_lt in Hlt. rewrite Hlt. step. io_done.
Qed.

(** Authentication that [fix_auth] leaves alone: a mode other than
    ["none"] and ["token"], or a token of 16 characters or more. *)
Definition settled_auth (auth : list (string * json)) : Prop :=
  Py.eq_str (mode_of auth) "none" = false
  /\ (Py.eq_str (mode_of auth) "token" = true ->
      exists n, Py.len (token_of auth) = inr n /\ 16 <= n).

Lemma fix_auth_quiet changed gw auth w :
  auth_of gw = JDict auth -> settled_auth auth ->
  fix_auth changed (JDict gw) w = Ok (changed, JDict gw) w.
Proof.
  intros Ha (Hn & Ht). unfold fix_auth. step. cbn [Py.get].
  unfold auth_of in Ha. rewrite Ha. step. cbn [Py.get].
  unfold mode_of in Hn, Ht. rewrite Hn.
  destruct (Py.eq_str (Py.lookup auth "mode" (JStr "token")) "token");
    [|reflexivity].
  destruct (Ht eq_refl) as (n & Hlen & Hle). step.
  unfold token_of in Hlen. rewrite Hlen. step.
  apply Nat.ltb_ge in Hle. now rewrite Hle.
Qed.

Lemma fix_channel_answer name st w a rest :
  Py.truthy (enabled_of st) = true ->
  Py.eq_str (dm_policy_of st) "open" = true -> w_stdin w = a :: rest ->
  exists outs,
    fix_channel name (JDict st) w =
    Ok (consenting a,
        JDict (if consenting a then Py.update "dmPolicy" (JStr "pairing") st
               else st))
       (io rest outs w).
Proof.
  intros He Hd Hin. open_world w. subst stdin.
  unfold fix_channel, consenting, enabled_of, dm_policy_of in *.
  step. cbn [Py.get]. step. rewrite He. step. cbn [Py.get]. step.
  rewrite Hd. step. destruct (consents _); step_py; io_done.
Qed.

Lemma fix_channel_eof name st w :
  Py.truthy (enabled_of st) = true ->
  Py.eq_str (dm_policy_of st) "open" = true -> w_stdin w = [] ->
  exists outs, fix_channel name (JDict st) w = Raise EOFError (io [] outs w).
Proof.
  intros He Hd Hin. open_world w. subst stdin.
  unfold fix_channel, enabled_of, dm_policy_of in *.
  step. cbn [Py.get]. step. rewrite He. step. cbn [Py.get]. step.
  rewrite Hd. step. io_done.
Qed.

Lemma fix_channel_skip name st w :
  Py.truthy (enabled_of st) = false ->
  fix_channel name (JDict st) w = Ok (false, JDict st) w.
Proof.
  intros He. unfold fix_channel, enabled_of in *.
  step. cbn [Py.get]. step. now rewrite He.
Qed.

Lemma fix_channel_quiet name st w :
  Py.eq_str (dm_policy_of st) "open" = false ->
  fix_channel name (JDict st) w = Ok (false, JDict st) w.
Proof.
  intros Hd. unfold fix_channel, dm_policy_of in *.
  step. cbn [Py.get]. step.
  destruct (Py.truthy _); [|reflexivity]. step. cbn [Py.get]. step.
  now rewrite Hd.
Qed.

(** A mode that [fix_permissions] proposes to change. *)
Definition permissive (mode : Z) : bool :=
  negb (Z.land mode S_IRWXO =? 0)%Z || negb (Z.land mode S_IRWXG =? 0)%Z.

Lemma fix_permissions_answer w f a rest :
  w_windows w = false -> w_file w = Some f -> permissive (f_mode f) = true ->
  w_stdin w = a :: rest -> w_chmod_ok w = true ->
  exists outs,
    fix_permissions w =
    Ok (consenting a)
       (if consenting a then
          set_file (Some (mkFile (f_content f) (chmod_bits 384 (f_mode f))))
                   (io rest outs w)
        else io rest outs w).
Proof.
  intros Hw Hf Hp Hin Hc. open_world w. subst. destruct f as [c mode].
  unfold fix_permissions, consenting, permissive in *. cbn [f_mode] in Hp.
  step. rewrite Hp. step.
  destruct (consents _); io_done.
Qed.


End Steps.

(** ** What the fixes leave alone *)

Module Frame.
Import Harden Steps.

(** Between [w] and [w'] nothing happened to the file, to the backup or to
    the environment: only standard input, standard output and the random
    source moved on. *)
Definition untouched (w w' : world) : Prop :=
  w_file w' = w_file w /\ w_backup w' = w_backup w
  /\ w_windows w' = w_windows w /\ w_random w' = w_random w
  /\ w_copy_ok w' = w_copy_ok w /\ w_chmod_ok w' = w_chmod_ok w
  /\ w_write w' = w_write w.

Lemma untouched_trans w1 w2 w3 :
  untouched w1 w2 -> untouched w2 w3 -> untouched w1 w3.
Proof.
  unfold untouched. intros (A1 & A2 & A3 & A4 & A5 & A6 & A7)
                           (B1 & B2 & B3 & B4 & B5 & B6 & B7).
  repeat split; congruence.
Qed.

(** Runs an action on an opened world along every path it can take. *)
Ltac split_innermost x :=
  match x with
  | context [match ?y with _ => _ end] => split_innermost y
  | _ => destruct x eqn:?
  end.

Ltac crunch :=
  repeat (step;
          match goal with
          | |- context [match ?x with _ => _ end] => split_innermost x
          end);
  step.

Lemma fix_bind_frame gateway w : untouched w (final (fix_bind gateway w)).
Proof.
  open_world w. unfold fix_bind. crunch; repeat split.
Qed.

Lemma fix_auth_frame changed gateway w :
  untouched w (final (fix_auth changed gateway w)).
Proof.
  open_world w. unfold fix_auth. crunch; repeat split.
Qed.

Lemma fix_channel_frame name settings w :
  untouched w (final (fix_channel name settings w)).
Proof.
  open_world w. unfold fix_channel. crunch; repeat split.
Qed.

Lemma untouched_bind {A B} (m : M A) (k : A -> M B) w :
  untouched w (final (m w)) ->
  (forall a w1, untouched w1 (final (k a w1))) ->
  untouched w (final (mbind m k w)).
Proof.
  intros Hm Hk. unfold mbind. destruct (m w) as [a w1|e w1]; cbn [final] in *.
  - eapply untouched_trans; [exact Hm|apply Hk].
  - exact Hm.
Qed.

Lemma print_frame o w : untouched w (final (print o w)).
Proof. open_world w. repeat split. Qed.

Lemma ret_frame {A} (a : A) w : untouched w (final (ret a w)).
Proof. repeat split. Qed.

Lemma lift_frame {A} (r : exn + A) w : untouched w (final (lift r w)).
Proof. destruct r; repeat split. Qed.

(** Proves [untouched] along the structure of an action. *)
Ltac frame :=
  repeat first
    [ apply print_frame | apply ret_frame | apply lift_frame
    | apply fix_bind_frame | apply fix_auth_frame | apply fix_channel_frame
    | apply untouched_bind; [|intros]
    | match goal with
      | |- untouched _ (final ((let '(_, _) := ?p in _) _)) => destruct p
      | |- untouched _ (final ((if ?b then _ else _) _)) => destruct b
      end ].

Lemma fix_gateway_frame config w : untouched w (final (fix_gateway config w)).
Proof. unfold fix_gateway. frame. Qed.

Lemma fix_channels_loop_frame items w :
  untouched w (final (fix_channels_loop items w)).
Proof.
  revert w. induction items as [|[name settings] rest IH]; intros w;
    cbn [fix_channels_loop]; frame. apply IH.
Qed.

Lemma fix_channels_frame config w :
  untouched w (final (fix_channels config w)).
Proof. unfold fix_channels. frame. apply fix_channels_loop_frame. Qed.

(** [fix_permissions] changes at most the mode of the file, to what
    [chmod 600] makes of it. *)
Definition chmod_only (w w' : world) : Prop :=
  (w_file w' = w_file w
   \/ exists f, w_file w = Some f
                /\ w_file w' = Some (mkFile (f_content f)
                                            (chmod_bits 384 (f_mode f))))
  /\ w_backup w' = w_backup w
  /\ w_windows w' = w_windows w /\ w_random w' = w_random w
  /\ w_copy_ok w' = w_copy_ok w /\ w_chmod_ok w' = w_chmod_ok w
  /\ w_write w' = w_write w.

Lemma fix_permissions_frame w : chmod_only w (final (fix_permissions w)).
Proof.
  open_world w. unfold fix_permissions. crunch; unfold chmod_only;
    cbn [w_file w_backup w_windows w_random w_copy_ok w_chmod_ok w_write];
    repeat split; solve [now left | right; eexists; split; reflexivity].
Qed.

(** *** When every answer declines *)


(** What holds of the result when the action returns. *)
Definition post {A} (r : result A) (Q : A -> world -> Prop) : Prop :=
  match r with
  | Ok a w => Q a w
  | Raise _ _ => True
  end.












End Frame.

(** ** A whole run of harden.py *)

Module Run.
Import Harden Steps Frame.

(** The bytes of the configuration file (the mode apart). *)
Definition content_of (w : world) : option content :=
  option_map f_content (w_file w).

(** The document [load_config] returns, when it returns one. *)
Definition loaded (w : world) : option json :=
  match w_file w with
  | Some f =>
      match f_content f with
      | Text _ (Some config) | Dumped config => Some config
      | _ => None
      end
  | None => None
  end.

Lemma chmod_only_content w w' : chmod_only w w' -> content_of w' = content_of w.
Proof.
  unfold content_of. intros ([E|(f & E1 & E2)] & _).
  - now rewrite E.
  - now rewrite E1, E2.
Qed.

Lemma untouched_content w w' : untouched w w' -> content_of w' = content_of w.
Proof. unfold content_of. intros (E & _). now rewrite E. Qed.

(** The save never raises; it keeps the backup, and in a dry run or
    without a change it keeps the file. *)
Lemma save_if_modified_frame dry_run changes_made config w :
  exists w',
    save_if_modified dry_run changes_made config w = Ok tt w'
    /\ w_backup w' = w_backup w
    /\ (dry_run = true -> w_file w' = w_file w)
    /\ (changes_made = false ->
        w_file w' = w_file w /\ w_out w' = (w_out w ++ [no_changes_line])%list).
Proof.
  open_world w. unfold save_if_modified, save_config.
  destruct changes_made, dry_run; try destruct wr; step;
    eexists; (split; [reflexivity|]); cbn [w_backup w_file w_out];
    repeat split; intros; congruence.
Qed.

(** What a run of the fixes cannot do: touch the backup; in a dry run,
    change the bytes of the file; end with an exception after the bytes of
    the file were changed. *)
Lemma run_fixes_frame dry_run config w :
  w_backup (final (run_fixes dry_run config w)) = w_backup w
  /\ (dry_run = true ->
      content_of (final (run_fixes dry_run config w)) = content_of w)
  /\ (forall e w', run_fixes dry_run config w = Raise e w' ->
                   content_of w' = content_of w).
Proof.
  unfold run_fixes, mbind.
  pose proof (fix_permissions_frame w) as F1.
  destruct (fix_permissions w) as [b w1|e1 w1]; cbn [final] in F1 |- *.
  2:{ split; [apply F1|]. split; [intros _; now apply chmod_only_content|].
      intros e w' E. injection E as _ <-. now apply chmod_only_content. }
  pose proof (fix_gateway_frame config w1) as F2.
  destruct (fix_gateway config w1) as [[g c2] w2|e2 w2]; cbn [final] in F2 |- *.
  2:{ pose proof (chmod_only_content _ _ F1) as C1.
      pose proof (untouched_content _ _ F2) as C2.
      split; [destruct F1 as (_ & B1 & _), F2 as (_ & B2 & _); congruence|].
      split; [intros _; congruence|].
      intros e w' E. injection E as _ <-. congruence. }
  pose proof (fix_channels_frame c2 w2) as F3.
  destruct (fix_channels c2 w2) as [[c c3] w3|e3 w3]; cbn [final] in F3 |- *.
  2:{ pose proof (chmod_only_content _ _ F1) as C1.
      pose proof (untouched_content _ _ F2) as C2.
      pose proof (untouched_content _ _ F3) as C3.
      split; [destruct F1 as (_ & B1 & _), F2 as (_ & B2 & _),
                       F3 as (_ & B3 & _); congruence|].
      split; [intros _; congruence|].
      intros e w' E. injection E as _ <-. congruence. }
  destruct (save_if_modified_frame dry_run (g || c) c3 w3)
    as (w4 & -> & B4 & D4 & _). cbn [final].
  pose proof (chmod_only_content _ _ F1) as C1.
  pose proof (untouched_content _ _ F2) as C2.
  pose proof (untouched_content _ _ F3) as C3.
  split; [destruct F1 as (_ & B1 & _), F2 as (_ & B2 & _),
                   F3 as (_ & B3 & _); congruence|].
  split; [|discriminate].
  intros D. unfold content_of in *. rewrite (D4 D). congruence.
Qed.


(** How [main] gets to the fixes: it stops before them without touching
    anything, or it runs them on the loaded document, in a world where
    the backup (outside a dry run) holds the file. *)
Lemma main_outcome dry_run w :
  (exists w',
     main dry_run w = Ok tt w' /\ untouched w w' /\ w_stdin w' = w_stdin w
     /\ (w_copy_ok w = true \/ dry_run = true ->
         forall config, loaded w = Some config -> Py.truthy config = false))
  \/ (exists config w1,
        main dry_run w = run_fixes dry_run config w1
        /\ loaded w = Some config /\ Py.truthy config = true
        /\ (dry_run = true \/ w_copy_ok w = true)
        /\ w_file w1 = w_file w /\ w_stdin w1 = w_stdin w
        /\ w_backup w1 = (if dry_run then w_backup w else w_file w)
        /\ w_windows w1 = w_windows w /\ w_chmod_ok w1 = w_chmod_ok w
        /\ w_random w1 = w_random w /\ w_drawn w1 = w_drawn w).
Proof.
  open_world w. unfold main, print_banner, load_config, backup_config, loaded.
  step.
  destruct cfile as [[c mode]|]; step.
  2:{ left. eexists. split; [reflexivity|]. repeat split. intros; discriminate. }
  destruct c as [raw [config|]|config|config]; step.
  2,4: left; eexists; (split; [reflexivity|]); repeat split;
       intros; discriminate.
  all: destruct (Py.truthy config) eqn:T; step.
  2,4: left; eexists; (split; [reflexivity|]); repeat split;
       intros _ config' E; injection E as <-; exact T.
  all: destruct dry_run; step.
  1,3: right; exists config; eexists; (split; [reflexivity|]);
       (split; [reflexivity|]); (split; [exact T|]); (split; [now left|]);
       repeat split.
  all: destruct copy; step.
  1,3: right; exists config; eexists; (split; [reflexivity|]);
       (split; [reflexivity|]); (split; [exact T|]); (split; [now right|]);
       repeat split.
  all: left; eexists; (split; [reflexivity|]); repeat split;
       intros [E|E]; discriminate.
Qed.



(** Outside a dry run, a copy that fails ends [main] at once. *)
Lemma main_aborts w config :
  w_copy_ok w = false -> loaded w = Some config -> Py.truthy config = true ->
  exists outs,
    main false w = Ok tt (io (w_stdin w) outs w)
    /\ List.last outs no_changes_line = abort_line.
Proof.
  intros Hc L T. open_world w. subst copy.
  unfold main, print_banner, load_config, backup_config, loaded in *.
  destruct cfile as [[c mode]|]; [|discriminate].
  cbn [w_file f_content] in L.
  destruct c as [raw [config'|]|config'|config']; try discriminate;
    injection L as ->; step; rewrite T; step;
    (eexists; split;
     [ unfold io;
       cbn [w_windows w_stdin w_random w_drawn w_file w_backup w_copy_ok
            w_chmod_ok w_write w_out];
       rewrite <- !app_assoc; reflexivity
     | reflexivity ]).
Qed.

End Run.

(** ** Dicts and tokens *)

Module PyFacts.
Import Steps.

Lemma assoc_update_same k v items : Py.assoc k (Py.update k v items) = Some v.
Proof.
  induction items as [|[k' v'] rest IH]; cbn.
  - now rewrite String.eqb_refl.
  - destruct (String.eqb k k') eqn:E; cbn; rewrite E; [reflexivity|exact IH].
Qed.

Lemma assoc_update_other k k' v items :
  String.eqb k' k = false ->
  Py.assoc k' (Py.update k v items) = Py.assoc k' items.
Proof.
  intros N. induction items as [|[k0 v0] rest IH]; cbn.
  - now rewrite N.
  - destruct (String.eqb k k0) eqn:E; cbn.
    + apply String.eqb_eq in E. subst k0. now rewrite N.
    + now rewrite IH.
Qed.

Lemma lookup_update_same k v items d :
  Py.lookup (Py.update k v items) k d = v.
Proof. unfold Py.lookup. now rewrite assoc_update_same. Qed.

Lemma lookup_update_other k k' v items d :
  String.eqb k' k = false ->
  Py.lookup (Py.update k v items) k' d = Py.lookup items k' d.
Proof. intros N. unfold Py.lookup. now rewrite assoc_update_other. Qed.

Lemma lookup_assoc k v items d :
  Py.assoc k items = Some v -> Py.lookup items k d = v.
Proof. intros H. unfold Py.lookup. now rewrite H. Qed.

(** The characters of a token: digits and the letters a to f. *)
Definition is_lower_hex (c : ascii) : bool :=
  let n := nat_of_ascii c in
  (((48 <=? n) && (n <=? 57)) || ((97 <=? n) && (n <=? 102)))%nat.

(** The string is matched by [[0-9a-f]+]. *)
Fixpoint all_lower_hex (s : string) : bool :=
  match s with
  | EmptyString => true
  | String c s' => is_lower_hex c && all_lower_hex s'
  end.

Definition matches_lower_hex (s : string) : bool :=
  negb (String.eqb s EmptyString) && all_lower_hex s.

Lemma hex_digit_is_hex n : is_lower_hex (hex_digit n) = true.
Proof. do 16 (destruct n as [|n]; [reflexivity|]). reflexivity. Qed.

Lemma length_hexlify bs : String.length (hexlify bs) = 2 * List.length bs.
Proof.
  induction bs as [|b bs IH]; cbn [hexlify String.length List.length]; lia.
Qed.

Lemma hexlify_is_hex bs : all_lower_hex (hexlify bs) = true.
Proof.
  induction bs as [|b bs IH]; cbn [hexlify all_lower_hex]; [reflexivity|].
  now rewrite !hex_digit_is_hex, IH.
Qed.

Lemma length_fresh_token w : String.length (fresh_token w) = 64.
Proof.
  unfold fresh_token. now rewrite length_hexlify, length_map, length_seq.
Qed.

Lemma fresh_token_is_hex w : matches_lower_hex (fresh_token w) = true.
Proof.
  unfold matches_lower_hex. apply andb_true_iff. split.
  - pose proof (length_fresh_token w) as L.
    destruct (fresh_token w); [discriminate|reflexivity].
  - apply hexlify_is_hex.
Qed.

End PyFacts.

(** ** The gateway, from evaluation to a settled state *)

Module GatewayFacts.
Import Harden Steps Frame PyFacts.

(** Authentication in one of the states the gateway code tells apart
    without raising. *)
Definition typed_auth (auth : list (string * json)) : Prop :=
  Py.eq_str (mode_of auth) "none" = true \/ weak_token auth \/ settled_auth auth.

Lemma settled_after_enable auth tok :
  String.length tok = 64 ->
  settled_auth
    (Py.update "token" (JStr tok) (Py.update "mode" (JStr "token") auth)).
Proof.
  intros L. unfold settled_auth, mode_of, token_of.
  rewrite lookup_update_other by reflexivity.
  rewrite !lookup_update_same. split; [reflexivity|].
  intros _. exists 64. cbn [Py.len]. rewrite L. split; [reflexivity|lia].
Qed.

Lemma settled_after_rotate auth tok :
  weak_token auth -> String.length tok = 64 ->
  settled_auth (Py.update "token" (JStr tok) auth).
Proof.
  intros (Hn & Ht & _) L. unfold settled_auth, mode_of, token_of in *.
  rewrite lookup_update_other by reflexivity.
  rewrite lookup_update_same. split; [exact Hn|].
  intros _. exists 64. cbn [Py.len]. rewrite L. split; [reflexivity|lia].
Qed.

Ltac use_fix_bind L :=
  match goal with
  | |- context [fix_bind (JDict ?g) ?W] =>
      let E := fresh "E" in
      edestruct L with (gw := g) (w := W) as (? & E);
      [..|rewrite E; clear E]
  end.

Ltac use_fix_auth L :=
  match goal with
  | |- context [fix_auth ?c (JDict ?g) ?W] =>
      let E := fresh "E" in
      edestruct L with (changed := c) (gw := g) (w := W) as (? & E);
      [..|rewrite E; clear E]
  end.

(** A gateway whose bind address is not exposed and whose authentication
    is settled is left as it is, and nothing is asked. *)
Lemma fix_gateway_settled cfg gw auth w :
  Py.lookup cfg "gateway" (JDict []) = JDict gw ->
  Py.in_strs (bind_of gw) exposed = false ->
  auth_of gw = JDict auth -> settled_auth auth ->
  exists outs,
    fix_gateway (JDict cfg) w = Ok (false, JDict cfg) (io (w_stdin w) outs w).
Proof.
  intros Hg Hb Ha Hs. open_world w. unfold fix_gateway. step. cbn [Py.get].
  rewrite Hg. step. rewrite fix_bind_quiet by exact Hb. step.
  rewrite (fix_auth_quiet false gw auth) by assumption. step. io_done.
Qed.

(** The label of the bind finding. *)
Definition bind_severity (bind : json) : severity :=
  if Py.in_strs bind exposed then Fail
  else if Py.in_strs bind local then Pass else Warn.

(** The findings of [check_gateway] on a gateway with typed
    authentication: one for the bind address, then one for the
    authentication. *)
Lemma check_gateway_reports cfg gw auth w :
  Py.lookup cfg "gateway" (JDict []) = JDict gw ->
  auth_of gw = JDict auth -> typed_auth auth ->
  exists tb sa ta w',
    Audit.check_gateway (JDict cfg) w = Ok tt w'
    /\ findings (w_out w') =
       (findings (w_out w)
        ++ [Finding (bind_severity (bind_of gw)) GatewayBind tb;
            Finding sa GatewayAuth ta])%list
    /\ (Py.eq_str (mode_of auth) "none" = true -> sa = Critical)
    /\ (weak_token auth -> sa = Warn)
    /\ (settled_auth auth -> sa = Pass).
Proof.
  intros Hg Ha Ht. open_world w.
  assert (F : forall h s1 c1 t1 s2 c2 t2,
    findings (((o ++ [Plain h]) ++ [Finding s1 c1 t1]) ++ [Finding s2 c2 t2])
    = (findings o ++ [Finding s1 c1 t1; Finding s2 c2 t2])%list).
  { intros. unfold findings. rewrite !filter_app. cbn [filter is_finding].
    now rewrite app_nil_r, <- app_assoc. }
  unfold Audit.check_gateway, bind_severity, typed_auth, weak_token,
    settled_auth, auth_of, bind_of, mode_of, token_of, exposed, local in *.
  step. cbn [Py.get]. rewrite Hg. step. cbn [Py.get]. step.
  destruct (Py.in_strs _ ["0.0.0.0"; "all"; "::"]);
    [|destruct (Py.in_strs _ ["loopback"; "localhost"; "127.0.0.1"])];
    step; rewrite Ha; step; cbn [Py.get]; step;
    (destruct Ht as [Hn|[(Hn & Hk & n & Hlen & Hlt)|(Hn & Hs)]];
     [ rewrite Hn; step
     | rewrite Hn, Hk; step; cbn [Py.get]; step; rewrite Hlen; step;
       pose proof Hlt as Hlt'; apply Nat.ltb_lt in Hlt'; rewrite Hlt'; step
     | rewrite Hn;
       destruct (Py.eq_str (Py.lookup auth "mode" (JStr "token")) "token") eqn:Hk;
       [ destruct (Hs eq_refl) as (n & Hlen & Hle); step; cbn [Py.get]; step;
         rewrite Hlen; step;
         pose proof Hle as Hle'; apply Nat.ltb_ge in Hle'; rewrite Hle'; step
       | step ] ]);
    do 4 eexists; (split; [reflexivity|]); (split; [apply F|]);
    repeat split; intros; try reflexivity; try congruence;
    try (match goal with
         | H : _ /\ _ |- _ => destruct H as (? & ?); congruence
         end);
    try (match goal with
         | H : _ /\ _ /\ _ |- _ => destruct H as (_ & ? & _); congruence
         end).
  (* what is left sets a token that is weak against one that is not *)
  all: match goal with
       | H : _ /\ (_ -> exists _, _) |- _ =>
           let Hm := fresh "Hm" in
           destruct H as (_ & H); destruct (H eq_refl) as (? & Hm & ?);
           injection Hm as <-; lia
       | H : _ /\ _ /\ (exists _, _) |- _ =>
           let Hm := fresh "Hm" in
           destruct H as (_ & _ & ? & Hm & ?); injection Hm as <-; lia
       end.
Qed.

End GatewayFacts.

(** ** The lines a run reads *)

Module Lines.
Import Harden Steps Frame Run.

(** Standard input only moves on: [w'] is [w] after some lines were read. *)
Definition suffix (w w' : world) : Prop :=
  exists used, w_stdin w = (used ++ w_stdin w')%list.

Definition all_decline (used : list string) : Prop :=
  Forall (fun a => consenting a = false) used.

Definition all_consent (used : list string) : Prop :=
  Forall (fun a => consenting a = true) used.

(** When every line that [m] read declines, [m] has left the file as it
    was and, if it returns, its result satisfies [U]. Lines that were not
    read play no part. *)
Definition declined {A} (m : M A) (w : world) (U : A -> world -> Prop)
  : Prop :=
  forall used,
    w_stdin w = (used ++ w_stdin (final (m w)))%list -> all_decline used ->
    w_file (final (m w)) = w_file w /\ post (m w) U.

Lemma suffix_refl w : suffix w w.
Proof. now exists []. Qed.




Lemma declined_weaken {A} (m : M A) w (U V : A -> world -> Prop) :
  declined m w U -> (forall a w1, U a w1 -> V a w1) -> declined m w V.
Proof.
  intros D Imp used E Hd. destruct (D used E Hd) as [F P]. split; [exact F|].
  destruct (m w); [|exact I]. cbn [post] in *. now apply Imp.
Qed.





























End Lines.

(** ** Every way through the gateway fixes *)

Module GatewayPaths.
Import Harden Steps Frame PyFacts GatewayFacts Lines.

(** How [fix_auth] returns: it has read the lines [used] (none or one),
    and either hands back the flag and the gateway it was given, or has
    stored a fresh token and returns [True]. The bind address is not its
    business; when the line it read consents, the authentication it
    leaves is settled. *)
Lemma fix_auth_returns changed gw w :
  post (fix_auth changed (JDict gw) w)
    (fun r w' =>
       exists used gw' auth',
         w_stdin w = (used ++ w_stdin w')%list
         /\ r = (fst r, JDict gw')
         /\ ((fst r = changed /\ gw' = gw) \/ fst r = true)
         /\ bind_of gw' = bind_of gw
         /\ auth_of gw' = JDict auth'
         /\ (all_consent used -> settled_auth auth')
         /\ (all_decline used -> fst r = changed /\ gw' = gw)).
Proof.
  assert (Raises : forall e w1,
            fix_auth changed (JDict gw) w = Raise e w1 ->
            post (fix_auth changed (JDict gw) w)
              (fun r w' =>
                 exists used gw' auth',
                   w_stdin w = (used ++ w_stdin w')%list
                   /\ r = (fst r, JDict gw')
                   /\ ((fst r = changed /\ gw' = gw) \/ fst r = true)
                   /\ bind_of gw' = bind_of gw
                   /\ auth_of gw' = JDict auth'
                   /\ (all_consent used -> settled_auth auth')
                   /\ (all_decline used -> fst r = changed /\ gw' = gw)))
    by (intros e w1 ->; exact I).
  assert (Quiet : forall auth,
            auth_of gw = JDict auth -> settled_auth auth ->
            post (fix_auth changed (JDict gw) w)
              (fun r w' =>
                 exists used gw' auth',
                   w_stdin w = (used ++ w_stdin w')%list
                   /\ r = (fst r, JDict gw')
                   /\ ((fst r = changed /\ gw' = gw) \/ fst r = true)
                   /\ bind_of gw' = bind_of gw
                   /\ auth_of gw' = JDict auth'
                   /\ (all_consent used -> settled_auth auth')
                   /\ (all_decline used -> fst r = changed /\ gw' = gw))).
  { intros auth Ha Hs. rewrite (fix_auth_quiet changed gw auth w Ha Hs).
    exists [], gw, auth. cbn [fst]. split; [reflexivity|].
    split; [reflexivity|]. split; [now left|]. split; [reflexivity|].
    split; [exact Ha|]. split; now intros _. }
  destruct (auth_of gw) as [| | | | | |auth] eqn:Ha;
    try (eapply Raises; unfold fix_auth; step; cbn [Py.get];
         unfold auth_of in Ha; rewrite Ha; step; cbn [Py.get]; step;
         reflexivity).
  destruct (Py.eq_str (mode_of auth) "none") eqn:Hn.
  - (* no authentication: the proposal to enable it *)
    destruct (w_stdin w) as [|a rest] eqn:Hin.
    + destruct (fix_auth_none_eof changed gw auth w Ha Hn Hin) as (outs & R).
      now apply (Raises _ _ R).
    + destruct (fix_auth_none_answer changed gw auth w a rest Ha Hn Hin)
        as (outs & ->).
      destruct (consenting a) eqn:C; cbn [post fst].
      * exists [a]. do 2 eexists. split; [reflexivity|].
        split; [reflexivity|]. split; [now right|].
        split; [unfold bind_of; now rewrite lookup_update_other by reflexivity|].
        split; [unfold auth_of; apply lookup_update_same|].
        split; [intros _; apply settled_after_enable, length_fresh_token|].
        intros D. inversion D; congruence.
      * exists [a], gw, auth. split; [reflexivity|]. split; [reflexivity|].
        split; [now left|]. split; [reflexivity|]. split; [exact Ha|].
        split; [intros D; inversion D; congruence|]. now intros _.
  - destruct (Py.eq_str (mode_of auth) "token") eqn:Ht.
    + destruct (Py.len (token_of auth)) as [e|n] eqn:Hl.
      * (* a token without a length *)
        eapply Raises. unfold fix_auth. step. cbn [Py.get].
        unfold auth_of in Ha. rewrite Ha. step. cbn [Py.get].
        unfold mode_of in Hn, Ht. rewrite Hn, Ht. step. cbn [Py.get]. step.
        unfold token_of in Hl. rewrite Hl. step. reflexivity.
      * destruct (n <? 16)%nat eqn:Hlt.
        -- (* a weak token: the proposal to rotate it *)
           assert (Hw : weak_token auth).
           { split; [exact Hn|]. split; [exact Ht|]. exists n.
             split; [exact Hl|]. now apply Nat.ltb_lt. }
           destruct (w_stdin w) as [|a rest] eqn:Hin.
           ++ destruct (fix_auth_weak_eof changed gw auth w Ha Hw Hin)
                as (outs & R).
              now apply (Raises _ _ R).
           ++ destruct (fix_auth_weak_answer changed gw auth w a rest Ha Hw Hin)
                as (outs & ->).
              destruct (consenting a) eqn:C; cbn [post fst].
              ** exists [a]. do 2 eexists. split; [reflexivity|].
                 split; [reflexivity|]. split; [now right|].
                 split; [unfold bind_of;
                         now rewrite lookup_update_other by reflexivity|].
                 split; [unfold auth_of; apply lookup_update_same|].
                 split; [intros _; apply settled_after_rotate;
                         [exact Hw|apply length_fresh_token]|].
                 intros D. inversion D; congruence.
              ** exists [a], gw, auth. split; [reflexivity|].
                 split; [reflexivity|]. split; [now left|].
                 split; [reflexivity|]. split; [exact Ha|].
                 split; [intros D; inversion D; congruence|]. now intros _.
        -- apply (Quiet auth eq_refl). split; [exact Hn|]. intros _. exists n.
           split; [exact Hl|]. now apply Nat.ltb_ge.
    + apply (Quiet auth eq_refl). split; [exact Hn|]. intros X. congruence.
Qed.

(** How [fix_gateway] returns. It has read the lines [used]: first the
    answer about the bind address, when that is exposed, then the answer
    about the authentication, when that is missing or weak. The document
    returned is the one given, with the gateway replaced when the flag is
    [True]. The bind address is ["loopback"] exactly when it was exposed
    and the answer about it consented; when every line read consents,
    the authentication is settled; when every line read declines, the
    flag is [False]. *)
Lemma fix_gateway_returns cfg gw w :
  Py.lookup cfg "gateway" (JDict []) = JDict gw ->
  post (fix_gateway (JDict cfg) w)
    (fun r w' =>
       exists used gw' auth',
         w_stdin w = (used ++ w_stdin w')%list
         /\ r = (fst r,
                 JDict (if fst r then Py.update "gateway" (JDict gw') cfg
                        else cfg))
         /\ (fst r = false -> gw' = gw)
         /\ auth_of gw' = JDict auth'
         /\ (Py.in_strs (bind_of gw) exposed = false ->
             bind_of gw' = bind_of gw)
         /\ (Py.in_strs (bind_of gw) exposed = true ->
             exists a more,
               used = a :: more
               /\ bind_of gw' = (if consenting a then JStr "loopback"
                                 else bind_of gw)
               /\ (consenting a = true -> fst r = true))
         /\ (all_consent used -> settled_auth auth')
         /\ (all_decline used -> fst r = false)).
Proof.
  intros Hg. open_world w. unfold fix_gateway. step. cbn [Py.get].
  rewrite Hg. step.
  destruct (Py.in_strs (bind_of gw) exposed) eqn:Hb.
  - (* the bind address is exposed *)
    destruct stdin as [|a1 rest1].
    { use_fix_bind fix_bind_eof; [exact Hb|reflexivity|]. step. exact I. }
    use_fix_bind fix_bind_answer; [exact Hb|reflexivity|]. step_py.
    match goal with
    | |- context [fix_auth ?c (JDict ?g) ?W] =>
        pose proof (fix_auth_returns c g W) as A;
        destruct (fix_auth c (JDict g) W) as [[c2 g2] w2|e2 w2]
    end; [|exact I].
    cbn [post] in A.
    destruct A as (used & gw' & auth' & S & E & Fl & B & Au & Cs & Ds).
    cbn [fst w_stdin] in S, E, Fl, Ds.
    assert (G2 : g2 = JDict gw') by congruence. subst g2. clear E.
    assert (B' : bind_of gw' = (if consenting a1 then JStr "loopback"
                                else bind_of gw)).
    { rewrite B. destruct (consenting a1); [|reflexivity].
      unfold bind_of. apply lookup_update_same. }
    destruct c2; step; cbn [Py.setitem]; step; cbn [post fst].
    + exists (a1 :: used), gw', auth'.
      split; [cbn [app w_stdin]; now rewrite S|]. split; [reflexivity|].
      split; [discriminate|]. split; [exact Au|]. split; [discriminate|].
      split; [intros _; exists a1, used; now repeat split|].
      split; [intros C; inversion C; auto|].
      intros D. inversion D as [|? ? D1 D2]; subst.
      destruct (Ds D2) as [X _]. rewrite D1 in X. discriminate.
    + destruct Fl as [[X ->]|X]; [|discriminate].
      assert (C1 : consenting a1 = false) by now symmetry.
      rewrite C1 in Au, B'.
      exists (a1 :: used), gw, auth'.
      split; [cbn [app w_stdin]; now rewrite S|]. split; [reflexivity|].
      split; [reflexivity|]. split; [exact Au|]. split; [discriminate|].
      split; [intros _; exists a1, used; split; [reflexivity|];
              split; [now rewrite C1|]; rewrite C1; discriminate|].
      split; [intros C; inversion C; auto|]. reflexivity.
  - (* the bind address is left alone *)
    rewrite fix_bind_quiet by exact Hb. step_py.
    match goal with
    | |- context [fix_auth ?c (JDict ?g) ?W] =>
        pose proof (fix_auth_returns c g W) as A;
        destruct (fix_auth c (JDict g) W) as [[c2 g2] w2|e2 w2]
    end; [|exact I].
    cbn [post] in A.
    destruct A as (used & gw' & auth' & S & E & Fl & B & Au & Cs & Ds).
    cbn [fst w_stdin] in S, E, Fl, Ds.
    assert (G2 : g2 = JDict gw') by congruence. subst g2. clear E.
    destruct c2; step; cbn [Py.setitem]; step; cbn [post fst].
    + exists used, gw', auth'. split; [exact S|]. split; [reflexivity|].
      split; [discriminate|]. split; [exact Au|]. split; [now intros _|].
      split; [discriminate|]. split; [exact Cs|].
      intros D. now destruct (Ds D).
    + destruct Fl as [[_ ->]|X]; [|discriminate].
      exists used, gw, auth'. split; [exact S|]. split; [reflexivity|].
      split; [reflexivity|]. split; [exact Au|]. split; [reflexivity|].
      split; [discriminate|]. split; [exact Cs|]. reflexivity.
Qed.

(** A run of [fix_gateway] on a gateway without authentication in which
    the proposal to enable it is accepted. [before] holds the answer read
    before it: the one about the bind address when that is exposed, and
    nothing otherwise. *)
Lemma fix_gateway_enables cfg gw auth w before a rest :
  Py.lookup cfg "gateway" (JDict []) = JDict gw ->
  auth_of gw = JDict auth -> Py.eq_str (mode_of auth) "none" = true ->
  w_stdin w = (before ++ a :: rest)%list ->
  List.length before = (if Py.in_strs (bind_of gw) exposed then 1 else 0) ->
  consenting a = true ->
  exists outs,
    fix_gateway (JDict cfg) w
    = Ok (true,
          JDict (Py.update "gateway"
                   (JDict (Py.update "auth"
                             (JDict (Py.update "token" (JStr (fresh_token w))
                                       (Py.update "mode" (JStr "token") auth)))
                             (if existsb consenting before
                              then Py.update "bind" (JStr "loopback") gw
                              else gw)))
                   cfg))
         (drew 32 (io rest outs w)).
Proof.
  intros Hg Ha Hn Hin Hlen Ca. open_world w. cbn [w_stdin] in Hin.
  unfold fix_gateway. step. cbn [Py.get]. rewrite Hg. step.
  destruct (Py.in_strs (bind_of gw) exposed) eqn:Hb.
  - destruct before as [|a1 [|]]; try discriminate. cbn [app] in Hin.
    subst stdin. cbn [existsb]. rewrite orb_false_r.
    use_fix_bind fix_bind_answer; [exact Hb|reflexivity|].
    destruct (consenting a1); step_py.
    + use_fix_auth fix_auth_none_answer;
        [unfold auth_of in *; rewrite lookup_update_other by reflexivity;
         exact Ha|exact Hn|reflexivity|].
      rewrite Ca. step_py. io_done.
    + use_fix_auth fix_auth_none_answer; [exact Ha|exact Hn|reflexivity|].
      rewrite Ca. step_py. io_done.
  - destruct before; try discriminate. cbn [app] in Hin. subst stdin.
    cbn [existsb]. rewrite fix_bind_quiet by exact Hb. step_py.
    use_fix_auth fix_auth_none_answer; [exact Ha|exact Hn|reflexivity|].
    rewrite Ca. step_py. io_done.
Qed.

(** With typed authentication, [fix_gateway] returns as soon as standard
    input holds an answer for each proposal it makes. *)
Lemma fix_gateway_progress cfg gw auth w :
  Py.lookup cfg "gateway" (JDict []) = JDict gw ->
  auth_of gw = JDict auth -> typed_auth auth ->
  (Py.in_strs (bind_of gw) exposed = true -> w_stdin w <> []) ->
  (settled_auth auth
   \/ (if Py.in_strs (bind_of gw) exposed then 2 else 1)
      <= List.length (w_stdin w)) ->
  exists r w', fix_gateway (JDict cfg) w = Ok r w'.
Proof.
  intros Hg Ha Ht Hone Hlen. open_world w. cbn [w_stdin] in Hone, Hlen.
  unfold fix_gateway. step. cbn [Py.get]. rewrite Hg. step.
  assert (Auth : forall c g W,
            auth_of g = JDict auth ->
            settled_auth auth \/ 1 <= List.length (w_stdin W) ->
            exists r W', fix_auth c (JDict g) W = Ok r W').
  { intros c g W Hg' L. destruct Ht as [Hn|[Hw|Hs]].
    - destruct L as [(Hn' & _)|L]; [congruence|].
      destruct (w_stdin W) as [|a rest] eqn:Hin; [cbn in L; lia|].
      destruct (fix_auth_none_answer c g auth W a rest Hg' Hn Hin)
        as (outs & ->).
      destruct (consenting a); eexists; eexists; reflexivity.
    - destruct L as [(_ & Hs)|L].
      { destruct Hw as (_ & Hk & n & Hl & Hlt).
        destruct (Hs Hk) as (n' & Hl' & Hge). rewrite Hl in Hl'.
        injection Hl' as <-. lia. }
      destruct (w_stdin W) as [|a rest] eqn:Hin; [cbn in L; lia|].
      destruct (fix_auth_weak_answer c g auth W a rest Hg' Hw Hin)
        as (outs & ->).
      destruct (consenting a); eexists; eexists; reflexivity.
    - rewrite (fix_auth_quiet c g auth W Hg' Hs). eexists; eexists.
      reflexivity. }
  destruct (Py.in_strs (bind_of gw) exposed) eqn:Hb.
  - destruct stdin as [|a1 rest1]; [now destruct (Hone eq_refl)|].
    use_fix_bind fix_bind_answer; [exact Hb|reflexivity|]. step_py.
    match goal with
    | |- context [fix_auth ?c (JDict ?g) ?W] =>
        destruct (Auth c g W) as ([c2 g2] & W' & ->)
    end.
    + destruct (consenting a1); [|exact Ha].
      unfold auth_of in *. now rewrite lookup_update_other by reflexivity.
    + destruct Hlen as [Hs|L]; [now left|right].
      cbn [w_stdin List.length] in *. lia.
    + step. destruct c2; step; [|eexists; eexists; reflexivity].
      destruct (consenting a1); cbn [Py.setitem]; step;
        eexists; eexists; reflexivity.
  - rewrite fix_bind_quiet by exact Hb. step_py.
    match goal with
    | |- context [fix_auth ?c (JDict ?g) ?W] =>
        destruct (Auth c g W) as ([c2 g2] & W' & ->)
    end; [exact Ha|exact Hlen|].
    step. destruct c2; step; cbn [Py.setitem]; step;
      eexists; eexists; reflexivity.
Qed.

(** Whatever the authentication is, and however the check ends, the first
    thing [check_gateway] reports is the bind address. *)
Lemma check_gateway_bind_first cfg gw w :
  Py.lookup cfg "gateway" (JDict []) = JDict gw ->
  exists tb later,
    findings (w_out (final (Audit.check_gateway (JDict cfg) w)))
    = (findings (w_out w)
       ++ Finding (bind_severity (bind_of gw)) GatewayBind tb :: later)%list.
Proof.
  intros Hg. open_world w.
  unfold Audit.check_gateway, bind_severity, bind_of, exposed, local.
  step. cbn [Py.get]. rewrite Hg. step. cbn [Py.get]. step.
  assert (F1 : forall h f, findings ((o ++ [Plain h]) ++ [f])
                           = (findings o ++ findings [f])%list).
  { intros. unfold findings. rewrite !filter_app. cbn [filter is_finding].
    now rewrite app_nil_r. }
  assert (F2 : forall h f g, findings (((o ++ [Plain h]) ++ [f]) ++ [g])
                             = (findings o ++ findings [f] ++ findings [g])%list).
  { intros. unfold findings. rewrite !filter_app. cbn [filter is_finding].
    now rewrite app_nil_r, <- app_assoc. }
  destruct (Py.in_strs _ ["0.0.0.0"; "all"; "::"]);
    [|destruct (Py.in_strs _ ["loopback"; "localhost"; "127.0.0.1"])];
    step;
    (destruct (Py.lookup gw "auth" (JDict [])) as [| | | | | |auth];
     cbn [Py.get]; step;
     [rewrite F1; do 2 eexists; reflexivity ..|]);
    (destruct (Py.eq_str _ "none"); step;
     [rewrite F2; do 2 eexists; reflexivity|]);
    (destruct (Py.eq_str _ "token"); step;
     [|rewrite F2; do 2 eexists; reflexivity]);
    cbn [Py.get]; step;
    (destruct (Py.len _); step; [rewrite F1; do 2 eexists; reflexivity|]);
    destruct (_ <? 16)%nat; step; rewrite F2; do 2 eexists; reflexivity.
Qed.

End GatewayPaths.

(** ** Gateway authentication and bind address *)

Module GatewayClaims.
Import Harden Steps Frame PyFacts GatewayFacts Lines GatewayPaths.

Lemma in_strs_In b l : Py.in_strs (JStr b) l = true <-> In b l.
Proof.
  unfold Py.in_strs. rewrite existsb_exists. split.
  - intros (s & Hs & E). cbn in E. apply String.eqb_eq in E. now subst.
  - intros H. exists b. split; [exact H|]. cbn. apply String.eqb_refl.
Qed.

Lemma local_not_exposed b : In b local -> Py.in_strs (JStr b) exposed = false.
Proof.
  intros H. cbn in H. decompose [or] H; subst; try contradiction; reflexivity.
Qed.

Lemma local_is_local b : In b local -> Py.in_strs (JStr b) local = true.
Proof. apply in_strs_In. Qed.

(** C3. A gateway whose [auth.mode] is ["none"] is reported [CRITICAL],
    whatever standard input holds. The remediation is the proposal to
    enable token authentication: as soon as the answer to it consents,
    whatever was answered about the bind address before ([before]: one
    answer when the bind address is exposed, none otherwise), the mode
    becomes ["token"] and the token is the hexadecimal form of 32 fresh
    random bytes: 64 characters, each a digit or a letter from a to f.
    Evaluated again, this gateway passes the authentication check (no
    weak-token warning), [fix_auth] finds nothing to propose, and when
    the bind address is not exposed either, another run of [fix_gateway]
    changes and asks nothing. *)
Theorem auth_none_critical_then_token cfg gw auth :
  Py.lookup cfg "gateway" (JDict []) = JDict gw ->
  auth_of gw = JDict auth -> mode_of auth = JStr "none" ->
  (forall w, exists tb ta w1,
     Audit.check_gateway (JDict cfg) w = Ok tt w1
     /\ findings (w_out w1) =
        (findings (w_out w)
         ++ [Finding (bind_severity (bind_of gw)) GatewayBind tb;
             Finding Critical GatewayAuth ta])%list)
  /\ (forall changed w a rest,
        w_stdin w = a :: rest -> consenting a = true ->
        exists outs,
          fix_auth changed (JDict gw) w
          = Ok (true,
                JDict (Py.update "auth"
                         (JDict (Py.update "token" (JStr (fresh_token w))
                                   (Py.update "mode" (JStr "token") auth)))
                         gw))
               (drew 32 (io rest outs w)))
  /\ forall w before a rest,
       w_stdin w = (before ++ a :: rest)%list ->
       List.length before
       = (if Py.in_strs (bind_of gw) exposed then 1 else 0) ->
       consenting a = true ->
       let token := fresh_token w in
       let auth' := Py.update "token" (JStr token)
                      (Py.update "mode" (JStr "token") auth) in
       let gw' := Py.update "auth" (JDict auth')
                    (if existsb consenting before
                     then Py.update "bind" (JStr "loopback") gw else gw) in
       let cfg' := Py.update "gateway" (JDict gw') cfg in
       (exists outs,
          fix_gateway (JDict cfg) w
          = Ok (true, JDict cfg') (drew 32 (io rest outs w)))
       /\ Py.lookup cfg' "gateway" (JDict []) = JDict gw'
       /\ auth_of gw' = JDict auth'
       /\ mode_of auth' = JStr "token"
       /\ token_of auth' = JStr token
       /\ token = hexlify (map (w_random w) (seq (w_drawn w) 32))
       /\ String.length token = 64
       /\ 16 <= String.length token
       /\ matches_lower_hex token = true
       /\ bind_of gw' = (if existsb consenting before then JStr "loopback"
                         else bind_of gw)
       /\ forall w2,
            (exists tb ta w3,
               Audit.check_gateway (JDict cfg') w2 = Ok tt w3
               /\ findings (w_out w3) =
                  (findings (w_out w2)
                   ++ [Finding (bind_severity (bind_of gw')) GatewayBind tb;
                       Finding Pass GatewayAuth ta])%list)
            /\ (forall changed,
                  fix_auth changed (JDict gw') w2 = Ok (changed, JDict gw') w2)
            /\ (Py.in_strs (bind_of gw') exposed = false ->
                exists outs,
                  fix_gateway (JDict cfg') w2
                  = Ok (false, JDict cfg') (io (w_stdin w2) outs w2)).
Proof.
  intros Hg Ha Hm.
  assert (Hn : Py.eq_str (mode_of auth) "none" = true) by now rewrite Hm.
  split; [|split].
  - intros w.
    destruct (check_gateway_reports cfg gw auth w Hg Ha (or_introl Hn))
      as (tb & sa & ta & w1 & R & F & Crit & _).
    rewrite (Crit Hn) in F. now exists tb, ta, w1.
  - intros changed w a rest Hin Ca.
    destruct (fix_auth_none_answer changed gw auth w a rest Ha Hn Hin)
      as (outs & R).
    rewrite Ca in R. now exists outs.
  - intros w before a rest Hin Hlen Ca token auth' gw' cfg'.
    assert (G : Py.lookup cfg' "gateway" (JDict []) = JDict gw')
      by apply lookup_update_same.
    assert (A : auth_of gw' = JDict auth')
      by (unfold auth_of; apply lookup_update_same).
    assert (S : settled_auth auth')
      by apply settled_after_enable, length_fresh_token.
    assert (B : bind_of gw' = (if existsb consenting before
                               then JStr "loopback" else bind_of gw)).
    { subst gw'. unfold bind_of.
      rewrite lookup_update_other by reflexivity.
      destruct (existsb consenting before); [|reflexivity].
      apply lookup_update_same. }
    split; [exact (fix_gateway_enables cfg gw auth w before a rest
                    Hg Ha Hn Hin Hlen Ca)|].
    split; [exact G|].
    split; [exact A|].
    split; [subst auth'; unfold mode_of;
            rewrite lookup_update_other by reflexivity;
            apply lookup_update_same|].
    split; [subst auth'; unfold token_of; apply lookup_update_same|].
    split; [reflexivity|]. split; [apply length_fresh_token|].
    split; [subst token; rewrite length_fresh_token; lia|].
    split; [apply fresh_token_is_hex|]. split; [exact B|].
    intros w2. split; [|split].
    + destruct (check_gateway_reports cfg' gw' auth' w2 G A
                  (or_intror (or_intror S)))
        as (tb & sa & ta & w3 & R3 & F3 & _ & _ & P).
      rewrite (P S) in F3. now exists tb, ta, w3.
    + intros changed. now apply fix_auth_quiet with (auth := auth').
    + intros E. now apply fix_gateway_settled with (gw := gw') (auth := auth').
Qed.

(** A gateway open to the network and without authentication. *)
Definition open_gateway : list (string * json) :=
  [("bind", JStr "0.0.0.0"); ("port", JInt 18789);
   ("auth", JDict [("mode", JStr "none")])].

Definition open_config : list (string * json) :=
  [("gateway", JDict open_gateway)].

(** The same gateway on the loopback interface. *)
Definition unguarded_config : list (string * json) :=
  [("gateway", JDict [("bind", JStr "loopback");
                      ("auth", JDict [("mode", JStr "none")])])].

(** Two remediations: the bind proposal declined and the authentication
    accepted, and a single answer for a gateway bound locally. *)
Lemma auth_none_critical_then_token_example :
  (exists gw' auth' w',
     fix_gateway (JDict open_config)
                 (sample_world (JDict open_config) ["n"; "y"])
     = Ok (true, JDict [("gateway", JDict gw')]) w'
     /\ bind_of gw' = JStr "0.0.0.0"
     /\ auth_of gw' = JDict auth' /\ mode_of auth' = JStr "token")
  /\ (exists gw' auth' w',
        fix_gateway (JDict unguarded_config)
                    (sample_world (JDict unguarded_config) [""])
        = Ok (true, JDict [("gateway", JDict gw')]) w'
        /\ auth_of gw' = JDict auth' /\ mode_of auth' = JStr "token").
Proof.
  split.
  - destruct (auth_none_critical_then_token
                open_config open_gateway [("mode", JStr "none")]
                eq_refl eq_refl eq_refl) as (_ & _ & H).
    destruct (H (sample_world (JDict open_config) ["n"; "y"]) ["n"] "y" []
                eq_refl eq_refl eq_refl)
      as ((outs & R) & _ & A & M & _ & _ & _ & _ & _ & B & _).
    do 3 eexists. split; [exact R|]. split; [exact B|].
    split; [exact A|exact M].
  - destruct (auth_none_critical_then_token
                unguarded_config
                [("bind", JStr "loopback");
                 ("auth", JDict [("mode", JStr "none")])]
                [("mode", JStr "none")]
                eq_refl eq_refl eq_refl) as (_ & _ & H).
    destruct (H (sample_world (JDict unguarded_config) [""]) [] "" []
                eq_refl eq_refl eq_refl)
      as ((outs & R) & _ & A & M & _).
    do 3 eexists. split; [exact R|]. split; [exact A|exact M].
Defined.

(** C4. A bind address among ["0.0.0.0"], ["all"] and ["::"] (compared as
    strings, so in this exact spelling) is reported [FAIL], whatever the
    rest of the gateway holds; as soon as the proposal about it is
    accepted it is ["loopback"], in the bind step and in the document
    [fix_gateway] returns, whatever is answered about the authentication
    afterwards. An address among ["loopback"], ["localhost"] and
    ["127.0.0.1"] is reported [PASS]; the bind step returns the gateway
    as it is without asking, and a run of [fix_gateway] leaves the
    address as it is. After any run of [fix_gateway] in which every line
    read ([used]) consents, a second run returns the same document: it
    changes nothing and asks nothing. *)
Theorem bind_fail_then_loopback cfg gw b :
  Py.lookup cfg "gateway" (JDict []) = JDict gw ->
  bind_of gw = JStr b -> In b exposed \/ In b local ->
  (forall w, exists sb tb later,
     findings (w_out (final (Audit.check_gateway (JDict cfg) w)))
     = (findings (w_out w) ++ Finding sb GatewayBind tb :: later)%list
     /\ (In b exposed -> sb = Fail)
     /\ (In b local -> sb = Pass))
  /\ (forall w auth,
        auth_of gw = JDict auth -> typed_auth auth ->
        exists w1, Audit.check_gateway (JDict cfg) w = Ok tt w1)
  /\ (In b exposed ->
      Py.in_strs (JStr b) exposed = true
      /\ (forall w a rest,
            w_stdin w = a :: rest -> consenting a = true ->
            exists outs,
              fix_bind (JDict gw) w
              = Ok (true, JDict (Py.update "bind" (JStr "loopback") gw))
                   (io rest outs w))
      /\ (forall w a rest auth,
            auth_of gw = JDict auth -> typed_auth auth ->
            w_stdin w = a :: rest -> consenting a = true ->
            settled_auth auth \/ rest <> [] ->
            exists gw' w',
              fix_gateway (JDict cfg) w
              = Ok (true, JDict (Py.update "gateway" (JDict gw') cfg)) w'
              /\ bind_of gw' = JStr "loopback"))
  /\ (In b local ->
      Py.in_strs (JStr b) exposed = false
      /\ (forall w, fix_bind (JDict gw) w = Ok (false, JDict gw) w)
      /\ (forall w auth,
            auth_of gw = JDict auth -> settled_auth auth ->
            exists outs,
              fix_gateway (JDict cfg) w
              = Ok (false, JDict cfg) (io (w_stdin w) outs w))
      /\ (forall w r w',
            fix_gateway (JDict cfg) w = Ok r w' ->
            exists cfg' gw',
              snd r = JDict cfg'
              /\ Py.lookup cfg' "gateway" (JDict []) = JDict gw'
              /\ bind_of gw' = JStr b))
  /\ (forall w r w',
        fix_gateway (JDict cfg) w = Ok r w' ->
        exists used,
          w_stdin w = (used ++ w_stdin w')%list
          /\ (all_consent used ->
              exists cfg' gw',
                snd r = JDict cfg'
                /\ Py.lookup cfg' "gateway" (JDict []) = JDict gw'
                /\ Py.in_strs (bind_of gw') exposed = false
                /\ forall w2, exists outs,
                     fix_gateway (JDict cfg') w2
                     = Ok (false, JDict cfg') (io (w_stdin w2) outs w2)))
  /\ Py.in_strs (JStr "ALL") exposed = false
  /\ Py.in_strs (JStr "Localhost") local = false.
Proof.
  intros Hg Hb Hin.
  assert (Returned : forall w r w',
            fix_gateway (JDict cfg) w = Ok r w' ->
            exists used gw' auth',
              w_stdin w = (used ++ w_stdin w')%list
              /\ snd r = JDict (if fst r then Py.update "gateway" (JDict gw') cfg
                                else cfg)
              /\ Py.lookup (if fst r then Py.update "gateway" (JDict gw') cfg
                            else cfg) "gateway" (JDict []) = JDict gw'
              /\ (fst r = false -> gw' = gw)
              /\ auth_of gw' = JDict auth'
              /\ (Py.in_strs (JStr b) exposed = false -> bind_of gw' = JStr b)
              /\ (Py.in_strs (JStr b) exposed = true ->
                  exists a more,
                    used = a :: more
                    /\ bind_of gw' = (if consenting a then JStr "loopback"
                                      else JStr b)
                    /\ (consenting a = true -> fst r = true))
              /\ (all_consent used -> settled_auth auth')).
  { intros w r w' R. pose proof (fix_gateway_returns cfg gw w Hg) as P.
    rewrite R in P. cbn [post] in P. rewrite Hb in P.
    destruct P as (used & gw' & auth' & S & E & Same & Au & Bq & Bx & Cs & _).
    exists used, gw', auth'. split; [exact S|].
    split; [rewrite E; reflexivity|].
    split; [|exact (conj Same (conj Au (conj Bq (conj Bx Cs))))].
    destruct (fst r); [apply lookup_update_same|].
    now rewrite (Same eq_refl). }
  split; [|split; [|split; [|split; [|split; [|split; reflexivity]]]]].
  - intros w. destruct (check_gateway_bind_first cfg gw w Hg)
      as (tb & later & F).
    exists (bind_severity (bind_of gw)), tb, later. split; [exact F|].
    unfold bind_severity. rewrite Hb. split.
    + intros He. apply in_strs_In in He. now rewrite He.
    + intros Hl. rewrite (local_not_exposed b Hl).
      now rewrite (local_is_local b Hl).
  - intros w auth Ha Ht.
    destruct (check_gateway_reports cfg gw auth w Hg Ha Ht)
      as (_ & _ & _ & w1 & R & _).
    now exists w1.
  - intros He. assert (E : Py.in_strs (JStr b) exposed = true)
      by now apply in_strs_In.
    split; [exact E|]. split.
    + intros w a rest Hstdin Ca.
      destruct (fix_bind_answer gw w a rest) as (outs & R);
        [now rewrite Hb|exact Hstdin|].
      rewrite Ca in R. now exists outs.
    + intros w a rest auth Ha Ht Hstdin Ca Enough.
      destruct (fix_gateway_progress cfg gw auth w Hg Ha Ht) as (r & w' & R).
      { rewrite Hstdin. discriminate. }
      { destruct Enough as [Hs|Hr]; [now left|right].
        rewrite Hb, E, Hstdin. destruct rest; [contradiction|].
        cbn [List.length]. lia. }
      destruct (Returned w r w' R)
        as (used & gw' & _ & S & Er & _ & _ & _ & _ & Bx & _).
      destruct (Bx E) as (a' & more & -> & B & Ch).
      rewrite Hstdin in S. cbn [app] in S. injection S as <- _.
      rewrite Ca in B. rewrite (Ch Ca) in Er.
      exists gw', w'. split; [|exact B]. rewrite R. f_equal.
      destruct r as [c doc]. cbn [snd fst] in *. rewrite (Ch Ca), Er.
      reflexivity.
  - intros Hl. pose proof (local_not_exposed b Hl) as E.
    split; [exact E|]. split; [|split].
    + intros w. apply fix_bind_quiet. now rewrite Hb.
    + intros w auth Ha Hs.
      apply fix_gateway_settled with (gw := gw) (auth := auth);
        [exact Hg|now rewrite Hb|exact Ha|exact Hs].
    + intros w r w' R.
      destruct (Returned w r w' R)
        as (used & gw' & _ & _ & Er & G & _ & _ & Bq & _).
      eexists. exists gw'. split; [exact Er|]. split; [exact G|].
      now apply Bq.
  - intros w r w' R.
    destruct (Returned w r w' R)
      as (used & gw' & auth' & S & Er & G & _ & Au & Bq & Bx & Cs).
    exists used. split; [exact S|]. intros C.
    assert (B : Py.in_strs (bind_of gw') exposed = false).
    { destruct (Py.in_strs (JStr b) exposed) eqn:E.
      - destruct (Bx eq_refl) as (a & more & -> & B & _).
        inversion C as [|? ? Ca _]; subst. now rewrite B, Ca.
      - now rewrite (Bq eq_refl). }
    eexists. exists gw'. split; [exact Er|]. split; [exact G|].
    split; [exact B|]. intros w2.
    now apply fix_gateway_settled with (gw := gw') (auth := auth');
      [exact G|exact B|exact Au|apply Cs].
Qed.

(** An exposed gateway whose token is weak. *)
Definition weak_config : list (string * json) :=
  [("gateway", JDict [("bind", JStr "::");
                      ("auth", JDict [("token", JStr "secret")])])].

(** The bind proposal accepted and the rotation of the token declined:
    the document returned is bound to the loopback interface. *)
Lemma bind_fail_then_loopback_example :
  exists gw' w',
    fix_gateway (JDict weak_config) (sample_world (JDict weak_config) ["y"; "n"])
    = Ok (true, JDict (Py.update "gateway" (JDict gw') weak_config)) w'
    /\ bind_of gw' = JStr "loopback".
Proof.
  destruct (bind_fail_then_loopback
              weak_config
              [("bind", JStr "::"); ("auth", JDict [("token", JStr "secret")])]
              "::" eq_refl eq_refl)
    as (_ & _ & He & _).
  - left. cbn. auto.
  - destruct He as (_ & _ & H); [cbn; auto|].
    apply (H (sample_world (JDict weak_config) ["y"; "n"]) "y" ["n"]
             [("token", JStr "secret")] eq_refl).
    + right. left. split; [reflexivity|]. split; [reflexivity|].
      exists 6. split; [reflexivity|lia].
    + reflexivity.
    + reflexivity.
    + right. discriminate.
Defined.

End GatewayClaims.

(** ** Channels *)

Module ChannelClaims.
Import Harden Steps Frame PyFacts.





End ChannelClaims.

(** ** Declined proposals, the backup, end of input, and what declines *)

Module RunClaims.
Import Harden Steps Frame Run PyFacts GatewayFacts Lines GatewayPaths.



(** A document whose only fault is the exposed bind address. *)
Definition exposed_config : list (string * json) :=
  [("gateway",
    JDict [("bind", JStr "0.0.0.0"); ("port", JInt 18789);
           ("auth", JDict [("mode", JStr "token");
                           ("token", JStr "0123456789abcdef0123456789abcdef")])])].


(** C8. Outside a dry run [main] copies the file to the backup path
    before anything else is done to it. If the copy fails the run stops
    there: it returns without a prompt, and the file (content and mode) is
    what it was. Whenever a run has left the file different from what it
    was, the backup holds the file as it was; and the bytes of the file
    change in no dry run. *)
Theorem backup_before_any_change (w : world) :
  (w_copy_ok w = false ->
   exists w',
     main false w = Ok tt w' /\ w_file w' = w_file w
     /\ w_backup w' = w_backup w /\ w_stdin w' = w_stdin w)
  /\ (forall config,
        w_copy_ok w = false -> loaded w = Some config ->
        Py.truthy config = true ->
        exists outs,
          main false w = Ok tt (io (w_stdin w) outs w)
          /\ List.last outs no_changes_line = abort_line)
  /\ (w_file (final (main false w)) <> w_file w ->
      w_backup (final (main false w)) = w_file w)
  /\ (forall dry_run,
        content_of (final (main dry_run w)) <> content_of w ->
        dry_run = false /\ w_backup (final (main dry_run w)) = w_file w).
Proof.
  repeat apply conj.
  - intros Hc.
    destruct (main_outcome false w)
      as [(w' & R & (F & B & _) & S & _)
         |(config & w1 & _ & _ & _ & [D|D] & _)];
      [|discriminate|congruence].
    now exists w'.
  - intros config Hc L T. exact (main_aborts w config Hc L T).
  - intros N.
    destruct (main_outcome false w)
      as [(w' & R & (F & _) & _)
         |(config & w1 & R & _ & _ & _ & F & _ & B & _)];
      rewrite R in *; [cbn [final] in N; congruence|].
    destruct (run_fixes_frame false config w1) as (K & _). congruence.
  - intros dry_run N.
    destruct (main_outcome dry_run w)
      as [(w' & R & U & _)
         |(config & w1 & R & _ & _ & _ & F & _ & B & _)];
      rewrite R in *;
      [cbn [final] in N; now rewrite (untouched_content _ _ U) in N|].
    destruct (run_fixes_frame dry_run config w1) as (K & D & _).
    assert (C1 : content_of w1 = content_of w)
      by (unfold content_of; now rewrite F).
    destruct dry_run; [exfalso; apply N; rewrite (D eq_refl); exact C1|].
    split; [reflexivity|congruence].
Qed.

Lemma backup_before_any_change_example :
  exists w',
    main false
      (mkWorld false ["y"; "y"] (fun _ => Byte.x00) 0
         (Some (mkFile (Text "..." (Some (JDict exposed_config))) 33188)) None
         false true WriteOk [])
    = Ok tt w'
    /\ w_file w'
       = Some (mkFile (Text "..." (Some (JDict exposed_config))) 33188)
    /\ w_backup w' = None /\ w_stdin w' = ["y"; "y"].
Proof.
  destruct (backup_before_any_change
              (mkWorld false ["y"; "y"] (fun _ => Byte.x00) 0
                 (Some (mkFile (Text "..." (Some (JDict exposed_config))) 33188))
                 None false true WriteOk [])) as (H & _).
  exact (H eq_refl).
Defined.




(** C10. At each prompt the answer is stripped of surrounding white space
    and put in lower case, and the proposal is declined exactly when the
    result is ["n"]: every other answer (["no"], the empty line, any other
    text) makes the step apply its change. *)
Theorem only_n_declines (a : string) (rest : list string) (w : world) :
  w_stdin w = a :: rest ->
  consenting a = negb (String.eqb (PyStr.lower (PyStr.strip a)) "n")
  /\ (forall f,
        w_windows w = false -> w_file w = Some f ->
        permissive (f_mode f) = true -> w_chmod_ok w = true ->
        exists outs,
          fix_permissions w =
          Ok (consenting a)
             (if consenting a then
                set_file (Some (mkFile (f_content f)
                                       (chmod_bits 384 (f_mode f))))
                         (io rest outs w)
              else io rest outs w))
  /\ (forall gw,
        Py.in_strs (bind_of gw) exposed = true ->
        exists outs,
          fix_bind (JDict gw) w =
          Ok (consenting a,
              JDict (if consenting a
                     then Py.update "bind" (JStr "loopback") gw else gw))
             (io rest outs w))
  /\ (forall changed gw auth,
        auth_of gw = JDict auth -> Py.eq_str (mode_of auth) "none" = true ->
        exists outs,
          fix_auth changed (JDict gw) w =
          if consenting a then
            Ok (true,
                JDict (Py.update "auth"
                         (JDict (Py.update "token" (JStr (fresh_token w))
                                   (Py.update "mode" (JStr "token") auth))) gw))
               (drew 32 (io rest outs w))
          else Ok (changed, JDict gw) (io rest outs w))
  /\ (forall changed gw auth,
        auth_of gw = JDict auth -> weak_token auth ->
        exists outs,
          fix_auth changed (JDict gw) w =
          if consenting a then
            Ok (true,
                JDict (Py.update "auth"
                         (JDict (Py.update "token" (JStr (fresh_token w)) auth))
                         gw))
               (drew 32 (io rest outs w))
          else Ok (changed, JDict gw) (io rest outs w))
  /\ (forall name st,
        Py.truthy (enabled_of st) = true ->
        Py.eq_str (dm_policy_of st) "open" = true ->
        exists outs,
          fix_channel name (JDict st) w =
          Ok (consenting a,
              JDict (if consenting a
                     then Py.update "dmPolicy" (JStr "pairing") st else st))
             (io rest outs w))
  /\ consenting "no" = true /\ consenting "" = true
  /\ consenting "nope" = true /\ consenting "yes" = true
  /\ consenting "n" = false /\ consenting "  N " = false.
Proof.
  intros Hin. repeat apply conj; try reflexivity.
  - intros f Hw Hf Hp Hc. now apply fix_permissions_answer.
  - intros gw Hb. now apply fix_bind_answer.
  - intros changed gw auth Ha Hn. now apply fix_auth_none_answer.
  - intros changed gw auth Ha Hw. now apply fix_auth_weak_answer.
  - intros name st He Hd. now apply fix_channel_answer.
Qed.

Lemma only_n_declines_example :
  exists outs,
    fix_bind (JDict GatewayClaims.open_gateway) (sample_world JNull ["no"])
    = Ok (true,
          JDict (Py.update "bind" (JStr "loopback") GatewayClaims.open_gateway))
         (io [] outs (sample_world JNull ["no"])).
Proof.
  destruct (only_n_declines "no" [] (sample_world JNull ["no"]) eq_refl)
    as (_ & _ & H & _).
  apply (H GatewayClaims.open_gateway). reflexivity.
Defined.

End RunClaims.

(** ** File permissions *)

Module PermissionClaims.
Import Harden Steps.
Local Open Scope Z_scope.

(** The access bits of the "other" and of the "group" role. *)
Definition other_bits (mode : Z) : bool :=
  Z.testbit mode 0 || Z.testbit mode 1 || Z.testbit mode 2.
Definition group_bits (mode : Z) : bool :=
  Z.testbit mode 3 || Z.testbit mode 4 || Z.testbit mode 5.

Lemma land_S_IRWXO (mode : Z) :
  (Z.land mode S_IRWXO =? 0) = negb (other_bits mode).
Proof.
  unfold other_bits, S_IRWXO.
  assert (B : forall n, Z.testbit (Z.land mode 7) n
                        = Z.testbit mode n && Z.testbit 7 n)
    by (intros; apply Z.land_spec).
  destruct (Z.eqb_spec (Z.land mode 7) 0) as [E|N].
  - pose proof (B 0) as B0. pose proof (B 1) as B1. pose proof (B 2) as B2.
    rewrite E, Z.bits_0 in B0, B1, B2.
    change (Z.testbit 7 0) with true in B0. change (Z.testbit 7 1) with true in B1.
    change (Z.testbit 7 2) with true in B2.
    rewrite andb_true_r in B0, B1, B2. now rewrite <- B0, <- B1, <- B2.
  - destruct (Z.testbit mode 0) eqn:T0; [reflexivity|].
    destruct (Z.testbit mode 1) eqn:T1; [reflexivity|].
    destruct (Z.testbit mode 2) eqn:T2; [reflexivity|].
    exfalso. apply N. apply Z.bits_inj'. intros n Hn.
    rewrite B, Z.bits_0.
    assert (C : n = 0 \/ n = 1 \/ n = 2 \/ 3 <= n) by lia.
    destruct C as [->|[->|[->|C]]];
      [now rewrite T0|now rewrite T1|now rewrite T2|].
    rewrite (Z.bits_above_log2 7 n); [apply andb_false_r|lia|].
    change (Z.log2 7) with 2. lia.
Qed.

Lemma land_S_IRWXG (mode : Z) :
  (Z.land mode S_IRWXG =? 0) = negb (group_bits mode).
Proof.
  unfold group_bits, S_IRWXG.
  assert (B : forall n, Z.testbit (Z.land mode 56) n
                        = Z.testbit mode n && Z.testbit 56 n)
    by (intros; apply Z.land_spec).
  destruct (Z.eqb_spec (Z.land mode 56) 0) as [E|N].
  - pose proof (B 3) as B3. pose proof (B 4) as B4. pose proof (B 5) as B5.
    rewrite E, Z.bits_0 in B3, B4, B5.
    change (Z.testbit 56 3) with true in B3. change (Z.testbit 56 4) with true in B4.
    change (Z.testbit 56 5) with true in B5.
    rewrite andb_true_r in B3, B4, B5. now rewrite <- B3, <- B4, <- B5.
  - destruct (Z.testbit mode 3) eqn:T3; [reflexivity|].
    destruct (Z.testbit mode 4) eqn:T4; [reflexivity|].
    destruct (Z.testbit mode 5) eqn:T5; [reflexivity|].
    exfalso. apply N. apply Z.bits_inj'. intros n Hn.
    rewrite B, Z.bits_0.
    assert (C : n = 0 \/ n = 1 \/ n = 2 \/ n = 3 \/ n = 4 \/ n = 5 \/ 6 <= n)
      by lia.
    destruct C as [->|[->|[->|[->|[->|[->|C]]]]]];
      [apply andb_false_r|apply andb_false_r|apply andb_false_r
      |now rewrite T3|now rewrite T4|now rewrite T5|].
    rewrite (Z.bits_above_log2 56 n); [apply andb_false_r|lia|].
    change (Z.log2 56) with 5. lia.
Qed.

(** After [os.chmod(path, 0o600)] the permission bits are 0o600 and the
    bits of the file type are as before. *)
Lemma chmod_600 (mode : Z) :
  Z.land (chmod_bits 384 mode) 4095 = 384
  /\ Z.land (chmod_bits 384 mode) (Z.lnot 4095) = Z.land mode (Z.lnot 4095).
Proof.
  unfold chmod_bits. change (Z.land 384 4095) with 384.
  rewrite !Z.land_lor_distr_l, <- !Z.land_assoc.
  change (Z.land 384 (Z.lnot 4095)) with 0. change (Z.land 384 4095) with 384.
  rewrite Z.land_diag.
  replace (Z.land (Z.lnot 4095) 4095) with 0 by (now rewrite Z.land_comm, Z.land_lnot_diag).
  now rewrite Z.land_0_r, Z.lor_0_r, Z.lor_0_l.
Qed.

Lemma low_bits_600 (mode : Z) :
  Z.land mode 4095 = 384 -> other_bits mode = false /\ group_bits mode = false.
Proof.
  intros H.
  assert (B : forall n, Z.testbit 4095 n = true ->
                        Z.testbit mode n = Z.testbit 384 n).
  { intros n Hn. rewrite <- H, Z.land_spec, Hn. now rewrite andb_true_r. }
  unfold other_bits, group_bits.
  rewrite (B 0), (B 1), (B 2), (B 3), (B 4), (B 5) by reflexivity.
  now split.
Qed.

(** C6, as the code has it. On a POSIX system the audit reports [FAIL]
    when a bit of the "other" role is set, [WARN] when none is and a bit of
    the "group" role is set, and [PASS] when neither role has a bit. When
    [fix_permissions] applies its fix (a bit of either role is set, the
    answer consents, [chmod] succeeds), the permission bits become exactly
    0o600 whatever they were, so no bit of "group" or "other" is left; the
    type of the file and its content are kept. (The owner gets read and
    write access also where the mode had not granted them, as the last
    lemma of this part shows.) *)
Theorem permissions_checked_and_fixed (w : world) (f : file) :
  w_windows w = false -> w_file w = Some f ->
  (exists b w' sev text,
     Audit.check_file_permissions w = Ok b w'
     /\ findings (w_out w') =
        (findings (w_out w) ++ [Finding sev Permissions text])%list
     /\ w_file w' = w_file w
     /\ (other_bits (f_mode f) = true -> sev = Fail)
     /\ (other_bits (f_mode f) = false -> group_bits (f_mode f) = true ->
         sev = Warn)
     /\ (other_bits (f_mode f) = false -> group_bits (f_mode f) = false ->
         sev = Pass))
  /\ (forall answer rest,
        w_stdin w = answer :: rest ->
        other_bits (f_mode f) || group_bits (f_mode f) = true ->
        consenting answer = true -> w_chmod_ok w = true ->
        exists w' f',
          fix_permissions w = Ok true w'
          /\ w_file w' = Some f'
          /\ Z.land (f_mode f') 4095 = 384
          /\ other_bits (f_mode f') = false
          /\ group_bits (f_mode f') = false
          /\ Z.land (f_mode f') (Z.lnot 4095) = Z.land (f_mode f) (Z.lnot 4095)
          /\ f_content f' = f_content f).
Proof.
  intros Hwin Hfile. open_world w. subst win cfile. destruct f as [c mode].
  split.
  - unfold Audit.check_file_permissions. step.
    rewrite land_S_IRWXO, land_S_IRWXG, !negb_involutive.
    cbn [f_mode].
    destruct (other_bits mode); [|destruct (group_bits mode)]; step;
      do 4 eexists;
      (split; [reflexivity|]);
      (split; [unfold findings; rewrite !filter_app; cbn; now rewrite !app_nil_r|]);
      (split; [reflexivity|]);
      repeat split; intros; congruence.
  - intros answer rest -> Hbits Hyes ->.
    unfold fix_permissions. step.
    rewrite land_S_IRWXO, land_S_IRWXG, !negb_involutive.
    cbn [f_mode] in *. rewrite Hbits. step.
    unfold consenting in Hyes. rewrite Hyes. step.
    destruct (chmod_600 mode) as [P T].
    destruct (low_bits_600 _ P) as [O G].
    do 2 eexists. split; [reflexivity|]. split; [reflexivity|].
    cbn [f_mode f_content]. repeat split; assumption.
Qed.

Lemma permissions_checked_and_fixed_example :
  exists w' f',
    fix_permissions (sample_world JNull ["Y"]) = Ok true w'
    /\ w_file w' = Some f'
    /\ Z.land (f_mode f') 4095 = 384.
Proof.
  destruct (permissions_checked_and_fixed (sample_world JNull ["Y"])
              (mkFile (Text "..." (Some JNull)) 33188) eq_refl eq_refl)
    as [_ H].
  destruct (H "Y" [] eq_refl eq_refl eq_refl eq_refl)
    as (w' & f' & R & F & P & _).
  exists w', f'. repeat split; assumption.
Defined.

(** C6 fails where it says that the fix never widens permissions: on a
    file of mode 0o100444 (read-only for everyone) the fix is offered and,
    once accepted, leaves mode 0o100600, in which the owner may write. *)
Lemma chmod_600_widens_owner :
  exists w',
    fix_permissions
      (mkWorld false ["y"] (fun _ => Byte.x00) 0
               (Some (mkFile (Text "{}" (Some (JDict []))) 33060)) None
               true true WriteOk [])
    = Ok true w'
    /\ w_file w' = Some (mkFile (Text "{}" (Some (JDict []))) 33152)
    /\ Z.testbit 33060 7 = false
    /\ Z.testbit 33152 7 = true.
Proof.
  eexists. split; [reflexivity|]. repeat split.
Qed.

End PermissionClaims.
(** * The rest of the two scripts *)

(** ** Induction on documents, through the values of objects *)

Section JsonInduction.
Variable P : json -> Prop.
Hypothesis HNull : P JNull.
Hypothesis HBool : forall b, P (JBool b).
Hypothesis HInt : forall n, P (JInt n).
Hypothesis HFloat : forall bits, P (JFloat bits).
Hypothesis HStr : forall s, P (JStr s).
Hypothesis HList : forall l, P (JList l).
Hypothesis HDict :
  forall items, Forall (fun kv => P (snd kv)) items -> P (JDict items).

Fixpoint json_dict_ind (node : json) : P node :=
  match node with
  | JNull => HNull
  | JBool b => HBool b
  | JInt n => HInt n
  | JFloat bits => HFloat bits
  | JStr s => HStr s
  | JList l => HList l
  | JDict items =>
      HDict items
        ((fix values (l : list (string * json))
            : Forall (fun kv => P (snd kv)) l :=
            match l with
            | [] => Forall_nil _
            | kv :: rest => Forall_cons kv (json_dict_ind (snd kv)) (values rest)
            end) items)
  end.

End JsonInduction.

(** ** Actions that only print *)

Module Printing.
Import Steps.

(** [w] after the lines [outs] were printed and nothing else happened. *)
Definition printed (outs : list out) (w : world) : world :=
  io (w_stdin w) outs w.

Definition only_printed (w w' : world) : Prop :=
  exists outs, w' = printed outs w.

Lemma printed_nil w : printed [] w = w.
Proof. destruct w. unfold printed, io. cbn. now rewrite app_nil_r. Qed.

Lemma printed_app a b w : printed b (printed a w) = printed (a ++ b) w.
Proof. destruct w. unfold printed, io. cbn. now rewrite app_assoc. Qed.

Lemma io_io a b o1 o2 w : io b o2 (io a o1 w) = io b (o1 ++ o2) w.
Proof. destruct w. unfold io. cbn. now rewrite app_assoc. Qed.

Lemma io_same w : io (w_stdin w) [] w = w.
Proof. apply printed_nil. Qed.

Lemma print_printed o w : print o w = Ok tt (printed [o] w).
Proof. now destruct w. Qed.

(** Running a bind whose first action is known. *)
Lemma bind_print {B} o (k : unit -> M B) w :
  mbind (print o) k w = k tt (printed [o] w).
Proof. unfold mbind. now rewrite print_printed. Qed.

Lemma bind_ret {A B} (a : A) (k : A -> M B) w : mbind (ret a) k w = k a w.
Proof. reflexivity. Qed.

Lemma bind_lift_inr {A B} (a : A) (k : A -> M B) w :
  mbind (lift (inr a)) k w = k a w.
Proof. reflexivity. Qed.

Lemma bind_lift_inl {A B} e (k : A -> M B) w :
  mbind (lift (inl e)) k w = Raise e w.
Proof. reflexivity. Qed.

Lemma bind_Ok {A B} (m : M A) (k : A -> M B) w a w1 :
  m w = Ok a w1 -> mbind m k w = k a w1.
Proof. intros H. unfold mbind. now rewrite H. Qed.

Lemma bind_Raise {A B} (m : M A) (k : A -> M B) w e w1 :
  m w = Raise e w1 -> mbind m k w = Raise e w1.
Proof. intros H. unfold mbind. now rewrite H. Qed.

(** A bind that returns: its two halves returned. *)
Lemma bind_returns {A B} (m : M A) (k : A -> M B) w b w' :
  mbind m k w = Ok b w' -> exists a w1, m w = Ok a w1 /\ k a w1 = Ok b w'.
Proof.
  unfold mbind. destruct (m w) as [a w1|e w1]; [|discriminate].
  intros H. now exists a, w1.
Qed.

Lemma only_printed_refl w : only_printed w w.
Proof. exists []. now rewrite printed_nil. Qed.

Lemma only_printed_trans w1 w2 w3 :
  only_printed w1 w2 -> only_printed w2 w3 -> only_printed w1 w3.
Proof.
  intros [a ->] [b ->]. exists (a ++ b)%list. apply printed_app.
Qed.

Lemma only_printed_bind {A B} (m : M A) (k : A -> M B) w :
  only_printed w (final (m w)) ->
  (forall a w1, only_printed w1 (final (k a w1))) ->
  only_printed w (final (mbind m k w)).
Proof.
  intros Hm Hk. unfold mbind. destruct (m w) as [a w1|e w1]; cbn [final] in *.
  - eapply only_printed_trans; [exact Hm|apply Hk].
  - exact Hm.
Qed.

Lemma print_only o w : only_printed w (final (print o w)).
Proof. exists [o]. now rewrite print_printed. Qed.

Lemma ret_only {A} (a : A) w : only_printed w (final (ret a w)).
Proof. apply only_printed_refl. Qed.

Lemma raise_only {A} e w : only_printed w (final (raise (A:=A) e w)).
Proof. apply only_printed_refl. Qed.

Lemma lift_only {A} (r : exn + A) w : only_printed w (final (lift r w)).
Proof. destruct r; apply only_printed_refl. Qed.

Lemma on_windows_only w : only_printed w (final (on_windows w)).
Proof. apply only_printed_refl. Qed.

Lemma os_stat_mode_only w : only_printed w (final (os_stat_mode w)).
Proof.
  unfold os_stat_mode. destruct (w_file w); apply only_printed_refl.
Qed.

(** Proves [only_printed] along the structure of an action. *)
Ltac quiet :=
  repeat first
    [ apply print_only | apply ret_only | apply lift_only | apply raise_only
    | apply on_windows_only | apply os_stat_mode_only
    | apply only_printed_bind; [|intros]
    | match goal with
      | |- only_printed _ (final ((if ?b then _ else _) _)) => destruct b
      end ].

Lemma check_file_permissions_only w :
  only_printed w (final (Audit.check_file_permissions w)).
Proof. unfold Audit.check_file_permissions. quiet. Qed.

Lemma check_gateway_only config w :
  only_printed w (final (Audit.check_gateway config w)).
Proof. unfold Audit.check_gateway. quiet. Qed.

Lemma check_channel_only name settings w :
  only_printed w (final (Audit.check_channel name settings w)).
Proof. unfold Audit.check_channel. quiet. Qed.

Lemma check_channels_loop_only items w :
  only_printed w (final (Audit.check_channels_loop items w)).
Proof.
  revert w. induction items as [|[name settings] rest IH]; intros w;
    cbn [Audit.check_channels_loop]; quiet. apply IH.
Qed.

Lemma check_channels_only config w :
  only_printed w (final (Audit.check_channels config w)).
Proof. unfold Audit.check_channels. quiet. apply check_channels_loop_only. Qed.

Lemma scan_prefixes_only node path prefixes w :
  only_printed w (final (Audit.scan_prefixes node path prefixes w)).
Proof.
  revert w. induction prefixes as [|p rest IH]; intros w;
    cbn [Audit.scan_prefixes]; quiet. apply IH.
Qed.

(** The loop of [walk_json] over the items of a dict. *)
Definition walk_items (path : string) : list (string * json) -> M unit :=
  fix loop (l : list (string * json)) : M unit :=
    match l with
    | [] => ret tt
    | (k, v) :: rest =>
        Audit.walk_json v
          (if Py.truthy (JStr path) then path ++ "." ++ k else k);;
        loop rest
    end.

Lemma walk_json_dict items path :
  Audit.walk_json (JDict items) path = walk_items path items.
Proof. reflexivity. Qed.

Lemma walk_json_only node :
  forall path w, only_printed w (final (Audit.walk_json node path w)).
Proof.
  induction node as [| | | | s | l |items IH] using json_dict_ind; intros path w;
    try apply only_printed_refl.
  - apply scan_prefixes_only.
  - rewrite walk_json_dict. revert w.
    induction IH as [|[k v] rest Hv _ IHrest]; intros w; cbn [walk_items];
      quiet.
    + apply Hv.
    + apply IHrest.
Qed.

Lemma check_secrets_only config w :
  only_printed w (final (Audit.check_secrets config w)).
Proof. unfold Audit.check_secrets. quiet. apply walk_json_only. Qed.

Lemma audit_print_banner_only w :
  only_printed w (final (Audit.print_banner w)).
Proof. unfold Audit.print_banner. quiet. Qed.

Lemma audit_load_config_only w :
  only_printed w (final (Audit.load_config w)).
Proof.
  unfold Audit.load_config. destruct (w_file w) as [[c m]|]; [|quiet].
  destruct c as [raw [config|]|config|config]; cbn [f_content];
    solve [apply only_printed_refl | quiet].
Qed.

End Printing.

(** ** The secret scan of a whole document *)

Module Scan.
Import PyStr Audit Masking Printing.

(** The path of the value of key [k] in a dict at [path]:
    [f"{path}.{k}" if path else k]. *)
Definition child (path k : string) : string :=
  if Py.truthy (JStr path) then path ++ "." ++ k else k.

(** The first string the scan detects in [node], in the order of the
    document, with its path: the scan goes through the values of dicts,
    and of nothing else. *)
Fixpoint first_secret (node : json) (path : string) {struct node}
  : option (string * string) :=
  match node with
  | JDict items =>
      (fix first (l : list (string * json)) : option (string * string) :=
         match l with
         | [] => None
         | (k, v) :: rest =>
             match first_secret v (child path k) with
             | Some found => Some found
             | None => first rest
             end
         end) items
  | JStr s => if detected s then Some (path, s) else None
  | _ => None
  end.

Definition first_in (path : string)
  : list (string * json) -> option (string * string) :=
  fix first (l : list (string * json)) : option (string * string) :=
    match l with
    | [] => None
    | (k, v) :: rest =>
        match first_secret v (child path k) with
        | Some found => Some found
        | None => first rest
        end
    end.

(** [located node path p s]: the string [s] is a value of [node], found at
    path [p] through keys of dicts, when [node] itself is at [path]. *)
Inductive located : json -> string -> string -> string -> Prop :=
| located_here s path : located (JStr s) path path s
| located_under items k v path p s :
    In (k, v) items -> located v (child path k) p s ->
    located (JDict items) path p s.

Lemma scan_detected s path prefixes w :
  existsb (startswith s) prefixes = true ->
  scan_prefixes s path prefixes w
  = Raise UnboundLocalError (printed (report s path) w).
Proof.
  induction prefixes as [|p rest IH]; cbn [existsb scan_prefixes];
    [discriminate|].
  destruct (startswith s p); cbn [orb].
  - intros _. destruct w. unfold printed, Steps.io, report. step.
    now rewrite <- !app_assoc.
  - intros H. unfold mbind at 1. cbn [ret]. now apply IH.
Qed.

Lemma walk_json_first node :
  forall path w,
    walk_json node path w =
    match first_secret node path with
    | None => Ok tt w
    | Some (p, s) => Raise UnboundLocalError (printed (report s p) w)
    end.
Proof.
  induction node as [| | | | s | l |items IH] using json_dict_ind;
    intros path w; try reflexivity.
  - cbn [walk_json first_secret]. unfold detected.
    destruct (existsb (startswith s) suspicious_prefixes) eqn:E.
    + now apply scan_detected.
    + now apply scan_none.
  - rewrite walk_json_dict.
    change (first_secret (JDict items) path) with (first_in path items).
    revert w. induction IH as [|[k v] rest Hv _ IHrest]; intros w;
      [reflexivity|].
    cbn [walk_items first_in snd] in *. unfold mbind at 1.
    fold (child path k). rewrite Hv.
    destruct (first_secret v (child path k)) as [[p s]|]; [reflexivity|].
    apply IHrest.
Qed.

Lemma first_secret_located node :
  forall path p s,
    first_secret node path = Some (p, s) ->
    located node path p s /\ detected s = true.
Proof.
  induction node as [| | | | s0 | l |items IH] using json_dict_ind;
    intros path p s; try discriminate.
  - cbn [first_secret]. destruct (detected s0) eqn:E; [|discriminate].
    intros H. injection H as <- <-. split; [constructor|exact E].
  - change (first_secret (JDict items) path) with (first_in path items).
    induction IH as [|[k v] rest Hv _ IHrest]; [discriminate|].
    cbn [first_in snd] in *.
    destruct (first_secret v (child path k)) as [found|] eqn:E.
    + intros H. injection H as ->. destruct (Hv _ _ _ E) as [L D].
      split; [|exact D]. eapply located_under; [left; reflexivity|exact L].
    + intros H. destruct (IHrest H) as [L D]. split; [|exact D].
      inversion L; subst. eapply located_under; [right; eassumption|assumption].
Qed.

Lemma first_secret_none node :
  forall path, first_secret node path = None ->
  forall p s, located node path p s -> detected s = false.
Proof.
  induction node as [| | | | s0 | l |items IH] using json_dict_ind;
    intros path H p s L; try (inversion L; fail).
  - inversion L; subst. cbn [first_secret] in H.
    destruct (detected s); [discriminate|reflexivity].
  - change (first_secret (JDict items) path) with (first_in path items) in H.
    inversion L as [|items' k v path' p' s' Hin Hl]; subst.
    induction IH as [|[k0 v0] rest Hv _ IHrest]; [contradiction|].
    cbn [first_in snd] in *.
    destruct (first_secret v0 (child path k0)) eqn:E; [discriminate|].
    destruct Hin as [Heq|Hin].
    + injection Heq as -> ->. eapply Hv; eassumption.
    + apply IHrest; [exact H| |exact Hin].
      eapply located_under; eassumption.
Qed.

Lemma findings_printed outs w :
  findings (w_out (printed outs w)) = (findings (w_out w) ++ findings outs)%list.
Proof. destruct w. unfold findings. cbn. apply filter_app. Qed.

Definition secrets_header : out :=
  Plain (line nl Colors.BLUE [Lit "[*] Checking for Hardcoded Secrets..."]).

(** [check_secrets] in terms of [first_secret]. *)
Lemma check_secrets_first config w :
  check_secrets config w =
  match first_secret config "" with
  | None => Ok tt (printed [secrets_header] w)
  | Some (p, s) =>
      Raise UnboundLocalError (printed (secrets_header :: report s p) w)
  end.
Proof.
  unfold check_secrets, mbind. rewrite print_printed, walk_json_first.
  destruct (first_secret config "") as [[p s]|]; [|reflexivity].
  now rewrite printed_app.
Qed.

(** X1. The scan of a whole document ends in one of two ways. Either no string
    that is reached through the keys of objects begins with a known prefix:
    then it returns and has printed no finding. Or there is such a string:
    then it stops with [UnboundLocalError] after the finding for the first
    of them, so that one run never reports more than one value. *)
Theorem secret_scan_stops_at_first (config : json) (w : world) :
  (first_secret config "" = None
   /\ check_secrets config w = Ok tt (printed [secrets_header] w)
   /\ findings (w_out (printed [secrets_header] w)) = findings (w_out w)
   /\ forall p s, located config "" p s -> detected s = false)
  \/ (exists p s,
        first_secret config "" = Some (p, s)
        /\ located config "" p s /\ detected s = true
        /\ check_secrets config w
           = Raise UnboundLocalError (printed (secrets_header :: report s p) w)
        /\ findings (w_out (printed (secrets_header :: report s p) w))
           = (findings (w_out w) ++ [secret_finding p (masked s)])%list).
Proof.
  pose proof (check_secrets_first config w) as R.
  destruct (first_secret config "") as [[p s]|] eqn:E.
  - right. exists p, s. destruct (first_secret_located _ _ _ _ E) as [L D].
    repeat split; try assumption. now rewrite findings_printed.
  - left. repeat split; try assumption.
    + rewrite findings_printed. cbn. apply app_nil_r.
    + now apply first_secret_none.
Qed.

(** The values [walk_json] passes over: neither a dict nor a string. *)
Definition unscanned (v : json) : bool :=
  match v with
  | JDict _ | JStr _ => false
  | _ => true
  end.

(** X2. Values that are neither objects nor strings are not scanned: a
    document whose values are arrays, numbers, booleans or nulls is found
    clean, whatever the arrays hold. *)
Theorem arrays_are_not_scanned (items : list (string * json)) (w : world) :
  forallb (fun kv => unscanned (snd kv)) items = true ->
  check_secrets (JDict items) w = Ok tt (printed [secrets_header] w).
Proof.
  intros H. rewrite check_secrets_first.
  change (first_secret (JDict items) "") with (first_in "" items).
  replace (first_in "" items) with (@None (string * string)); [reflexivity|].
  induction items as [|[k v] rest IH]; [reflexivity|].
  cbn [forallb snd] in H. apply andb_true_iff in H as [Hv Hrest].
  cbn [first_in]. destruct v; try discriminate; cbn [first_secret]; now apply IH.
Qed.

Lemma arrays_are_not_scanned_example :
  check_secrets
    (JDict [("keys", JList [JStr "sk-abcdef1234567890"]); ("n", JInt 1)])
    (sample_world JNull [])
  = Ok tt (printed [secrets_header] (sample_world JNull [])).
Proof.
  apply (arrays_are_not_scanned
           [("keys", JList [JStr "sk-abcdef1234567890"]); ("n", JInt 1)]).
  reflexivity.
Defined.

End Scan.

(** ** The labels of the findings a check prints *)

Module Labels.
Import Printing.

Definition label (o : out) : list (severity * category) :=
  match o with
  | Finding sev cat _ => [(sev, cat)]
  | _ => []
  end.

Definition labels (l : list out) : list (severity * category) :=
  flat_map label l.

Lemma labels_app a b : labels (a ++ b) = (labels a ++ labels b)%list.
Proof. apply flat_map_app. Qed.

Lemma labels_findings l : labels (findings l) = labels l.
Proof.
  unfold labels, findings. induction l as [|o l IH]; [reflexivity|].
  destruct o; cbn [filter is_finding flat_map label app]; now rewrite ?IH.
Qed.

Lemma printed_inj a b w : printed a w = printed b w -> a = b.
Proof.
  destruct w. unfold printed, Steps.io. cbn. intros H. injection H as H.
  now apply app_inv_head in H.
Qed.

(** Closes a goal [exists outs, r = Ok a (printed outs w) /\ Q outs] on an
    opened world once the action has been run. *)
Ltac printed_done :=
  first
    [ exists []; split; [now rewrite printed_nil|reflexivity]
    | eexists; split;
      [ unfold printed, Steps.io;
        cbn [w_windows w_stdin w_random w_drawn w_file w_backup w_copy_ok
             w_chmod_ok w_write w_out];
        rewrite <- ?app_assoc; reflexivity
      | reflexivity ] ].

End Labels.

(** ** The channel policies *)

Module ChannelFacts.
Import Audit Steps Printing Labels.

Definition group_policy_of (settings : list (string * json)) : json :=
  Py.lookup settings "groupPolicy" (JStr "allowlist").

Definition is_dict (v : json) : bool :=
  match v with JDict _ => true | _ => false end.

(** The label of the DM policy finding and of the group policy finding. *)
Definition dm_severity (dm_policy : json) : severity :=
  if Py.eq_str dm_policy "open" then Fail
  else if Py.eq_str dm_policy "pairing" then Pass
  else if Py.eq_str dm_policy "allowlist" then Pass
  else Warn.

Definition group_severity (group_policy : json) : severity :=
  if Py.eq_str group_policy "open" then Fail else Pass.

(** The labels of what the audit prints for one channel. *)
Definition channel_labels (settings : json) : list (severity * category) :=
  match settings with
  | JDict st =>
      if Py.truthy (enabled_of st) then
        [(dm_severity (dm_policy_of st), ChannelDm);
         (group_severity (group_policy_of st), ChannelGroup)]
      else []
  | _ => []
  end.

Definition all_dicts (items : list (string * json)) : bool :=
  forallb (fun kv => is_dict (snd kv)) items.

(** The channels the checks get through without an exception: a value
    that is false for Python, or a dict of dicts. *)
Definition well_formed_channels (channels : json) : bool :=
  negb (Py.truthy channels)
  || match channels with
     | JDict items => all_dicts items
     | _ => false
     end.

Definition channels_labels (channels : json) : list (severity * category) :=
  if negb (Py.truthy channels) then [(Info, Channels)]
  else match channels with
       | JDict items => flat_map (fun kv => channel_labels (snd kv)) items
       | _ => []
       end.

Definition enabled (kv : string * json) : bool :=
  match snd kv with
  | JDict st => Py.truthy (enabled_of st)
  | _ => false
  end.

Lemma check_channel_labels name st w :
  exists outs,
    check_channel name (JDict st) w = Ok tt (printed outs w)
    /\ labels outs = channel_labels (JDict st).
Proof.
  destruct w.
  unfold check_channel, channel_labels, dm_severity, group_severity,
    enabled_of, dm_policy_of, group_policy_of.
  step. cbn [Py.get]. step.
  destruct (Py.truthy _); step; [|printed_done].
  cbn [Py.get]. step.
  destruct (Py.eq_str (Py.lookup st "dmPolicy" _) "open");
    [|destruct (Py.eq_str (Py.lookup st "dmPolicy" _) "pairing");
      [|destruct (Py.eq_str (Py.lookup st "dmPolicy" _) "allowlist")]];
    step; destruct (Py.eq_str (Py.lookup st "groupPolicy" _) "open"); step;
    printed_done.
Qed.

Lemma check_channel_not_dict name v w :
  is_dict v = false -> check_channel name v w = Raise AttributeError w.
Proof. destruct v; try discriminate; reflexivity. Qed.

Lemma check_channels_loop_labels items w :
  exists outs,
    check_channels_loop items w
    = (if all_dicts items then Ok tt else Raise AttributeError) (printed outs w)
    /\ (all_dicts items = true ->
        labels outs = flat_map (fun kv => channel_labels (snd kv)) items).
Proof.
  revert w. induction items as [|[name v] rest IH]; intros w.
  - exists []. rewrite printed_nil. now split.
  - cbn [check_channels_loop all_dicts forallb snd flat_map].
    destruct (is_dict v) eqn:D.
    + destruct v; try discriminate.
      destruct (check_channel_labels name items w) as (o1 & R1 & L1).
      destruct (IH (printed o1 w)) as (o2 & R2 & L2).
      exists (o1 ++ o2)%list. unfold mbind. rewrite R1.
      fold (all_dicts rest) in *. rewrite R2, printed_app. cbn [andb].
      split; [reflexivity|]. intros A. now rewrite labels_app, L1, L2.
    + exists []. rewrite printed_nil. unfold mbind.
      rewrite check_channel_not_dict by exact D. now split.
Qed.

Definition channels_header : out :=
  Plain (line PyStr.nl Colors.BLUE [Lit "[*] Checking Channel Policies..."]).

Definition no_channels_finding : out :=
  Finding Info Channels
    (line "    " Colors.WARNING [Lit "[INFO] No channels configured."]).

Lemma check_channels_labels cfg w :
  exists outs,
    check_channels (JDict cfg) w
    = (if well_formed_channels (Py.lookup cfg "channels" (JDict []))
       then Ok tt else Raise AttributeError) (printed outs w)
    /\ (well_formed_channels (Py.lookup cfg "channels" (JDict [])) = true ->
        labels outs = channels_labels (Py.lookup cfg "channels" (JDict []))).
Proof.
  unfold check_channels, well_formed_channels, channels_labels.
  rewrite bind_print. cbn [Py.get]. rewrite bind_lift_inr.
  generalize (Py.lookup cfg "channels" (JDict [])). intros channels.
  destruct (Py.truthy channels) eqn:T; cbn [negb orb].
  - destruct channels as [| | | | |l|items];
      try (exists [channels_header]; split; [reflexivity|discriminate]).
    cbn [Py.items]. rewrite bind_lift_inr. cbn beta.
    destruct (check_channels_loop_labels items
                (printed [channels_header] w)) as (outs & R & L).
    exists (channels_header :: outs). unfold channels_header in R |- *.
    rewrite R, printed_app.
    split; [reflexivity|]. intros A. cbn [labels flat_map label app].
    now apply L.
  - exists [channels_header; no_channels_finding].
    rewrite print_printed, printed_app. split; reflexivity.
Qed.

Lemma channel_labels_count items :
  all_dicts items = true ->
  List.length (flat_map (fun kv => channel_labels (snd kv)) items)
  = 2 * List.length (filter enabled items).
Proof.
  induction items as [|[k v] rest IH]; [reflexivity|].
  cbn [all_dicts forallb snd]. intros H. apply andb_true_iff in H as [D A].
  cbn [flat_map filter snd]. rewrite length_app, (IH A).
  destruct v; try discriminate. unfold enabled, channel_labels. cbn [snd].
  destruct (Py.truthy (enabled_of items)); cbn [List.length]; lia.
Qed.

(** X3. [check_channels] returns exactly when the value of ["channels"] is
    false for Python (or absent) or is a dict whose values are all dicts;
    otherwise it stops with [AttributeError]. When it returns, it has
    printed the one [INFO] finding for absent channels, or, for each
    channel whose [enabled] is true for Python and in the order of the
    document, a finding for the DM policy and one for the group policy:
    two findings for each enabled channel and none for the others. *)
Theorem check_channels_reports (cfg : list (string * json)) (w : world) :
  let channels := Py.lookup cfg "channels" (JDict []) in
  exists outs,
    check_channels (JDict cfg) w
    = (if well_formed_channels channels then Ok tt else Raise AttributeError)
        (printed outs w)
    /\ (well_formed_channels channels = true ->
        labels outs = channels_labels channels)
    /\ (forall items,
          channels = JDict items -> all_dicts items = true ->
          List.length (channels_labels channels)
          = if Py.truthy channels then 2 * List.length (filter enabled items)
            else 1).
Proof.
  cbv zeta. destruct (check_channels_labels cfg w) as (outs & R & L).
  exists outs. split; [exact R|]. split; [exact L|].
  intros items E A. rewrite E. unfold channels_labels.
  destruct (Py.truthy (JDict items)); cbn [negb]; [|reflexivity].
  now apply channel_labels_count.
Qed.

(** X4. With no channels (the key is absent, or its value is false for
    Python: an empty dict, [null], an empty list or string, zero, [false])
    the audit prints the one finding [[INFO] No channels configured], and
    [fix_channels] returns [False] with the document as it is, having
    asked nothing. *)
Theorem no_channels_configured (cfg : list (string * json)) (w : world) :
  Py.truthy (Py.lookup cfg "channels" (JDict [])) = false ->
  check_channels (JDict cfg) w
  = Ok tt (printed [channels_header; no_channels_finding] w)
  /\ Harden.fix_channels (JDict cfg) w
     = Ok (false, JDict cfg) (printed [channels_header] w).
Proof.
  intros T. unfold check_channels, Harden.fix_channels.
  rewrite !bind_print. cbn [Py.get]. rewrite !bind_lift_inr, T. cbn [negb].
  rewrite print_printed, printed_app. now split.
Qed.

Lemma no_channels_configured_example :
  check_channels (JDict [("channels", JNull)]) (sample_world JNull [])
  = Ok tt (printed [channels_header; no_channels_finding]
             (sample_world JNull []))
  /\ Harden.fix_channels (JDict [("channels", JNull)]) (sample_world JNull [])
     = Ok (false, JDict [("channels", JNull)])
          (printed [channels_header] (sample_world JNull [])).
Proof.
  apply (no_channels_configured [("channels", JNull)]). reflexivity.
Defined.

End ChannelFacts.

(** ** What [fix_channels] does to the channels *)

Module ChannelFixes.
Import Harden Steps Frame PyFacts Printing Labels ChannelFacts.

(** An enabled channel whose DM policy is ["open"]: the ones
    [fix_channels] proposes to change. *)
Definition open_dm (kv : string * json) : bool :=
  match snd kv with
  | JDict st =>
      Py.truthy (enabled_of st) && Py.eq_str (dm_policy_of st) "open"
  | _ => false
  end.

(** The item after the accepted change. *)
Definition close_dm (kv : string * json) : string * json :=
  match snd kv with
  | JDict st =>
      if open_dm kv
      then (fst kv, JDict (Py.update "dmPolicy" (JStr "pairing") st))
      else kv
  | _ => kv
  end.

(** Every line still to be read consents. *)
Definition accepting (w : world) : Prop :=
  Forall (fun a => consenting a = true) (w_stdin w).

Lemma group_policy_kept st v :
  group_policy_of (Py.update "dmPolicy" v st) = group_policy_of st.
Proof. unfold group_policy_of. now apply lookup_update_other. Qed.

Lemma enabled_kept st v :
  enabled_of (Py.update "dmPolicy" v st) = enabled_of st.
Proof. unfold enabled_of. now apply lookup_update_other. Qed.

Lemma close_dm_open k st :
  open_dm (k, JDict st) = true ->
  close_dm (k, JDict st)
  = (k, JDict (Py.update "dmPolicy" (JStr "pairing") st)).
Proof. intros H. unfold close_dm. cbn [snd fst]. now rewrite H. Qed.

Lemma close_dm_other kv : open_dm kv = false -> close_dm kv = kv.
Proof.
  intros H. destruct kv as [k v]. unfold close_dm. cbn [snd fst].
  destruct v; try reflexivity. now rewrite H.
Qed.

Lemma open_dm_closed kv : open_dm (close_dm kv) = false.
Proof.
  destruct kv as [k v]. unfold close_dm. cbn [snd fst].
  destruct v; try reflexivity.
  destruct (open_dm (k, JDict items)) eqn:E; [|exact E].
  unfold open_dm, dm_policy_of. cbn [snd].
  rewrite lookup_update_same. apply andb_false_r.
Qed.

Lemma is_dict_closed kv : is_dict (snd (close_dm kv)) = is_dict (snd kv).
Proof.
  destruct kv as [k v]. unfold close_dm. cbn [snd fst].
  destruct v; try reflexivity. now destruct (open_dm _).
Qed.

Lemma fst_closed kv : fst (close_dm kv) = fst kv.
Proof.
  destruct kv as [k v]. unfold close_dm. cbn [snd fst].
  destruct v; try reflexivity. now destruct (open_dm _).
Qed.

(** A channel that is not an enabled one with an open DM policy is left
    as it is, and nothing is printed or asked. *)
Lemma fix_channel_closed name st w :
  open_dm (name, JDict st) = false ->
  fix_channel name (JDict st) w = Ok (false, JDict st) w.
Proof.
  unfold open_dm. cbn [snd]. intros H.
  destruct (Py.truthy (enabled_of st)) eqn:E.
  - apply fix_channel_quiet. exact H.
  - now apply fix_channel_skip.
Qed.

Lemma fix_channels_loop_closed items w :
  all_dicts items = true -> existsb open_dm items = false ->
  fix_channels_loop items w = Ok (false, items) w.
Proof.
  revert w. induction items as [|[name v] rest IH]; intros w A O;
    [reflexivity|].
  cbn [all_dicts forallb existsb snd] in A, O.
  apply andb_true_iff in A as [D A]. apply orb_false_iff in O as [O1 O2].
  destruct v; try discriminate. cbn [fix_channels_loop].
  rewrite (bind_Ok _ _ _ _ _ (fix_channel_closed name items w O1)).
  cbn beta iota. now rewrite (bind_Ok _ _ _ _ _ (IH w A O2)).
Qed.

(** With enough answers, all of them consenting, the loop changes every
    enabled channel with an open DM policy, and reads one line for each. *)
Lemma fix_channels_loop_accepting items w :
  all_dicts items = true -> accepting w ->
  List.length (filter open_dm items) <= List.length (w_stdin w) ->
  exists outs,
    fix_channels_loop items w
    = Ok (existsb open_dm items, map close_dm items)
         (io (skipn (List.length (filter open_dm items)) (w_stdin w)) outs w).
Proof.
  revert w. induction items as [|[name v] rest IH]; intros w A Acc Len.
  - exists []. cbn. now rewrite io_same.
  - cbn [all_dicts forallb snd] in A. apply andb_true_iff in A as [D A].
    destruct v; try discriminate. rename items into st.
    cbn [fix_channels_loop filter existsb map]. cbn [filter] in Len.
    destruct (open_dm (name, JDict st)) eqn:O.
    + pose proof O as O'. unfold open_dm in O'. cbn [snd] in O'.
      apply andb_true_iff in O' as [E Dm].
      cbn [List.length] in Len.
      destruct (w_stdin w) as [|a stdin] eqn:S; [cbn in Len; lia|].
      assert (Ca : consenting a = true).
      { unfold accepting in Acc. rewrite S in Acc. now inversion Acc. }
      destruct (fix_channel_answer name st w a stdin E Dm S) as (o1 & R1).
      rewrite Ca in R1. rewrite (bind_Ok _ _ _ _ _ R1). cbn beta iota.
      destruct (IH (io stdin o1 w) A) as (o2 & R2).
      { unfold accepting in *. rewrite S in Acc. destruct w. cbn.
        now inversion Acc. }
      { destruct w. cbn in *. lia. }
      rewrite (bind_Ok _ _ _ _ _ R2). cbn beta iota.
      exists (o1 ++ o2)%list. cbn [orb List.length skipn].
      rewrite (close_dm_open name st O), io_io. destruct w; reflexivity.
    + rewrite (bind_Ok _ _ _ _ _ (fix_channel_closed name st w O)).
      cbn beta iota.
      destruct (IH w A Acc Len) as (o2 & R2).
      rewrite (bind_Ok _ _ _ _ _ R2). cbn beta iota.
      exists o2. cbn [orb]. now rewrite (close_dm_other _ O).
Qed.

(** X5. Accepted throughout, [fix_channels] closes every open DM policy. For
    channels that are a dict of dicts, and with as many consenting answers
    on standard input as there are enabled channels with the DM policy
    ["open"], it reads one answer for each of them and returns [True]
    exactly when there was one. In the document it returns, these channels
    have the DM policy ["pairing"] and no enabled channel has an open one;
    the channels keep their names and their order. A second run on that
    document, whatever standard input holds, asks nothing and returns
    [False] with the document unchanged. *)
Theorem open_dm_policies_closed (cfg items : list (string * json)) (w : world) :
  Py.lookup cfg "channels" (JDict []) = JDict items ->
  all_dicts items = true -> accepting w ->
  List.length (filter open_dm items) <= List.length (w_stdin w) ->
  let changed := existsb open_dm items in
  let items' := map close_dm items in
  let cfg' := if changed then Py.update "channels" (JDict items') cfg else cfg in
  (exists outs,
     fix_channels (JDict cfg) w
     = Ok (changed, JDict cfg')
          (io (skipn (List.length (filter open_dm items)) (w_stdin w)) outs w))
  /\ Py.lookup cfg' "channels" (JDict []) = JDict items'
  /\ existsb open_dm items' = false
  /\ map fst items' = map fst items
  /\ forall w2,
       fix_channels (JDict cfg') w2
       = Ok (false, JDict cfg') (printed [channels_header] w2).
Proof.
  intros Hc A Acc Len changed items' cfg'.
  assert (Closed : existsb open_dm items' = false).
  { subst items'. clear. induction items as [|kv rest IH]; [reflexivity|].
    cbn [map existsb]. now rewrite open_dm_closed, IH. }
  assert (Dicts : all_dicts items' = true).
  { subst items'. clear - A. unfold all_dicts in *.
    induction items as [|kv rest IH]; [reflexivity|].
    cbn [map forallb] in *. apply andb_true_iff in A as [D A].
    now rewrite is_dict_closed, D, IH. }
  assert (Same : changed = false -> items' = items).
  { subst changed items'. clear. induction items as [|kv rest IH];
      [reflexivity|].
    cbn [existsb map]. intros H. apply orb_false_iff in H as [H1 H2].
    now rewrite (IH H2), (close_dm_other _ H1). }
  assert (Hc' : Py.lookup cfg' "channels" (JDict []) = JDict items').
  { subst cfg'. destruct changed eqn:C; [apply lookup_update_same|].
    now rewrite (Same eq_refl). }
  split; [|split; [exact Hc'|split; [exact Closed|split]]].
  - unfold fix_channels.
    rewrite bind_print. cbn [Py.get]. rewrite bind_lift_inr, Hc.
    assert (T : items = [] \/ Py.truthy (JDict items) = true)
      by (destruct items; [left|right]; reflexivity).
    destruct T as [E|T].
    + exists [channels_header]. subst items changed cfg'. cbn.
      destruct w; reflexivity.
    + destruct (fix_channels_loop_accepting items
                  (printed [channels_header] w) A) as (outs & R).
      { unfold accepting in *. now destruct w. }
      { now destruct w. }
      exists (channels_header :: outs).
      rewrite T. cbn [negb Py.items]. rewrite bind_lift_inr.
      cbn beta. unfold channels_header in R. rewrite (bind_Ok _ _ _ _ _ R).
      cbn beta iota.
      replace (io _ outs (printed _ w))
        with (io (skipn (List.length (filter open_dm items)) (w_stdin w))
                (channels_header :: outs) w)
        by (destruct w; unfold printed, io; cbn; now rewrite <- app_assoc).
      subst cfg' changed items'. destruct (existsb open_dm items); reflexivity.
  - subst items'. rewrite map_map. apply map_ext. apply fst_closed.
  - intros w2. unfold fix_channels.
    rewrite bind_print. cbn [Py.get]. rewrite bind_lift_inr, Hc'.
    destruct items' as [|kv rest] eqn:Ei; [reflexivity|].
    rewrite <- Ei in *. replace (Py.truthy (JDict items')) with true
      by (now rewrite Ei).
    cbn [negb Py.items]. rewrite bind_lift_inr. cbn beta.
    now rewrite (bind_Ok _ _ _ _ _
                   (fix_channels_loop_closed items' _ Dicts Closed)).
Qed.

Definition two_channels : list (string * json) :=
  [("telegram", JDict [("enabled", JBool true); ("dmPolicy", JStr "open")]);
   ("slack", JDict [("enabled", JBool false); ("dmPolicy", JStr "open")]);
   ("signal", JDict [("enabled", JBool true); ("dmPolicy", JStr "open");
                     ("groupPolicy", JStr "open")])].

Lemma open_dm_policies_closed_example :
  exists outs,
    fix_channels (JDict [("channels", JDict two_channels)])
                 (sample_world JNull ["y"; ""; "ok"])
    = Ok (true,
          JDict [("channels", JDict
             [("telegram",
               JDict [("enabled", JBool true); ("dmPolicy", JStr "pairing")]);
              ("slack",
               JDict [("enabled", JBool false); ("dmPolicy", JStr "open")]);
              ("signal",
               JDict [("enabled", JBool true); ("dmPolicy", JStr "pairing");
                      ("groupPolicy", JStr "open")])])])
         (io ["ok"] outs (sample_world JNull ["y"; ""; "ok"])).
Proof.
  destruct (open_dm_policies_closed
              [("channels", JDict two_channels)] two_channels
              (sample_world JNull ["y"; ""; "ok"])) as [H _].
  - reflexivity.
  - reflexivity.
  - unfold accepting. cbn [w_stdin sample_world].
    repeat (apply Forall_cons; [vm_compute; reflexivity|]). apply Forall_nil.
  - vm_compute. lia.
  - exact H.
Defined.

(** X6. An open group policy is reported and never fixed. For an enabled
    channel whose [groupPolicy] is ["open"] the audit prints a [FAIL] for
    the group policy. [fix_channel] either stops at its prompt with
    [EOFError] (standard input is at its end) or returns settings whose
    [groupPolicy] is still ["open"]; when the DM policy is not ["open"] it
    returns the settings as they are, without a prompt. *)
Theorem open_group_policy_is_not_fixed
        (name : string) (st : list (string * json)) (w : world) :
  Py.truthy (enabled_of st) = true -> group_policy_of st = JStr "open" ->
  (exists outs,
     Audit.check_channel name (JDict st) w = Ok tt (printed outs w)
     /\ labels outs = [(dm_severity (dm_policy_of st), ChannelDm);
                       (Fail, ChannelGroup)])
  /\ ((exists (b : bool) st' w',
         fix_channel name (JDict st) w = Ok (b, JDict st') w'
         /\ group_policy_of st' = JStr "open")
      \/ (exists w', fix_channel name (JDict st) w = Raise EOFError w'
                     /\ w_stdin w = []))
  /\ (Py.eq_str (dm_policy_of st) "open" = false ->
      fix_channel name (JDict st) w = Ok (false, JDict st) w).
Proof.
  intros E G. split; [|split].
  - destruct (check_channel_labels name st w) as (outs & R & L).
    exists outs. split; [exact R|]. rewrite L. unfold channel_labels.
    now rewrite E, G.
  - destruct (Py.eq_str (dm_policy_of st) "open") eqn:D.
    + destruct (w_stdin w) as [|a rest] eqn:S.
      * right. destruct (fix_channel_eof name st w E D S) as (outs & R).
        eexists. split; [exact R|reflexivity].
      * left. destruct (fix_channel_answer name st w a rest E D S)
          as (outs & R).
        do 3 eexists. split; [exact R|].
        destruct (consenting a); [now rewrite group_policy_kept|exact G].
    + left. exists false, st, w. split; [now apply fix_channel_quiet|exact G].
  - intros D. now apply fix_channel_quiet.
Qed.

Lemma open_group_policy_is_not_fixed_example :
  fix_channel "signal"
    (JDict [("enabled", JBool true); ("groupPolicy", JStr "open")])
    (sample_world JNull ["y"])
  = Ok (false, JDict [("enabled", JBool true); ("groupPolicy", JStr "open")])
       (sample_world JNull ["y"]).
Proof.
  destruct (open_group_policy_is_not_fixed "signal"
              [("enabled", JBool true); ("groupPolicy", JStr "open")]
              (sample_world JNull ["y"]) eq_refl eq_refl) as (_ & _ & H).
  apply H. reflexivity.
Defined.

End ChannelFixes.

(** ** A whole run of audit.py *)

Module AuditRun.
Import Audit Masking Steps Run Printing Labels Scan ChannelFacts GatewayFacts.

Definition banner : list out :=
  [Plain [Lit Colors.HEADER; Lit Colors.BOLD];
   Box "Moltbot-Audit v1.0" "AI Agent Security Config Scanner";
   Plain [Lit Colors.ENDC]].

Definition harden_banner : list out :=
  [Plain [Lit Colors.HEADER; Lit Colors.BOLD];
   Box "OpenClaw Hardener v1.0" "Automated Security Remediation";
   Plain [Lit Colors.ENDC]].

Definition not_found_line : out :=
  Plain (line "" Colors.FAIL [Lit "[!] Config file not found at: "; Sym "path"]).

Definition unreadable_line : out :=
  Plain (line "" Colors.FAIL [Lit "[!] Error reading JSON: "; Sym "e"]).

Lemma w_file_printed outs w : w_file (printed outs w) = w_file w.
Proof. now destruct w. Qed.

Lemma w_windows_printed outs w : w_windows (printed outs w) = w_windows w.
Proof. now destruct w. Qed.

Lemma w_out_printed outs w : w_out (printed outs w) = (w_out w ++ outs)%list.
Proof. now destruct w. Qed.

Lemma loaded_printed outs w : loaded (printed outs w) = loaded w.
Proof. unfold loaded. now rewrite w_file_printed. Qed.

Lemma audit_banner_printed w : Audit.print_banner w = Ok tt (printed banner w).
Proof.
  unfold Audit.print_banner. rewrite !bind_print, print_printed, !printed_app.
  reflexivity.
Qed.

Lemma harden_banner_printed w :
  Harden.print_banner w = Ok tt (printed harden_banner w).
Proof.
  unfold Harden.print_banner. rewrite !bind_print, print_printed, !printed_app.
  reflexivity.
Qed.

Lemma audit_load_missing w :
  w_file w = None ->
  Audit.load_config w = Ok None (printed [not_found_line] w).
Proof.
  intros H. unfold Audit.load_config. rewrite H. now rewrite bind_print.
Qed.

Lemma harden_load_missing w :
  w_file w = None ->
  Harden.load_config w = Ok None (printed [not_found_line] w).
Proof.
  intros H. unfold Harden.load_config. rewrite H. now rewrite bind_print.
Qed.

Lemma audit_load_loaded w config :
  loaded w = Some config ->
  Audit.load_config w = Ok (Some (Some config)) w.
Proof.
  unfold loaded, Audit.load_config.
  destruct (w_file w) as [[c m]|]; [|discriminate]. cbn [f_content].
  destruct c as [raw [c|]|c|c]; try discriminate;
    intros H; injection H as ->; reflexivity.
Qed.

Lemma harden_load_loaded w config :
  loaded w = Some config -> Harden.load_config w = Ok (Some config) w.
Proof.
  unfold loaded, Harden.load_config.
  destruct (w_file w) as [[c m]|]; [|discriminate]. cbn [f_content].
  destruct c as [raw [c|]|c|c]; try discriminate;
    intros H; injection H as ->; reflexivity.
Qed.

Lemma audit_load_unreadable w f :
  w_file w = Some f -> loaded w = None ->
  Audit.load_config w = Ok (Some None) (printed [unreadable_line] w).
Proof.
  unfold loaded, Audit.load_config. intros ->. cbn [f_content].
  destruct (f_content f) as [raw [c|]|c|c]; try discriminate;
    intros _; now rewrite bind_print.
Qed.

Lemma harden_load_unreadable w f :
  w_file w = Some f -> loaded w = None ->
  Harden.load_config w = Ok None (printed [unreadable_line] w).
Proof.
  unfold loaded, Harden.load_config. intros ->. cbn [f_content].
  destruct (f_content f) as [raw [c|]|c|c]; try discriminate;
    intros _; now rewrite bind_print.
Qed.

(** X7. When the configuration file does not exist, the two scripts part
    ways. Both print the banner and the line that says the file was not
    found; then [harden.py] returns, while [audit.py], whose [load_config]
    returns a bare [None] here, fails to unpack it and ends with
    [TypeError]. *)
Theorem audit_main_missing_file (dry_run : bool) (w : world) :
  w_file w = None ->
  Audit.main w = Raise TypeError (printed (banner ++ [not_found_line]) w)
  /\ Harden.main dry_run w
     = Ok tt (printed (harden_banner ++ [not_found_line]) w).
Proof.
  intros H. split.
  - unfold Audit.main. rewrite (bind_Ok _ _ _ _ _ (audit_banner_printed w)).
    erewrite bind_Ok
      by (apply audit_load_missing; now rewrite w_file_printed).
    unfold raise. now rewrite printed_app.
  - unfold Harden.main. rewrite (bind_Ok _ _ _ _ _ (harden_banner_printed w)).
    erewrite bind_Ok
      by (apply harden_load_missing; now rewrite w_file_printed).
    unfold ret. now rewrite printed_app.
Qed.

Definition no_file (answers : list string) : world :=
  mkWorld false answers (fun _ => Byte.x00) 0 None None true true WriteOk [].

Lemma audit_main_missing_file_example :
  Audit.main (no_file [])
  = Raise TypeError (printed (banner ++ [not_found_line]) (no_file []))
  /\ Harden.main false (no_file [])
     = Ok tt (printed (harden_banner ++ [not_found_line]) (no_file [])).
Proof. apply (audit_main_missing_file false (no_file [])). reflexivity. Defined.

(** X8. A file that is not valid JSON, or whose document is false for Python
    (an empty object or array, [null], zero, an empty string, [false]),
    gives nothing to do. Each [main] prints its banner (and, for a file it
    cannot read, the error line) and returns. The audit runs no check and
    prints neither a finding nor the line that says it is complete; the
    hardener makes no backup, asks nothing and writes nothing. *)
Theorem nothing_to_audit_or_harden (dry_run : bool) (w : world) (f : file) :
  w_file w = Some f ->
  (loaded w = None
   \/ exists config, loaded w = Some config /\ Py.truthy config = false) ->
  let said := match loaded w with
              | Some _ => []
              | None => [unreadable_line]
              end in
  Audit.main w = Ok tt (printed (banner ++ said) w)
  /\ Harden.main dry_run w = Ok tt (printed (harden_banner ++ said) w).
Proof.
  intros Hf H. cbv zeta. unfold Audit.main, Harden.main.
  rewrite (bind_Ok _ _ _ _ _ (audit_banner_printed w)).
  rewrite (bind_Ok _ _ _ _ _ (harden_banner_printed w)).
  destruct H as [L|(config & L & T)]; rewrite L.
  - erewrite !bind_Ok;
      [ | apply (harden_load_unreadable _ f);
          [now rewrite w_file_printed|now rewrite loaded_printed]
        | apply (audit_load_unreadable _ f);
          [now rewrite w_file_printed|now rewrite loaded_printed] ].
    unfold ret. now rewrite !printed_app.
  - erewrite !bind_Ok;
      [ | apply harden_load_loaded; rewrite loaded_printed; exact L
        | apply audit_load_loaded; rewrite loaded_printed; exact L ].
    cbn beta iota. rewrite T. cbn [negb]. unfold ret.
    now rewrite !app_nil_r.
Qed.

Lemma nothing_to_audit_or_harden_example :
  Audit.main (sample_world (JDict []) [])
  = Ok tt (printed banner (sample_world (JDict []) []))
  /\ Harden.main false (sample_world (JDict []) [])
     = Ok tt (printed harden_banner (sample_world (JDict []) [])).
Proof.
  apply (nothing_to_audit_or_harden false (sample_world (JDict []) [])
           (mkFile (Text "..." (Some (JDict []))) 33188) eq_refl).
  right. exists (JDict []). split; reflexivity.
Defined.

Lemma audit_main_only w : only_printed w (final (Audit.main w)).
Proof.
  unfold Audit.main.
  apply only_printed_bind; [apply audit_print_banner_only|]. intros u w1.
  apply only_printed_bind; [apply audit_load_config_only|].
  intros [[config|]|] w2; [|apply ret_only|apply raise_only].
  destruct (Py.truthy config); [|apply ret_only].
  apply only_printed_bind; [apply print_only|]. intros u1 w3.
  apply only_printed_bind; [apply check_file_permissions_only|]. intros b w4.
  apply only_printed_bind; [apply check_gateway_only|]. intros u2 w5.
  apply only_printed_bind; [apply check_channels_only|]. intros u3 w6.
  apply only_printed_bind; [apply check_secrets_only|]. intros u4 w7.
  apply print_only.
Qed.

(** X9. The audit only reads. Whatever the file holds and however the run
    ends (by returning or with an exception), [main] leaves the file, its
    mode, the backup, standard input and the random source as they were:
    it differs from the world it started in by the lines it printed. *)
Theorem audit_only_prints (w : world) :
  exists outs,
    final (Audit.main w) = printed outs w
    /\ w_file (final (Audit.main w)) = w_file w
    /\ w_backup (final (Audit.main w)) = w_backup w
    /\ w_stdin (final (Audit.main w)) = w_stdin w
    /\ w_drawn (final (Audit.main w)) = w_drawn w
    /\ w_out (final (Audit.main w)) = (w_out w ++ outs)%list.
Proof.
  destruct (audit_main_only w) as [outs E]. exists outs. rewrite E.
  destruct w. repeat split.
Qed.

(** A bind of an action that only prints, when the whole returns. *)
Lemma bind_returns_printed {A B} (m : M A) (k : A -> M B) w b w' :
  only_printed w (final (m w)) -> mbind m k w = Ok b w' ->
  exists a outs, m w = Ok a (printed outs w) /\ k a (printed outs w) = Ok b w'.
Proof.
  intros [outs E] H. apply bind_returns in H as (a & w1 & Hm & Hk).
  rewrite Hm in E. cbn [final] in E. subst w1. now exists a, outs.
Qed.

(** X10. The audit says it is complete only for a document without a detected
    secret. For a document that is loaded and true for Python: if [main]
    returns, no string reached through the keys of objects begins with a
    known prefix, and the last line printed is the one that says the
    audit is complete; and if there is such a string, [main] ends with
    an exception. *)
Theorem audit_completes_only_without_secret (w : world) (config : json) :
  loaded w = Some config -> Py.truthy config = true ->
  (forall w',
     Audit.main w = Ok tt w' ->
     first_secret config "" = None
     /\ (forall p s, located config "" p s -> detected s = false)
     /\ exists outs, w' = printed (outs ++ [complete_line]) w)
  /\ (forall p s,
        located config "" p s -> detected s = true ->
        exists e w', Audit.main w = Raise e w').
Proof.
  intros L T.
  assert (Main : forall w',
    Audit.main w = Ok tt w' ->
    first_secret config "" = None
    /\ exists outs, w' = printed (outs ++ [complete_line]) w).
  { intros w' H. unfold Audit.main in H.
    rewrite (bind_Ok _ _ _ _ _ (audit_banner_printed w)) in H.
    erewrite bind_Ok in H
      by (apply audit_load_loaded; rewrite loaded_printed; exact L).
    cbn beta iota in H. rewrite T in H. rewrite bind_print, printed_app in H.
    apply bind_returns_printed in H as (b & o1 & _ & H);
      [|apply check_file_permissions_only].
    apply bind_returns_printed in H as (u2 & o2 & _ & H);
      [|apply check_gateway_only].
    apply bind_returns_printed in H as (u3 & o3 & _ & H);
      [|apply check_channels_only].
    apply bind_returns in H as (u4 & w4 & S & H).
    rewrite check_secrets_first in S.
    destruct (first_secret config "") as [[p s]|]; [discriminate|].
    injection S as _ <-. rewrite print_printed in H. injection H as <-.
    split; [reflexivity|].
    match goal with
    | |- exists outs, printed [complete_line] ?W = _ =>
        assert (P : exists outs, W = printed outs w)
          by (rewrite !printed_app; eexists; reflexivity)
    end.
    destruct P as [outs ->]. exists outs. apply printed_app. }
  split.
  - intros w' H. destruct (Main w' H) as [N P].
    split; [exact N|]. split; [|exact P]. now apply first_secret_none.
  - intros p s Loc D. destruct (Audit.main w) as [[] w'|e w'] eqn:E.
    + destruct (Main w' eq_refl) as [N _].
      rewrite (first_secret_none _ _ N _ _ Loc) in D. discriminate.
    + now exists e, w'.
Qed.

(** A document with nothing to report but a short token. *)
Definition plain_config : list (string * json) :=
  [("gateway", JDict [("bind", JStr "loopback"); ("port", JInt 18789)]);
   ("channels",
    JDict [("telegram", JDict [("enabled", JBool true)]);
           ("slack", JDict [("enabled", JBool false)])])].

Lemma audit_completes_only_without_secret_example :
  first_secret (JDict plain_config) "" = None
  /\ exists outs,
       final (Audit.main (sample_world (JDict plain_config) []))
       = printed (outs ++ [complete_line]) (sample_world (JDict plain_config) []).
Proof.
  destruct (audit_completes_only_without_secret
              (sample_world (JDict plain_config) [])
              (JDict plain_config) eq_refl eq_refl) as [C _].
  destruct (Audit.main (sample_world (JDict plain_config) []))
    as [[] w'|e w'] eqn:E; [|vm_compute in E; discriminate].
  destruct (C w' eq_refl) as (N & _ & P). split; [exact N|exact P].
Defined.

End AuditRun.

(** ** The gateway: defaults, rotation and malformed values *)

Module GatewayRuns.
Import Audit Harden Steps Frame PyFacts GatewayFacts Printing Labels Scan
       ChannelFacts AuditRun.

Definition audit_gateway_header : out :=
  Plain (line PyStr.nl Colors.BLUE [Lit "[*] Checking Gateway (API) Security..."]).

Definition harden_gateway_header : out :=
  Plain (line PyStr.nl Colors.BLUE [Lit "[*] Checking Gateway Security..."]).

Definition weak_token_line : out :=
  Plain (line "    " Colors.WARNING [Lit "[!] Gateway token is weak (<16 chars)."]).

Definition rotate_prompt : out :=
  Prompt [Lit "    >>> Rotate to a new strong token? [Y/n] "].

Definition rotated_line (token : string) : out :=
  Plain (line "    " Colors.GREEN [Lit "[+] Token rotated: "; Val (JStr token)]).

(** The labels of the two findings of [check_gateway]. *)
Lemma check_gateway_labels cfg gw auth w :
  Py.lookup cfg "gateway" (JDict []) = JDict gw ->
  auth_of gw = JDict auth -> typed_auth auth ->
  exists outs sa,
    check_gateway (JDict cfg) w = Ok tt (printed outs w)
    /\ labels outs = [(bind_severity (bind_of gw), GatewayBind);
                      (sa, GatewayAuth)]
    /\ (Py.eq_str (mode_of auth) "none" = true -> sa = Critical)
    /\ (weak_token auth -> sa = Warn)
    /\ (settled_auth auth -> sa = Pass).
Proof.
  intros Hg Ha Ht.
  destruct (check_gateway_reports cfg gw auth w Hg Ha Ht)
    as (tb & sa & ta & w' & R & F & C & W & S).
  destruct (check_gateway_only (JDict cfg) w) as [outs E].
  rewrite R in E. cbn [final] in E. subst w'.
  exists outs, sa. split; [exact R|]. split; [|now repeat split].
  rewrite findings_printed in F. apply app_inv_head in F.
  now rewrite <- labels_findings, F.
Qed.

Lemma fresh_token_io stdin outs w : fresh_token (io stdin outs w) = fresh_token w.
Proof. now destruct w. Qed.

Lemma w_stdin_printed outs w : w_stdin (printed outs w) = w_stdin w.
Proof. now destruct w. Qed.

Lemma update_absent k v items :
  Py.assoc k items = None -> Py.update k v items = (items ++ [(k, v)])%list.
Proof.
  induction items as [|[k' v'] rest IH]; [reflexivity|]. cbn.
  destruct (String.eqb k k'); [discriminate|]. intros H. now rewrite IH.
Qed.

(** The rotation, with what it prints. *)
Lemma fix_auth_rotates changed gw auth w a rest :
  auth_of gw = JDict auth -> weak_token auth -> w_stdin w = a :: rest ->
  fix_auth changed (JDict gw) w =
  if consenting a then
    Ok (true,
        JDict (Py.update "auth"
                 (JDict (Py.update "token" (JStr (fresh_token w)) auth)) gw))
       (drew 32 (io rest [weak_token_line; rotate_prompt;
                          rotated_line (fresh_token w)] w))
  else Ok (changed, JDict gw) (io rest [weak_token_line; rotate_prompt] w).
Proof.
  intros Ha (Hn & Ht & n & Hlen & Hlt) Hin. open_world w. subst stdin.
  unfold fix_auth, consenting in *. step. cbn [Py.get].
  unfold auth_of in Ha. rewrite Ha. step. cbn [Py.get].
  unfold mode_of in Hn, Ht. rewrite Hn, Ht. step.
  unfold token_of in Hlen. rewrite Hlen. step.
  apply Nat.ltb_lt in Hlt. rewrite Hlt. step.
  destruct (consents _); step_py; rewrite <- ?app_assoc; reflexivity.
Qed.

(** X11. A gateway in token mode (the default) whose token has fewer than 16
    characters, or is absent, is reported [WARN] by the audit. When the
    bind address is not exposed, [fix_gateway] asks once; a consenting
    answer replaces the token by 64 hexadecimal characters drawn from the
    random source, and the line printed last shows the very token that was
    stored. The mode, the other keys of [auth] and the other keys of the
    gateway keep their values, and the new authentication is one that
    neither script complains about. *)
Theorem weak_token_is_rotated
        (cfg gw auth : list (string * json)) (w : world)
        (a : string) (rest : list string) :
  Py.lookup cfg "gateway" (JDict []) = JDict gw ->
  Py.in_strs (bind_of gw) exposed = false ->
  auth_of gw = JDict auth -> weak_token auth ->
  w_stdin w = a :: rest -> consenting a = true ->
  let token := fresh_token w in
  let auth' := Py.update "token" (JStr token) auth in
  let gw' := Py.update "auth" (JDict auth') gw in
  (exists outs,
     check_gateway (JDict cfg) w = Ok tt (printed outs w)
     /\ labels outs = [(bind_severity (bind_of gw), GatewayBind);
                       (Warn, GatewayAuth)])
  /\ fix_gateway (JDict cfg) w
     = Ok (true, JDict (Py.update "gateway" (JDict gw') cfg))
          (drew 32 (io rest [harden_gateway_header; weak_token_line;
                             rotate_prompt; rotated_line token] w))
  /\ token_of auth' = JStr token
  /\ String.length token = 64
  /\ matches_lower_hex token = true
  /\ mode_of auth' = mode_of auth
  /\ (forall k d, String.eqb k "token" = false ->
                  Py.lookup auth' k d = Py.lookup auth k d)
  /\ (forall k d, String.eqb k "auth" = false ->
                  Py.lookup gw' k d = Py.lookup gw k d)
  /\ settled_auth auth'.
Proof.
  intros Hg Hb Ha Hw Hin Ca token auth' gw'.
  split; [|split; [|split; [|split; [|split; [|split; [|split; [|split]]]]]]].
  - destruct (check_gateway_labels cfg gw auth w Hg Ha
                (or_intror (or_introl Hw)))
      as (outs & sa & R & L & _ & W & _).
    exists outs. split; [exact R|]. now rewrite L, (W Hw).
  - unfold fix_gateway. rewrite bind_print. cbn [Py.get].
    rewrite bind_lift_inr, Hg.
    rewrite (bind_Ok _ _ _ _ _ (fix_bind_quiet gw _ Hb)). cbn beta iota.
    pose proof (fix_auth_rotates false gw auth
                  (printed [harden_gateway_header] w)
                  a rest Ha Hw (eq_trans (w_stdin_printed _ _) Hin)) as R.
    rewrite Ca in R. rewrite (bind_Ok _ _ _ _ _ R).
    cbn beta iota. cbn [Py.setitem]. rewrite bind_lift_inr.
    unfold ret, printed. rewrite fresh_token_io, io_io.
    subst token auth' gw'. reflexivity.
  - apply lookup_update_same.
  - apply length_fresh_token.
  - apply fresh_token_is_hex.
  - unfold mode_of. now apply lookup_update_other.
  - intros k d N. now apply lookup_update_other.
  - intros k d N. now apply lookup_update_other.
  - apply settled_after_rotate; [exact Hw|apply length_fresh_token].
Qed.

Definition short_token_config : list (string * json) :=
  [("gateway",
    JDict [("port", JInt 18789);
           ("auth", JDict [("mode", JStr "token"); ("token", JStr "hunter2")])])].

Lemma weak_token_is_rotated_example :
  fix_gateway (JDict short_token_config)
              (sample_world (JDict short_token_config) ["y"])
  = Ok (true,
        JDict [("gateway",
          JDict [("port", JInt 18789);
                 ("auth", JDict [("mode", JStr "token");
                    ("token",
                     JStr (fresh_token
                             (sample_world (JDict short_token_config)
                                ["y"])))])])])
       (drew 32 (io [] [harden_gateway_header; weak_token_line; rotate_prompt;
                        rotated_line
                          (fresh_token
                             (sample_world (JDict short_token_config) ["y"]))]
                    (sample_world (JDict short_token_config) ["y"]))).
Proof.
  destruct (weak_token_is_rotated short_token_config
              [("port", JInt 18789);
               ("auth", JDict [("mode", JStr "token");
                               ("token", JStr "hunter2")])]
              [("mode", JStr "token"); ("token", JStr "hunter2")]
              (sample_world (JDict short_token_config) ["y"]) "y" [])
    as (_ & R & _).
  - reflexivity.
  - reflexivity.
  - reflexivity.
  - split; [reflexivity|]. split; [reflexivity|]. exists 7. split; [reflexivity|lia].
  - reflexivity.
  - reflexivity.
  - exact R.
Defined.

Lemma weak_token_default : weak_token [].
Proof.
  split; [reflexivity|]. split; [reflexivity|]. exists 0.
  split; [reflexivity|lia].
Qed.

(** X12. A document without a ["gateway"] key is judged on the defaults: the
    audit passes the bind address (["loopback"]) and warns about the token
    (token mode with an empty token). [fix_gateway] then asks whether to
    rotate the token: a consenting answer adds, at the end of the
    document, a gateway that holds nothing but the new token; a declining
    one leaves the document as it is. *)
Theorem missing_gateway_section
        (cfg : list (string * json)) (w : world)
        (a : string) (rest : list string) :
  Py.assoc "gateway" cfg = None -> w_stdin w = a :: rest ->
  (exists outs,
     check_gateway (JDict cfg) w = Ok tt (printed outs w)
     /\ labels outs = [(Pass, GatewayBind); (Warn, GatewayAuth)])
  /\ fix_gateway (JDict cfg) w
     = if consenting a then
         Ok (true,
             JDict (cfg ++ [("gateway",
                      JDict [("auth",
                        JDict [("token", JStr (fresh_token w))])])]))
            (drew 32 (io rest [harden_gateway_header; weak_token_line;
                               rotate_prompt; rotated_line (fresh_token w)] w))
       else
         Ok (false, JDict cfg)
            (io rest [harden_gateway_header; weak_token_line; rotate_prompt] w).
Proof.
  intros Hn Hin.
  assert (Hg : Py.lookup cfg "gateway" (JDict []) = JDict []).
  { unfold Py.lookup. now rewrite Hn. }
  split.
  - destruct (check_gateway_labels cfg [] [] w Hg eq_refl
                (or_intror (or_introl weak_token_default)))
      as (outs & sa & R & L & _ & W & _).
    exists outs. split; [exact R|]. now rewrite L, (W weak_token_default).
  - unfold fix_gateway. rewrite bind_print. cbn [Py.get].
    rewrite bind_lift_inr, Hg.
    rewrite (bind_Ok _ _ _ _ _ (fix_bind_quiet [] _ eq_refl)). cbn beta iota.
    pose proof (fix_auth_rotates false [] []
                  (printed [harden_gateway_header] w)
                  a rest eq_refl weak_token_default
                  (eq_trans (w_stdin_printed _ _) Hin)) as R.
    destruct (consenting a); rewrite (bind_Ok _ _ _ _ _ R); cbn beta iota.
    + cbn [Py.setitem]. rewrite bind_lift_inr.
      rewrite (update_absent _ _ _ Hn).
      unfold ret, printed. now rewrite fresh_token_io, io_io.
    + unfold ret, printed. now rewrite io_io.
Qed.

Lemma missing_gateway_section_example :
  fix_gateway (JDict [("channels", JDict [])])
              (sample_world JNull ["n"])
  = Ok (false, JDict [("channels", JDict [])])
       (io [] [harden_gateway_header; weak_token_line; rotate_prompt]
           (sample_world JNull ["n"])).
Proof.
  destruct (missing_gateway_section [("channels", JDict [])]
              (sample_world JNull ["n"]) "n" [] eq_refl eq_refl) as [_ R].
  exact R.
Defined.

(** X13. Values of the wrong type end the gateway checks with an exception.
    A document, a gateway or an [auth] that is not an object has no
    [get]: [AttributeError]. In token mode a token that has no length (a
    number, a boolean, [null]) makes [len] raise [TypeError]. The audit
    has printed the finding for the bind address by then; [fix_gateway],
    when the bind address is not exposed, has asked nothing. *)
Theorem malformed_gateway_raises (w : world) :
  (forall config,
     is_dict config = false ->
     check_gateway config w = Raise AttributeError (printed [audit_gateway_header] w)
     /\ fix_gateway config w
        = Raise AttributeError (printed [harden_gateway_header] w))
  /\ (forall cfg,
        is_dict (Py.lookup cfg "gateway" (JDict [])) = false ->
        check_gateway (JDict cfg) w
        = Raise AttributeError (printed [audit_gateway_header] w)
        /\ fix_gateway (JDict cfg) w
           = Raise AttributeError (printed [harden_gateway_header] w))
  /\ (forall cfg gw,
        Py.lookup cfg "gateway" (JDict []) = JDict gw ->
        is_dict (auth_of gw) = false ->
        (exists outs,
           check_gateway (JDict cfg) w = Raise AttributeError (printed outs w)
           /\ labels outs = [(bind_severity (bind_of gw), GatewayBind)])
        /\ (Py.in_strs (bind_of gw) exposed = false ->
            fix_gateway (JDict cfg) w
            = Raise AttributeError (printed [harden_gateway_header] w)))
  /\ (forall cfg gw auth,
        Py.lookup cfg "gateway" (JDict []) = JDict gw ->
        auth_of gw = JDict auth ->
        Py.eq_str (mode_of auth) "token" = true ->
        Py.len (token_of auth) = inl TypeError ->
        (exists outs,
           check_gateway (JDict cfg) w = Raise TypeError (printed outs w)
           /\ labels outs = [(bind_severity (bind_of gw), GatewayBind)])
        /\ (Py.in_strs (bind_of gw) exposed = false ->
            fix_gateway (JDict cfg) w
            = Raise TypeError (printed [harden_gateway_header] w))).
Proof.
  split; [|split; [|split]].
  - intros config D. unfold check_gateway, fix_gateway.
    rewrite !bind_print. destruct config; try discriminate; now split.
  - intros cfg D. destruct w. unfold check_gateway, fix_gateway, fix_bind.
    step. cbn [Py.get]. step.
    destruct (Py.lookup cfg "gateway" (JDict [])); try discriminate;
      cbn [Py.get]; step; split; reflexivity.
  - intros cfg gw Hg D. split.
    + destruct w.
      unfold check_gateway, bind_severity, exposed, local, bind_of, auth_of
        in *.
      step. cbn [Py.get]. rewrite Hg. step. cbn [Py.get]. step.
      destruct (Py.in_strs _ ["0.0.0.0"; "all"; "::"]);
        [|destruct (Py.in_strs _ ["loopback"; "localhost"; "127.0.0.1"])];
        step; destruct (Py.lookup gw "auth" (JDict [])); try discriminate;
        cbn [Py.get]; step; printed_done.
    + intros Hb. destruct w. unfold fix_gateway. step. cbn [Py.get].
      rewrite Hg. step. rewrite fix_bind_quiet by exact Hb. step.
      unfold fix_auth. step. cbn [Py.get]. unfold auth_of in D.
      destruct (Py.lookup gw "auth" (JDict [])); try discriminate;
        cbn [Py.get]; step; reflexivity.
  - intros cfg gw auth Hg Ha Hm Hl.
    assert (Hn : Py.eq_str (mode_of auth) "none" = false).
    { unfold Py.eq_str in *. destruct (mode_of auth); try discriminate.
      apply String.eqb_eq in Hm. now subst. }
    split.
    + destruct w.
      unfold check_gateway, bind_severity, exposed, local, bind_of, auth_of,
        mode_of, token_of in *.
      step. cbn [Py.get]. rewrite Hg. step. cbn [Py.get]. step.
      destruct (Py.in_strs _ ["0.0.0.0"; "all"; "::"]);
        [|destruct (Py.in_strs _ ["loopback"; "localhost"; "127.0.0.1"])];
        step; rewrite Ha; cbn [Py.get]; step; rewrite Hn, Hm; step;
        cbn [Py.get]; step; rewrite Hl; step; printed_done.
    + intros Hb. destruct w. unfold fix_gateway. step. cbn [Py.get].
      rewrite Hg. step. rewrite fix_bind_quiet by exact Hb. step.
      unfold fix_auth. step. cbn [Py.get]. unfold auth_of in Ha. rewrite Ha.
      step. cbn [Py.get]. unfold mode_of in Hn, Hm. rewrite Hn, Hm. step.
      cbn [Py.get]. step. unfold token_of in Hl. rewrite Hl. step.
      reflexivity.
Qed.

Definition numeric_token_config : list (string * json) :=
  [("gateway",
    JDict [("bind", JStr "loopback");
           ("auth", JDict [("mode", JStr "token"); ("token", JInt 12345)])])].

Lemma malformed_gateway_raises_example :
  check_gateway (JList []) (sample_world JNull [])
  = Raise AttributeError (printed [audit_gateway_header] (sample_world JNull []))
  /\ fix_gateway (JDict [("gateway", JNull)]) (sample_world JNull [])
     = Raise AttributeError
         (printed [harden_gateway_header] (sample_world JNull []))
  /\ fix_gateway (JDict [("gateway", JDict [("auth", JStr "token")])])
                 (sample_world JNull [])
     = Raise AttributeError
         (printed [harden_gateway_header] (sample_world JNull []))
  /\ fix_gateway (JDict numeric_token_config) (sample_world JNull [])
     = Raise TypeError (printed [harden_gateway_header] (sample_world JNull [])).
Proof.
  destruct (malformed_gateway_raises (sample_world JNull []))
    as (A & B & C & D).
  split; [apply (A (JList [])); reflexivity|].
  split; [apply (B [("gateway", JNull)]); reflexivity|].
  split.
  - apply (C [("gateway", JDict [("auth", JStr "token")])]
             [("auth", JStr "token")]); reflexivity.
  - apply (D numeric_token_config
             [("bind", JStr "loopback");
              ("auth", JDict [("mode", JStr "token"); ("token", JInt 12345)])]
             [("mode", JStr "token"); ("token", JInt 12345)]); reflexivity.
Defined.

End GatewayRuns.

(** ** More on a whole run of harden.py *)

Module HardenRuns.
Import Harden Steps Frame Run Printing Labels AuditRun.

(** The mode of the configuration file, if the file exists. *)
Definition mode_now (w : world) : option Z := option_map f_mode (w_file w).

Lemma untouched_mode w w' : untouched w w' -> mode_now w' = mode_now w.
Proof. unfold mode_now. intros (E & _). now rewrite E. Qed.

(** Writing the document keeps the mode of a file that exists. *)
Lemma save_if_modified_mode dry_run changes_made config w f :
  w_file w = Some f ->
  mode_now (final (save_if_modified dry_run changes_made config w))
  = Some (f_mode f).
Proof.
  intros Hf. open_world w. subst. unfold save_if_modified, save_config, mode_now.
  destruct changes_made, dry_run; try destruct wr; step; reflexivity.
Qed.

(** After [fix_permissions], the rest of the fixes and the save keep the
    mode of the file, and in a dry run the whole file. *)
Lemma run_fixes_mode dry_run config w b w1 f1 :
  fix_permissions w = Ok b w1 -> w_file w1 = Some f1 ->
  mode_now (final (run_fixes dry_run config w)) = Some (f_mode f1)
  /\ (dry_run = true ->
      w_file (final (run_fixes dry_run config w)) = Some f1).
Proof.
  intros P Hf. unfold run_fixes. rewrite (bind_Ok _ _ _ _ _ P). cbn beta.
  unfold mbind.
  pose proof (fix_gateway_frame config w1) as F2.
  destruct (fix_gateway config w1) as [[g c2] w2|e2 w2]; cbn [final] in F2 |- *.
  2:{ split; [rewrite (untouched_mode _ _ F2); unfold mode_now; now rewrite Hf|].
      intros _. destruct F2 as (E & _). congruence. }
  pose proof (fix_channels_frame c2 w2) as F3.
  destruct (fix_channels c2 w2) as [[c c3] w3|e3 w3]; cbn [final] in F3 |- *.
  2:{ split; [rewrite (untouched_mode _ _ F3), (untouched_mode _ _ F2);
              unfold mode_now; now rewrite Hf|].
      intros _. destruct F2 as (E2 & _), F3 as (E3 & _). congruence. }
  assert (Hf3 : w_file w3 = Some f1)
    by (destruct F2 as (E2 & _), F3 as (E3 & _); congruence).
  split; [now apply save_if_modified_mode|].
  intros D.
  destruct (save_if_modified_frame dry_run (g || c) c3 w3)
    as (w4 & E & _ & K & _).
  rewrite E. cbn [final]. now rewrite (K D).
Qed.

(** X14. A dry run still changes the mode of the file. When the permission
    fix is offered and accepted, [os.chmod] is called whether or not
    [--dry-run] was given, and nothing later in the run undoes it: at the
    end of [main], however it ends, the permission bits are those of
    0o600. In a dry run the content of the file and the backup path are
    as they were, so the mode is the one thing a dry run changes. *)
Theorem dry_run_still_changes_the_mode
        (dry_run : bool) (w : world) (f : file) (config : json)
        (a : string) (rest : list string) :
  w_windows w = false -> w_file w = Some f ->
  loaded w = Some config -> Py.truthy config = true ->
  dry_run = true \/ w_copy_ok w = true ->
  permissive (f_mode f) = true -> w_stdin w = a :: rest ->
  consenting a = true -> w_chmod_ok w = true ->
  mode_now (final (main dry_run w)) = Some (chmod_bits 384 (f_mode f))
  /\ (dry_run = true ->
      w_file (final (main dry_run w))
      = Some (mkFile (f_content f) (chmod_bits 384 (f_mode f)))
      /\ w_backup (final (main dry_run w)) = w_backup w).
Proof.
  intros Hw Hf L T B Hp Hin Ca Hc.
  destruct (main_outcome dry_run w)
    as [(w' & _ & _ & _ & N)
       |(config' & w1 & E & _ & _ & _ & F & S & Bk & Wn & Ch & _)].
  { assert (X : w_copy_ok w = true \/ dry_run = true) by tauto.
    rewrite (N X config L) in T. discriminate. }
  rewrite E.
  destruct (fix_permissions_answer w1 f a rest) as (outs & P);
    try congruence.
  rewrite Ca in P.
  destruct (run_fixes_mode dry_run config' w1 _ _
              (mkFile (f_content f) (chmod_bits 384 (f_mode f))) P)
    as [M D]; [now destruct w1|].
  split; [exact M|]. intros Dry. split; [now apply D|].
  destruct (run_fixes_frame dry_run config' w1) as (K & _).
  rewrite K, Bk. now rewrite Dry.
Qed.

Lemma dry_run_still_changes_the_mode_example :
  w_file (final (main true (sample_world (JDict AuditRun.plain_config) ["y"; "n"])))
  = Some (mkFile (Text "..." (Some (JDict AuditRun.plain_config))) 33152).
Proof.
  destruct (dry_run_still_changes_the_mode true
              (sample_world (JDict AuditRun.plain_config) ["y"; "n"])
              (mkFile (Text "..." (Some (JDict AuditRun.plain_config))) 33188)
              (JDict AuditRun.plain_config) "y" ["n"]
              eq_refl eq_refl eq_refl eq_refl (or_introl eq_refl)
              eq_refl eq_refl eq_refl eq_refl)
    as [_ D].
  destruct (D eq_refl) as [F _]. exact F.
Defined.

(** X15. Every run outside a dry run that gets as far as the backup replaces
    whatever the backup path held by a copy of the file as it is then,
    content and mode, whether or not a change follows and however the run
    ends; so a second run replaces the backup of the original file by a
    copy of the file the first run left. A dry run never touches the
    backup path. *)
Theorem backup_is_overwritten_by_each_run (w : world) (config : json) :
  loaded w = Some config -> Py.truthy config = true ->
  (w_copy_ok w = true -> w_backup (final (main false w)) = w_file w)
  /\ w_backup (final (main true w)) = w_backup w.
Proof.
  intros L T. split.
  - intros C.
    destruct (main_outcome false w)
      as [(w' & _ & _ & _ & N)
         |(config' & w1 & E & _ & _ & _ & _ & _ & Bk & _)].
    + rewrite (N (or_introl C) config L) in T. discriminate.
    + rewrite E. destruct (run_fixes_frame false config' w1) as (K & _).
      now rewrite K, Bk.
  - destruct (main_outcome true w)
      as [(w' & E & (_ & Bk & _) & _)
         |(config' & w1 & E & _ & _ & _ & _ & _ & Bk & _)].
    + rewrite E. exact Bk.
    + rewrite E. destruct (run_fixes_frame true config' w1) as (K & _).
      now rewrite K, Bk.
Qed.

(** A world in which an earlier run has left a backup. *)
Definition second_run (config : json) (answers : list string) : world :=
  mkWorld false answers (fun _ => Byte.x2a) 0
          (Some (mkFile (Dumped config) 33152))
          (Some (mkFile (Text "original" (Some JNull)) 33188))
          true true WriteOk [].

Lemma backup_is_overwritten_by_each_run_example :
  w_backup (final (main false (second_run (JDict AuditRun.plain_config) ["n"])))
  = Some (mkFile (Dumped (JDict AuditRun.plain_config)) 33152).
Proof.
  destruct (backup_is_overwritten_by_each_run
              (second_run (JDict AuditRun.plain_config) ["n"])
              (JDict AuditRun.plain_config) eq_refl eq_refl) as [B _].
  exact (B eq_refl).
Defined.

Definition saved_line : out :=
  Plain (line "" Colors.GREEN [Lit "[+] Configuration saved successfully."]).

Definition save_error_line : out :=
  Plain (line "" Colors.FAIL [Lit "[!] Error saving configuration: "; Sym "e"]).

(** X16. [save_config] never raises: it returns [True] when the document was
    written and [False], after an error line, when it was not. A written
    document is what both scripts load from the file afterwards. The mode
    of a file that exists is kept in every case, and so is the backup.
    When the file cannot be opened for writing it is left as it was. *)
Theorem save_config_outcomes (config : json) (w : world) (f : file) :
  w_file w = Some f ->
  exists w',
    save_config config w
    = Ok (match w_write w with WriteOk => true | _ => false end) w'
    /\ w_backup w' = w_backup w
    /\ mode_now w' = Some (f_mode f)
    /\ w_stdin w' = w_stdin w
    /\ match w_write w with
       | WriteOk =>
           w_file w' = Some (mkFile (Dumped config) (f_mode f))
           /\ w_out w' = (w_out w ++ [saved_line])%list
           /\ Harden.load_config w' = Ok (Some config) w'
           /\ Audit.load_config w' = Ok (Some (Some config)) w'
       | OpenFails =>
           w_file w' = w_file w
           /\ w_out w' = (w_out w ++ [save_error_line])%list
       | DumpFails => w_out w' = (w_out w ++ [save_error_line])%list
       end.
Proof.
  intros Hf. open_world w. subst. unfold save_config.
  destruct wr; step; eexists; (split; [reflexivity|]);
    repeat split; reflexivity.
Qed.

Lemma save_config_outcomes_example :
  exists w',
    save_config (JDict AuditRun.plain_config) (sample_world JNull [])
    = Ok true w'
    /\ Harden.load_config w' = Ok (Some (JDict AuditRun.plain_config)) w'.
Proof.
  destruct (save_config_outcomes (JDict AuditRun.plain_config)
              (sample_world JNull [])
              (mkFile (Text "..." (Some JNull)) 33188) eq_refl)
    as (w' & R & _ & _ & _ & _ & _ & L & _).
  exists w'. split; [exact R|exact L].
Defined.

Lemma fix_permissions_chmod_fails w f a rest :
  w_windows w = false -> w_file w = Some f -> permissive (f_mode f) = true ->
  w_stdin w = a :: rest -> consenting a = true -> w_chmod_ok w = false ->
  exists outs, fix_permissions w = Raise OSError (io rest outs w).
Proof.
  intros Hw Hf Hp Hin Ca Hc. open_world w. subst. destruct f as [c mode].
  unfold fix_permissions, consenting, permissive in *. cbn [f_mode] in Hp.
  step. rewrite Hp. step. rewrite Ca. step. io_done.
Qed.

(** X17. A [chmod] that fails ends the run. The permission fix, once accepted,
    calls [os.chmod] outside any [try]: when the call fails, [OSError]
    leaves [fix_permissions] and [main]. The gateway and the channels are
    not looked at, and the file is as it was. *)
Theorem failed_chmod_ends_the_run
        (dry_run : bool) (w : world) (f : file) (config : json)
        (a : string) (rest : list string) :
  w_windows w = false -> w_file w = Some f ->
  loaded w = Some config -> Py.truthy config = true ->
  dry_run = true \/ w_copy_ok w = true ->
  permissive (f_mode f) = true -> w_stdin w = a :: rest ->
  consenting a = true -> w_chmod_ok w = false ->
  (exists outs, fix_permissions w = Raise OSError (io rest outs w))
  /\ exists w',
       main dry_run w = Raise OSError w'
       /\ w_file w' = w_file w /\ w_stdin w' = rest.
Proof.
  intros Hw Hf L T B Hp Hin Ca Hc.
  split; [now apply (fix_permissions_chmod_fails w f a rest)|].
  destruct (main_outcome dry_run w)
    as [(w' & _ & _ & _ & N)
       |(config' & w1 & E & _ & _ & _ & F & S & Bk & Wn & Ch & _)].
  { assert (X : w_copy_ok w = true \/ dry_run = true) by tauto.
    rewrite (N X config L) in T. discriminate. }
  destruct (fix_permissions_chmod_fails w1 f a rest) as (outs & P);
    try congruence.
  exists (io rest outs w1). rewrite E. unfold run_fixes.
  rewrite (bind_Raise _ _ _ _ _ P). split; [reflexivity|].
  split; [destruct w1; exact F|now destruct w1].
Qed.

Lemma failed_chmod_ends_the_run_example :
  exists w',
    main true
      (mkWorld false ["y"] (fun _ => Byte.x00) 0
         (Some (mkFile (Text "..." (Some (JDict AuditRun.plain_config))) 33188))
         None true false WriteOk [])
    = Raise OSError w'
    /\ w_file w'
       = Some (mkFile (Text "..." (Some (JDict AuditRun.plain_config))) 33188).
Proof.
  destruct (failed_chmod_ends_the_run true
              (mkWorld false ["y"] (fun _ => Byte.x00) 0
                 (Some (mkFile (Text "..."
                                  (Some (JDict AuditRun.plain_config))) 33188))
                 None true false WriteOk [])
              (mkFile (Text "..." (Some (JDict AuditRun.plain_config))) 33188)
              (JDict AuditRun.plain_config) "y" []
              eq_refl eq_refl eq_refl eq_refl (or_introl eq_refl)
              eq_refl eq_refl eq_refl eq_refl)
    as [_ (w' & R & F & _)].
  exists w'. split; [exact R|exact F].
Defined.

Definition audit_windows_lines : list out :=
  [Plain (line "" Colors.BLUE [Lit "[*] Checking File Permissions..."]);
   Plain (line "    " Colors.WARNING
     [Lit "[!] Windows detected. Permission bits (chmod) do not apply."]);
   Plain (line "    " Colors.WARNING
     [Lit ">>> MANUAL CHECK: Right-click file -> Properties -> Security."]);
   Plain [Lit "    Ensure only you and Administrators have read access."]].

Definition harden_windows_lines : list out :=
  [Plain (line PyStr.nl Colors.BLUE [Lit "[*] Checking File Permissions..."]);
   Plain (line "    " Colors.WARNING
     [Lit "[!] Windows detected. Skipping chmod."]);
   Plain (line "    " Colors.WARNING
     [Lit ">>> Please restrict file permissions via Windows Explorer."])].

(** X18. On Windows the permission bits are not looked at. Whatever the mode
    of the file is, and even when the file is missing, the audit prints
    its advice and returns [True] without a finding, and [fix_permissions]
    prints its advice and returns [False]: it asks nothing and changes
    nothing. *)
Theorem windows_skips_the_permissions (w : world) :
  w_windows w = true ->
  Audit.check_file_permissions w = Ok true (printed audit_windows_lines w)
  /\ labels audit_windows_lines = []
  /\ fix_permissions w = Ok false (printed harden_windows_lines w).
Proof.
  intros Hw. open_world w. subst.
  unfold Audit.check_file_permissions, fix_permissions. step.
  unfold printed, io. cbn. rewrite <- !app_assoc. repeat split.
Qed.

Lemma windows_skips_the_permissions_example :
  fix_permissions
    (mkWorld true ["y"] (fun _ => Byte.x00) 0
       (Some (mkFile (Text "{}" (Some (JDict []))) 33279)) None
       true true WriteOk [])
  = Ok false
       (printed harden_windows_lines
          (mkWorld true ["y"] (fun _ => Byte.x00) 0
             (Some (mkFile (Text "{}" (Some (JDict []))) 33279)) None
             true true WriteOk [])).
Proof.
  destruct (windows_skips_the_permissions
              (mkWorld true ["y"] (fun _ => Byte.x00) 0
                 (Some (mkFile (Text "{}" (Some (JDict []))) 33279)) None
                 true true WriteOk []) eq_refl) as (_ & _ & R).
  exact R.
Defined.

End HardenRuns.

(** ** The report of a whole audit *)

Module AuditReport.
Import Audit Masking Steps Run Printing Labels Scan ChannelFacts GatewayFacts
       AuditRun GatewayRuns.

(** The label of the finding about the file permissions. *)
Definition permission_severity (mode : Z) : severity :=
  if negb (Z.land mode S_IRWXO =? 0)%Z then Fail
  else if negb (Z.land mode S_IRWXG =? 0)%Z then Warn
  else Pass.

Definition permission_labels (w : world) : list (severity * category) :=
  if w_windows w then []
  else match w_file w with
       | Some f => [(permission_severity (f_mode f), Permissions)]
       | None => []
       end.

Lemma permission_labels_printed outs w :
  permission_labels (printed outs w) = permission_labels w.
Proof. now destruct w. Qed.

Lemma check_file_permissions_labels w f :
  w_file w = Some f ->
  exists b outs,
    check_file_permissions w = Ok b (printed outs w)
    /\ labels outs = permission_labels w.
Proof.
  intros Hf. destruct w as [win stdin rnd drawn cfile bak copy chm wr o].
  cbn [w_file] in Hf. subst cfile. destruct f as [c mode].
  unfold check_file_permissions, permission_labels, permission_severity.
  destruct win; step; [eexists; printed_done|].
  destruct (Z.land mode S_IRWXO =? 0)%Z;
    [destruct (Z.land mode S_IRWXG =? 0)%Z|]; step; eexists; printed_done.
Qed.

(** X19. The report on a well-formed document without secrets. When the file
    exists and holds an object whose gateway and [auth] are objects of the
    kinds the checks tell apart, whose channels are absent or an object of
    objects, and in which no string reached through keys begins with a
    known prefix, [main] runs every check and returns. The findings come
    in this order and there are no others: the file permissions (none on
    Windows), the bind address, the authentication, then the channels;
    the last line says that the audit is complete. *)
Theorem audit_of_a_well_formed_document
        (w : world) (f : file) (cfg gw auth : list (string * json)) :
  w_file w = Some f ->
  loaded w = Some (JDict cfg) -> Py.truthy (JDict cfg) = true ->
  Py.lookup cfg "gateway" (JDict []) = JDict gw ->
  auth_of gw = JDict auth -> typed_auth auth ->
  well_formed_channels (Py.lookup cfg "channels" (JDict [])) = true ->
  first_secret (JDict cfg) "" = None ->
  exists outs sa,
    Audit.main w = Ok tt (printed (outs ++ [complete_line]) w)
    /\ labels outs
       = (permission_labels w
          ++ [(bind_severity (bind_of gw), GatewayBind); (sa, GatewayAuth)]
          ++ channels_labels (Py.lookup cfg "channels" (JDict [])))%list
    /\ (Py.eq_str (mode_of auth) "none" = true -> sa = Critical)
    /\ (weak_token auth -> sa = Warn)
    /\ (settled_auth auth -> sa = Pass).
Proof.
  intros Hf L T Hg Ha Ht Hc Hs. unfold Audit.main.
  rewrite (bind_Ok _ _ _ _ _ (audit_banner_printed w)).
  erewrite bind_Ok
    by (apply audit_load_loaded; rewrite loaded_printed; exact L).
  cbn beta iota. rewrite T. rewrite bind_print, printed_app.
  set (w1 := printed (banner ++ [target_line]) w).
  destruct (check_file_permissions_labels w1 f) as (b & o1 & R1 & L1);
    [subst w1; now rewrite w_file_printed|].
  rewrite (bind_Ok _ _ _ _ _ R1). cbn beta.
  destruct (check_gateway_labels cfg gw auth (printed o1 w1) Hg Ha Ht)
    as (o2 & sa & R2 & L2 & S2).
  rewrite (bind_Ok _ _ _ _ _ R2). cbn beta.
  destruct (check_channels_labels cfg (printed o2 (printed o1 w1)))
    as (o3 & R3 & L3).
  rewrite Hc in R3. rewrite (bind_Ok _ _ _ _ _ R3). cbn beta.
  erewrite bind_Ok by (rewrite check_secrets_first, Hs; reflexivity).
  rewrite print_printed. subst w1. rewrite !printed_app.
  exists ((banner ++ [target_line]) ++ o1 ++ o2 ++ o3 ++ [secrets_header])%list,
    sa.
  split; [now rewrite <- !app_assoc|]. split; [|exact S2].
  rewrite !labels_app, L1, L2, (L3 Hc), permission_labels_printed.
  cbn [labels flat_map label banner target_line secrets_header app].
  now rewrite app_nil_r.
Qed.

Lemma audit_of_a_well_formed_document_example :
  exists outs,
    Audit.main (sample_world (JDict plain_config) [])
    = Ok tt (printed (outs ++ [complete_line])
               (sample_world (JDict plain_config) []))
    /\ labels outs
       = [(Fail, Permissions); (Pass, GatewayBind); (Warn, GatewayAuth);
          (Pass, ChannelDm); (Pass, ChannelGroup)].
Proof.
  destruct (audit_of_a_well_formed_document
              (sample_world (JDict plain_config) [])
              (mkFile (Text "..." (Some (JDict plain_config))) 33188)
              plain_config
              [("bind", JStr "loopback"); ("port", JInt 18789)] []
              eq_refl eq_refl eq_refl eq_refl eq_refl
              (or_intror (or_introl weak_token_default)) eq_refl eq_refl)
    as (outs & sa & R & L & _ & W & _).
  exists outs. split; [exact R|]. rewrite L, (W weak_token_default).
  reflexivity.
Defined.

End AuditReport.

(** ** What harden.py writes *)

Module HardenWrites.
Import Harden Steps Frame Run Printing.

(** [config] is a dict, and [config'] is [config] or [config] with the
    value of [key] replaced or added. *)
Definition same_but (key : string) (config config' : json) : Prop :=
  exists items,
    config = JDict items
    /\ (config' = config \/ exists v, config' = JDict (Py.update key v items)).

Lemma fix_gateway_same_but config w :
  post (fix_gateway config w) (fun r _ => same_but "gateway" config (snd r)).
Proof.
  unfold fix_gateway, post, mbind, print.
  destruct config as [| | | | | |items]; try exact I. cbn [Py.get lift ret].
  destruct (fix_bind _ _) as [[c1 g1] w2|]; [|exact I].
  destruct (fix_auth c1 g1 w2) as [[c2 g2] w3|]; [|exact I].
  destruct c2; cbn; exists items; (split; [reflexivity|]);
    [right; now exists g2|now left].
Qed.

Lemma fix_channels_same_but config w :
  post (fix_channels config w) (fun r _ => same_but "channels" config (snd r)).
Proof.
  unfold fix_channels, post, mbind, print.
  destruct config as [| | | | | |items]; try exact I. cbn [Py.get lift ret].
  destruct (negb (Py.truthy _));
    [cbn; exists items; split; [reflexivity|now left]|].
  destruct (lift (Py.items _) _) as [l w2|]; [|exact I].
  destruct (fix_channels_loop l w2) as [[c l'] w3|]; [|exact I].
  destruct c; cbn; exists items; (split; [reflexivity|]);
    [right; now exists (JDict l')|now left].
Qed.

(** The keys other than [gateway] and [channels] have the values they
    had. *)
Definition others_kept (cfg cfg' : list (string * json)) : Prop :=
  forall k, String.eqb k "gateway" = false -> String.eqb k "channels" = false ->
            Py.assoc k cfg' = Py.assoc k cfg.

Lemma same_but_twice config c2 config' :
  same_but "gateway" config c2 -> same_but "channels" c2 config' ->
  exists cfg cfg',
    config = JDict cfg /\ config' = JDict cfg' /\ others_kept cfg cfg'.
Proof.
  intros (cfg & -> & S2) (items2 & E2 & S3). exists cfg.
  assert (K2 : others_kept cfg items2).
  { destruct S2 as [->|(v & ->)]; injection E2 as <-; intros k Hg Hc;
      [reflexivity|now apply PyFacts.assoc_update_other]. }
  destruct S3 as [->|(v & ->)].
  - exists items2. now rewrite E2.
  - exists (Py.update "channels" v items2).
    split; [reflexivity|]. split; [reflexivity|]. intros k Hg Hc.
    rewrite PyFacts.assoc_update_other by exact Hc. now apply K2.
Qed.

(** What the save leaves in the file. *)
Lemma save_if_modified_content dry_run changes_made config w :
  content_of (final (save_if_modified dry_run changes_made config w))
  = content_of w
  \/ (dry_run = false
      /\ (content_of (final (save_if_modified dry_run changes_made config w))
          = Some (Dumped config)
          \/ content_of (final (save_if_modified dry_run changes_made config w))
             = Some (Truncated config))).
Proof.
  open_world w. unfold save_if_modified, save_config, content_of.
  destruct changes_made, dry_run; try destruct wr; step; cbn [option_map];
    first [now left | right; split; [reflexivity|]; (now left) || (now right)].
Qed.

Lemma run_fixes_content dry_run config w :
  content_of (final (run_fixes dry_run config w)) = content_of w
  \/ (dry_run = false
      /\ exists config',
           (content_of (final (run_fixes dry_run config w))
            = Some (Dumped config')
            \/ content_of (final (run_fixes dry_run config w))
               = Some (Truncated config'))
           /\ exists c2, same_but "gateway" config c2
                         /\ same_but "channels" c2 config').
Proof.
  unfold run_fixes, mbind.
  pose proof (fix_permissions_frame w) as F1.
  destruct (fix_permissions w) as [b w1|e1 w1]; cbn [final] in F1 |- *.
  2:{ left. now apply chmod_only_content. }
  pose proof (fix_gateway_frame config w1) as F2.
  pose proof (fix_gateway_same_but config w1) as S2.
  destruct (fix_gateway config w1) as [[g c2] w2|e2 w2];
    cbn [final post snd] in F2, S2 |- *.
  2:{ left. rewrite (untouched_content _ _ F2). now apply chmod_only_content. }
  pose proof (fix_channels_frame c2 w2) as F3.
  pose proof (fix_channels_same_but c2 w2) as S3.
  destruct (fix_channels c2 w2) as [[c c3] w3|e3 w3];
    cbn [final post snd] in F3, S3 |- *.
  2:{ left. rewrite (untouched_content _ _ F3), (untouched_content _ _ F2).
      now apply chmod_only_content. }
  assert (C3 : content_of w3 = content_of w).
  { rewrite (untouched_content _ _ F3), (untouched_content _ _ F2).
    now apply chmod_only_content. }
  destruct (save_if_modified_content dry_run (g || c) c3 w3) as [E|(D & E)].
  - left. congruence.
  - right. split; [exact D|]. exists c3. split; [exact E|]. now exists c2.
Qed.

(** X20. Whatever is answered, [harden.py] rewrites nothing but the gateway and
    the channels. If a run of [main] leaves the bytes of the file
    different from what they were, it was not a dry run, the document
    loaded was an object, and the file holds (or, when the write broke
    off, was being given) an object in which every key other than
    ["gateway"] and ["channels"] has the value it had. *)
Theorem harden_rewrites_only_gateway_and_channels
        (dry_run : bool) (w : world) :
  content_of (final (main dry_run w)) <> content_of w ->
  dry_run = false
  /\ exists cfg cfg',
       loaded w = Some (JDict cfg)
       /\ (content_of (final (main dry_run w)) = Some (Dumped (JDict cfg'))
           \/ content_of (final (main dry_run w))
              = Some (Truncated (JDict cfg')))
       /\ others_kept cfg cfg'.
Proof.
  intros N.
  destruct (main_outcome dry_run w)
    as [(w' & E & U & _)
       |(config & w1 & E & L & T & _ & F & _)]; rewrite E in *.
  { cbn [final] in N. now rewrite (untouched_content _ _ U) in N. }
  assert (C1 : content_of w1 = content_of w)
    by (unfold content_of; now rewrite F).
  destruct (run_fixes_content dry_run config w1)
    as [K|(D & config' & K & c2 & S2 & S3)]; [congruence|].
  split; [exact D|].
  destruct (same_but_twice _ _ _ S2 S3) as (cfg & cfg' & -> & -> & Kept).
  exists cfg, cfg'. split; [exact L|]. split; [exact K|exact Kept].
Qed.

Definition exposed_config : list (string * json) :=
  [("name", JStr "molt");
   ("gateway", JDict [("bind", JStr "0.0.0.0"); ("port", JInt 18789)]);
   ("channels", JDict [("telegram", JDict [("enabled", JBool true);
                                           ("dmPolicy", JStr "open")])])].

Lemma harden_rewrites_only_gateway_and_channels_example :
  exists cfg',
    content_of (final (main false (sample_world (JDict exposed_config)
                                                ["y"; "y"; "n"; "y"])))
    = Some (Dumped (JDict cfg'))
    /\ Py.assoc "name" cfg' = Some (JStr "molt").
Proof.
  destruct (harden_rewrites_only_gateway_and_channels
              false (sample_world (JDict exposed_config) ["y"; "y"; "n"; "y"]))
    as (_ & cfg & cfg' & L & [K|K] & Kept).
  - vm_compute. discriminate.
  - exists cfg'. split; [exact K|]. rewrite Kept by reflexivity.
    vm_compute in L. injection L as <-. reflexivity.
  - vm_compute in K. discriminate.
Defined.

End HardenWrites.
